(** * BlastingOverview: pattern layout, charge and rock classification

    A shallow embedding of the computational core of the blasting
    application: [models/pattern_calculator.py] (square and staggered hole
    layouts) and the hole-design, charge and rock-classification formulas
    that [app.py] evaluates inline.

    Numbers.  Python's [float] is modelled by exact rationals ([Q]); a
    decimal literal of the source denotes the rational it spells ([0.024] is
    24/1000).  Rounding of binary64 arithmetic is therefore not part of the
    model: equalities between computed values are stated with [==] and hold
    in exact arithmetic.  Python's [int] is [Z].  A division whose divisor is
    not a literal can raise [ZeroDivisionError]; calls that can raise live in
    the [result] monad below, so that "does not raise" is a statement about
    the returned value. *)

From Stdlib Require Import String.
From Stdlib Require Import QArith Qround ZArith List Bool Lia Lqa.
Import ListNotations.

Open Scope Q_scope.

(** ** Exceptions and early exit *)

Inductive exn : Type :=
| ZeroDivisionError
| ValueError.

Inductive result (A : Type) : Type :=
| Ok (a : A)
| Raise (e : exn).

Arguments Ok {A} a.
Arguments Raise {A} e.

Definition bind {A B : Type} (m : result A) (k : A -> result B) : result B :=
  match m with
  | Ok a => k a
  | Raise e => Raise e
  end.

Notation "x <- m ;; k" := (bind m (fun x => k))
  (at level 61, m at next level, right associativity).

(** A loop body either falls through to the next iteration or executes a
    [return] that leaves the enclosing function with the state reached. *)
Inductive flow (S : Type) : Type :=
| Continue (s : S)
| Return (s : S).

Arguments Continue {S} s.
Arguments Return {S} s.

Definition flow_state {S : Type} (f : flow S) : S :=
  match f with
  | Continue s => s
  | Return s => s
  end.

(** [for a in l: body], threading the state [s]; a [return] inside the body
    stops the iteration, an exception propagates. *)
Fixpoint for_each {A S : Type} (body : A -> S -> result (flow S))
    (l : list A) (s : S) : result (flow S) :=
  match l with
  | [] => Ok (Continue s)
  | a :: l' =>
      match body a s with
      | Ok (Continue s') => for_each body l' s'
      | Ok (Return s') => Ok (Return s')
      | Raise e => Raise e
      end
  end.

(** ** Python primitives *)

Module Py.

(** [a < b] on floats. *)
Definition lt (a b : Q) : bool := negb (Qle_bool b a).

(** [a > b] on floats. *)
Definition gt (a b : Q) : bool := lt b a.

(** [a / b] on floats. *)
Definition div (a b : Q) : result Q :=
  if Qeq_bool b 0 then Raise ZeroDivisionError else Ok (a / b).

(** [int(x)]: truncation towards zero. *)
Definition int (x : Q) : Z := Z.quot (Qnum x) (Zpos (Qden x)).

(** [enumerate(l)]. *)
Definition enumerate {A : Type} (l : list A) : list (nat * A) :=
  combine (seq 0 (length l)) l.

(** [math.pi], the literal Python prints for it. *)
Definition math_pi : Q := 3.141592653589793.

(** [range(n)]. *)
Definition range (n : Z) : list Z := map Z.of_nat (seq 0 (Z.to_nat n)).

(** [round(x)] on a float: the nearest integer, a tie going to the even one. *)
Definition round (x : Q) : Z :=
  let f := Qfloor x in
  let r := x - inject_Z f in
  if lt r (1 # 2) then f
  else if gt r (1 # 2) then (f + 1)%Z
  else if Z.even f then f else (f + 1)%Z.

(** [math.ceil(x)]. *)
Definition ceil (x : Q) : Z := Qceiling x.

(** [l[:n]]: a negative [n] counts from the end. *)
Definition slice_to {A : Type} (l : list A) (n : Z) : list A :=
  if (n <? 0)%Z then firstn (Z.to_nat (Z.of_nat (length l) + n)) l
  else firstn (Z.to_nat n) l.

End Py.

(** ** numpy *)

Module Np.

(** [arange(0, num)] as floats. *)
Definition arange (num : Z) : list Q :=
  map (fun i => inject_Z (Z.of_nat i)) (seq 0 (Z.to_nat num)).

(** [y[-1] = v] on a non-empty array. *)
Definition set_last (y : list Q) (v : Q) : list Q := removelast y ++ [v].

(** [numpy.linspace(start, stop, num)] with the default [endpoint=True],
    following the library's implementation: the samples are
    [arange(0, num) * step + start] with [step = (stop - start) / (num - 1)],
    the denormal branch divides before it multiplies, a single sample is
    [start], and the last of several samples is overwritten by [stop]. *)
Definition linspace (start stop : Q) (num : Z) : result (list Q) :=
  if (num <? 0)%Z then Raise ValueError
  else
    let div := (num - 1)%Z in
    let delta := stop - start in
    let y := arange num in
    let y :=
      if (0 <? div)%Z then
        let step := delta / inject_Z div in
        if Qeq_bool step 0
        then map (fun v => v / inject_Z div * delta) y
        else map (fun v => v * step) y
      else map (fun v => v * delta) y in
    let y := map (fun v => v + start) y in
    Ok (if (1 <? num)%Z then set_last y stop else y).

End Np.

(** ** models/pattern_calculator.py *)

Module PatternCalculator.

(** The two accumulators [hole_positions_x], [hole_positions_y]. *)
Definition holes : Type := (list Q * list Q)%type.

(** The body of the innermost loop: append the hole, then test the limit. *)
Definition append_hole (num_holes : option Z) (y_pos x_pos : Q) (s : holes)
  : result (flow holes) :=
  let hole_positions_x := fst s ++ [x_pos] in
  let hole_positions_y := snd s ++ [y_pos] in
  match num_holes with
  | Some n =>
      if (Z.of_nat (length hole_positions_x) >=? n)%Z
      then Ok (Return (hole_positions_x, hole_positions_y))
      else Ok (Continue (hole_positions_x, hole_positions_y))
  | None => Ok (Continue (hole_positions_x, hole_positions_y))
  end.

Definition calculate_square_pattern
    (length width burden spacing : Q) (num_holes : option Z)
  : result (list Q * list Q * Z * Z) :=
  if Qle_bool burden 0 || Qle_bool spacing 0 then Ok ([], [], 0%Z, 0%Z)
  else
    wb <- Py.div width burden ;;
    let num_rows := Z.max 1 (Py.int wb) in
    ls <- Py.div length spacing ;;
    let holes_per_row := Z.max 1 (Py.int ls) in
    y_positions <- Np.linspace (burden / 2) (width - burden / 2) num_rows ;;
    x_positions <- Np.linspace (spacing / 2) (length - spacing / 2) holes_per_row ;;
    r <- for_each
           (fun y_pos s => for_each (append_hole num_holes y_pos) x_positions s)
           y_positions ([], []) ;;
    Ok (fst (flow_state r), snd (flow_state r), num_rows, holes_per_row).

(** The x positions of one row of the staggered pattern. *)
Definition staggered_row (length spacing : Q)
    (num_holes_per_row_odd num_holes_per_row_even : Z) (row_idx : nat)
  : result (list Q) :=
  if (row_idx mod 2 =? 0)%nat
  then Np.linspace (spacing / 2) (length - spacing / 2) num_holes_per_row_odd
  else Np.linspace spacing (length - spacing) num_holes_per_row_even.

Definition calculate_staggered_pattern
    (length width burden spacing : Q) (num_holes : option Z)
  : result (list Q * list Q * Z * Z * Z) :=
  if Qle_bool burden 0 || Qle_bool spacing 0 then Ok ([], [], 0%Z, 0%Z, 0%Z)
  else
    wb <- Py.div width burden ;;
    let num_rows := Z.max 1 (Py.int wb) in
    y_positions <- Np.linspace (burden / 2) (width - burden / 2) num_rows ;;
    lo <- Py.div (length - spacing / 2) spacing ;;
    let num_holes_per_row_odd := Z.max 1 (Py.int lo + 1) in
    le <- Py.div (length - spacing) spacing ;;
    let num_holes_per_row_even := Z.max 1 (Py.int le + 1) in
    r <- for_each
           (fun '(row_idx, y_pos) s =>
              x_positions <- staggered_row length spacing
                               num_holes_per_row_odd num_holes_per_row_even
                               row_idx ;;
              for_each (append_hole num_holes y_pos) x_positions s)
           (Py.enumerate y_positions) ([], []) ;;
    Ok (fst (flow_state r), snd (flow_state r), num_rows,
        num_holes_per_row_odd, num_holes_per_row_even).

(** [hole_positions_x.append(x_pos); hole_positions_y.append(y_pos)]. *)
Definition append_position (s : holes) (x_pos y_pos : Q) : holes :=
  (fst s ++ [x_pos], snd s ++ [y_pos]).

Definition calculate_manual_positions
    (length width : Q) (num_holes_per_row num_rows : Z) (pattern : string)
  : result (list Q * list Q) :=
  if (num_holes_per_row <=? 0)%Z || (num_rows <=? 0)%Z then Ok ([], [])
  else
    x_step <- Py.div length (inject_Z (num_holes_per_row + 1)) ;;
    y_step <- Py.div width (inject_Z (num_rows + 1)) ;;
    Ok (fold_left
          (fun s row_idx =>
             let y_pos := y_step * inject_Z (row_idx + 1) in
             if String.eqb pattern "staggered" && (row_idx mod 2 =? 1)%Z then
               let x_offset := x_step / 2 in
               if (row_idx =? num_rows - 1)%Z then
                 let end_pos := x_step * inject_Z num_holes_per_row + x_offset in
                 if Py.gt end_pos (length * 0.85) then
                   fold_left
                     (fun s hole_idx =>
                        let x_pos := x_offset + x_step * inject_Z hole_idx in
                        if Py.lt x_pos (length * 0.85)
                        then append_position s x_pos y_pos
                        else s)
                     (Py.range num_holes_per_row) s
                 else
                   fold_left
                     (fun s hole_idx =>
                        let x_pos := x_offset + x_step * inject_Z hole_idx in
                        append_position s x_pos y_pos)
                     (Py.range num_holes_per_row) s
               else
                 fold_left
                   (fun s hole_idx =>
                      let x_pos := x_offset + x_step * inject_Z hole_idx in
                      append_position s x_pos y_pos)
                   (Py.range num_holes_per_row) s
             else
               fold_left
                 (fun s hole_idx =>
                    let x_pos := x_step * inject_Z (hole_idx + 1) in
                    append_position s x_pos y_pos)
                 (Py.range num_holes_per_row) s)
          (Py.range num_rows) ([], [])).

Definition calculate_burden_spacing
    (num_holes : Z) (rock_type : string) (hole_diameter : Q) : Q * Q :=
  let k_factor :=
    if String.eqb rock_type "soft" then 0.045
    else if String.eqb rock_type "hard" then 0.025
    else 0.035 in
  let burden := k_factor * hole_diameter in
  let spacing := burden * 1.3 in
  (burden, spacing).

End PatternCalculator.

(** ** app.py: hole design, charge and rock classification *)

Module App.

Inductive explosive : Type :=
| ANFO
| HeavyANFO
| Slurry
| Emulsion.

(** [EXPLOSIVE_DENSITIES], g/cm3. *)
Definition EXPLOSIVE_DENSITIES (explosive_type : explosive) : Q :=
  match explosive_type with
  | ANFO => 0.85
  | HeavyANFO => 1.225
  | Slurry => 1.175
  | Emulsion => 1.3
  end.

Definition calculated_burden (hole_diameter : Z) : Q :=
  0.024 * inject_Z hole_diameter + 0.85.

Definition calculated_subdrilling (calculated_burden : Q) : Q :=
  0.4 * calculated_burden.

Definition calculated_stemming (calculated_burden : Q) : Q :=
  1.0 * calculated_burden.

Definition calculated_hole_depth (bench_height calculated_subdrilling : Q) : Q :=
  bench_height + calculated_subdrilling.

(** The values shown in the "Explosive Parameters" tab. *)
Record explosive_parameters : Type := {
  explosive_column_length : Q;
  available_hole_volume : Q;
  charge_per_hole : Q;
  total_explosive : Q;
  powder_factor_vol_per_explosive : Q;
  powder_factor_explosive_per_vol : Q
}.

Definition powder_factor_vol (blast_volume total_explosive : Q) : result Q :=
  if Py.gt total_explosive 0 then Py.div blast_volume total_explosive
  else Ok 0.

Definition powder_factor_mass (blast_volume total_explosive : Q) : result Q :=
  if Py.gt blast_volume 0 then Py.div total_explosive blast_volume
  else Ok 0.

Definition explosive_tab
    (hole_diameter : Z) (explosive_type : explosive)
    (bench_height calculated_subdrilling calculated_stemming : Q)
    (num_holes : Z) (blast_volume : Q)
  : result explosive_parameters :=
  let hole_diameter_m := inject_Z hole_diameter / 1000 in
  let explosive_density := EXPLOSIVE_DENSITIES explosive_type * 1000 in
  let explosive_column_length :=
    bench_height + calculated_subdrilling - calculated_stemming in
  let available_hole_volume :=
    Py.math_pi * (hole_diameter_m ^ 2) / 4 * explosive_column_length in
  let charge_per_hole := explosive_density * available_hole_volume in
  let total_explosive := charge_per_hole * inject_Z num_holes in
  pf_vol <- powder_factor_vol blast_volume total_explosive ;;
  pf_mass <- powder_factor_mass blast_volume total_explosive ;;
  Ok {| explosive_column_length := explosive_column_length;
        available_hole_volume := available_hole_volume;
        charge_per_hole := charge_per_hole;
        total_explosive := total_explosive;
        powder_factor_vol_per_explosive := pf_vol;
        powder_factor_explosive_per_vol := pf_mass |}.

Inductive hardness : Type :=
| VerySoft
| Soft
| Medium
| Hard
| VeryHard.

Definition rock_hardness (p_wave_velocity rock_density : Q) : hardness :=
  if Py.lt p_wave_velocity 2.5 && Py.lt rock_density 2.2 then VerySoft
  else if Py.lt p_wave_velocity 3.5 && Py.lt rock_density 2.5 then Soft
  else if Py.lt p_wave_velocity 4.5 && Py.lt rock_density 2.7 then Medium
  else if Py.lt p_wave_velocity 5.5 && Py.lt rock_density 2.9 then Hard
  else VeryHard.

(** The options of the "Water Conditions" slider. *)
Inductive water : Type :=
| Dry
| Damp
| Wet
| VeryWet.

(** The options of the "Cost Sensitivity" slider: "Low (Performance
    Priority)", "Medium", "High (Cost Priority)". *)
Inductive cost : Type :=
| LowCost
| MediumCost
| HighCost.

Definition recommended_explosive
    (water_condition : water) (rock_hardness : hardness) (cost_sensitivity : cost)
  : explosive :=
  match water_condition with
  | Dry =>
      match rock_hardness with
      | VerySoft | Soft | Medium => ANFO
      | _ =>
          match cost_sensitivity with
          | HighCost => ANFO
          | _ => HeavyANFO
          end
      end
  | Damp =>
      match cost_sensitivity with
      | HighCost => HeavyANFO
      | _ => HeavyANFO
      end
  | Wet =>
      match cost_sensitivity with
      | HighCost => HeavyANFO
      | _ => Slurry
      end
  | VeryWet =>
      match rock_hardness with
      | Hard | VeryHard => Emulsion
      | _ =>
          match cost_sensitivity with
          | HighCost => Slurry
          | _ => Emulsion
          end
      end
  end.

(** The rows "Water Resistance" (None, Low to Moderate, Good, Excellent) and
    "Relative Cost" (Low, Medium, Medium-High, High) of the decision matrix
    that the application displays, as ranks. *)
Definition water_resistance (explosive_type : explosive) : nat :=
  match explosive_type with
  | ANFO => 0
  | HeavyANFO => 1
  | Slurry => 2
  | Emulsion => 3
  end.

Definition relative_cost (explosive_type : explosive) : nat :=
  match explosive_type with
  | ANFO => 0
  | HeavyANFO => 1
  | Slurry => 2
  | Emulsion => 3
  end.

(** The pattern recommendation: [(recommended_pattern,
    recommended_pattern_name, recommended_spacing)].  An argument is [None]
    when the variable is not among [locals()]. *)
Definition recommended_pattern
    (rock_density p_wave_velocity : option Q) (calculated_burden : Q)
  : string * string * Q :=
  let square_spacing := calculated_burden in
  let staggered_spacing := 1.15 * calculated_burden in
  let rectangular_spacing := 0.9 * calculated_burden + 0.91 in
  match rock_density, p_wave_velocity with
  | Some rock_density, Some p_wave_velocity =>
      if Py.gt rock_density 2.7 || Py.gt p_wave_velocity 4.5
      then ("staggered"%string, "Staggered"%string, staggered_spacing)
      else if Py.gt rock_density 2.5 || Py.gt p_wave_velocity 3.5
      then ("square"%string, "Square or Rectangular"%string, rectangular_spacing)
      else ("square"%string, "Square or Rectangular"%string, square_spacing)
  | _, _ =>
      ("square"%string, "Square or Rectangular"%string, rectangular_spacing)
  end.

(** The update of [calculated_spacing] once the pattern is chosen;
    [recommended_spacing] is the value it holds before. *)
Definition calculated_spacing
    (pattern : string) (calculated_burden recommended_spacing : Q) : Q :=
  if String.eqb pattern "square" then calculated_burden
  else if String.eqb pattern "staggered" then 1.15 * calculated_burden
  else recommended_spacing.

(** The module namespace of the script, as far as the script asks it
    ['...' in locals()]: what [rock_density] and [p_wave_velocity] are
    bound to, [None] while a name is unbound. *)
Record namespace : Type := {
  ns_rock_density : option Q;
  ns_p_wave_velocity : option Q
}.

(** Every run of the script starts in a fresh namespace, and no statement
    before the pattern recommendation binds either name: the only
    assignments are the two [st.number_input] of the rock
    characterization, further down. *)
Definition fresh_namespace : namespace :=
  {| ns_rock_density := None; ns_p_wave_velocity := None |}.

(** One run of the script from the burden to the spacing update, in the
    order of the source: the pattern recommendation, then the explosive
    section, which binds the rock data and classifies the rock when the
    selection method is "Best according to conditions", then the pattern
    selection and the update of the spacing.  The widget values are the
    arguments; the result is [(recommended_pattern,
    recommended_pattern_name, rock_hardness, pattern, calculated_spacing)]
    and the namespace at the end, [rock_hardness] being [None] when the
    rock is not classified. *)
Definition run_pattern_selection
    (hole_diameter : Z) (explosive_selection_method : string)
    (rock_density_input p_wave_velocity_input : Q)
    (pattern_selection_method pattern_choice : string)
  : string * string * option hardness * string * Q * namespace :=
  let ns := fresh_namespace in
  let burden := calculated_burden hole_diameter in
  let '(recommended, recommended_name, recommended_spacing) :=
    recommended_pattern (ns_rock_density ns) (ns_p_wave_velocity ns) burden in
  let '(ns, hardness_found) :=
    if String.eqb explosive_selection_method "Best according to conditions"
    then
      let ns := {| ns_rock_density := Some rock_density_input;
                   ns_p_wave_velocity := ns_p_wave_velocity ns |} in
      let ns := {| ns_rock_density := ns_rock_density ns;
                   ns_p_wave_velocity := Some p_wave_velocity_input |} in
      (ns, Some (rock_hardness p_wave_velocity_input rock_density_input))
    else (ns, None) in
  let pattern :=
    if String.eqb pattern_selection_method "Use recommended pattern"
    then recommended
    else if String.eqb pattern_choice "Square or Rectangular"
         then "square"%string else "staggered"%string in
  (recommended, recommended_name, hardness_found, pattern,
   calculated_spacing pattern burden recommended_spacing, ns).

(** The default of the hole-diameter slider. *)
Definition calculated_diameter_rounded (bench_height : Q) : Z :=
  let calculated_diameter := bench_height / 120 * 1000 in
  Z.max 80 (Z.min 350 (Py.round calculated_diameter)).

(** The hole count of the "Auto calculate" mode:
    [(num_rows, num_holes_per_row, num_holes)]. *)
Definition hole_count
    (pattern blast_volume_option : string)
    (length width bench_height calculated_burden calculated_spacing
       blast_volume : Q)
  : result (Z * Z * Z) :=
  counts <-
    (if String.eqb pattern "square" then
       wb <- Py.div width calculated_burden ;;
       let num_rows := Z.max 1 (Py.int wb) in
       ls <- Py.div length calculated_spacing ;;
       let num_holes_per_row := Z.max 1 (Py.int ls) in
       let geometric_holes := (num_rows * num_holes_per_row)%Z in
       Ok (num_rows, num_holes_per_row, geometric_holes)
     else
       wb <- Py.div width calculated_burden ;;
       let num_rows := Z.max 1 (Py.int wb) in
       lo <- Py.div (length - calculated_spacing / 2) calculated_spacing ;;
       let num_holes_odd_row := Z.max 1 (Py.int lo + 1) in
       le <- Py.div (length - calculated_spacing) calculated_spacing ;;
       let num_holes_even_row := Z.max 1 (Py.int le + 1) in
       let odd_row_count := Py.ceil (inject_Z num_rows / 2) in
       let even_row_count := (num_rows - odd_row_count)%Z in
       let geometric_holes :=
         (odd_row_count * num_holes_odd_row
          + even_row_count * num_holes_even_row)%Z in
       let num_holes_per_row := Z.max num_holes_odd_row num_holes_even_row in
       Ok (num_rows, num_holes_per_row, geometric_holes)) ;;
  let '(num_rows, num_holes_per_row, geometric_holes) := counts in
  let volume_per_hole := calculated_burden * calculated_spacing * bench_height in
  if String.eqb blast_volume_option "Manual Selection" then
    n <- (if Py.gt volume_per_hole 0
          then q <- Py.div blast_volume volume_per_hole ;; Ok (Py.round q)
          else Ok 1%Z) ;;
    Ok (num_rows, num_holes_per_row, Z.max 1 n)
  else Ok (num_rows, num_holes_per_row, geometric_holes).

(** [st.session_state.recent_configs.pop()]: [None] stands for the
    [IndexError] of an empty list. *)
Definition pop {config : Type} (recent_configs : list config)
  : option (list config) :=
  match recent_configs with
  | [] => None
  | _ => Some (removelast recent_configs)
  end.

(** [save_current_config], on the configuration it has assembled: the new
    history and the number in the name "Project <number>" it returns. *)
Definition save_current_config {config : Type}
    (c : config) (recent_configs : list config) : option (list config * Z) :=
  match
    (if (Z.of_nat (length recent_configs) >=? 5)%Z
     then pop recent_configs else Some recent_configs)
  with
  | None => None
  | Some recent_configs =>
      let recent_configs := c :: recent_configs in
      Some (recent_configs, Z.of_nat (length recent_configs))
  end.

Definition load_config {config : Type}
    (config_index : Z) (recent_configs : list config) : option config :=
  if (0 <=? config_index)%Z
     && (config_index <? Z.of_nat (length recent_configs))%Z
  then nth_error recent_configs (Z.to_nat config_index)
  else None.

(** [if len(hole_positions_x) >= num_holes: break]: [Return] stands for
    the [break]. *)
Definition break_if_full (num_holes : Z) (s : PatternCalculator.holes)
  : result (flow PatternCalculator.holes) :=
  if (Z.of_nat (length (fst s)) >=? num_holes)%Z
  then Ok (Return s) else Ok (Continue s).

(** The hole positions of the "Auto calculate" mode, as both the 3D and the
    2D generation compute them: holes on the grid lines, a [break] out of
    both loops once [num_holes] are there, then [[:num_holes]]. *)
Definition auto_hole_positions
    (pattern : string) (length width calculated_burden calculated_spacing : Q)
    (num_holes : Z) : result (list Q * list Q) :=
  r <-
    (if String.eqb pattern "square" then
       ls <- Py.div length calculated_spacing ;;
       x_grid <- Np.linspace 0 length (Py.int ls + 1) ;;
       wb <- Py.div width calculated_burden ;;
       y_grid <- Np.linspace 0 width (Py.int wb + 1) ;;
       for_each
         (fun y s =>
            r <- for_each
                   (fun x s =>
                      break_if_full num_holes
                        (PatternCalculator.append_position s x y))
                   (removelast x_grid) s ;;
            break_if_full num_holes (flow_state r))
         (removelast y_grid) ([], [])
     else
       ls <- Py.div length calculated_spacing ;;
       x_grid <- Np.linspace 0 length (Py.int ls + 1) ;;
       wb <- Py.div width calculated_burden ;;
       y_grid <- Np.linspace 0 width (Py.int wb + 1) ;;
       for_each
         (fun '(row_idx, y) s =>
            let row_x_positions :=
              if (row_idx mod 2 =? 0)%nat then removelast x_grid
              else map (fun x => x + calculated_spacing / 2)
                     (removelast x_grid) in
            r <- for_each
                   (fun x s =>
                      if Qle_bool 0 x && Qle_bool x length
                      then break_if_full num_holes
                             (PatternCalculator.append_position s x y)
                      else Ok (Continue s))
                   row_x_positions s ;;
            break_if_full num_holes (flow_state r))
         (Py.enumerate (removelast y_grid)) ([], [])) ;;
  let s := flow_state r in
  Ok (Py.slice_to (fst s) num_holes, Py.slice_to (snd s) num_holes).

End App.

(** ** visualizations/view_2d.py *)

Module View2d.

(** What a call raises: an exception of the arithmetic, or the IndexError
    of a subscript out of range. *)
Inductive exception : Type :=
| Arithmetic (e : exn)
| IndexError.

(** A hole circle of the figure: centre and radius. *)
Definition circle : Type := (Q * Q * Q)%type.

(** The hole positions that [create_2d_top_view] draws its circles from:
    the positions passed when burden or spacing is None, and positions
    computed afresh from burden and spacing otherwise.  [hole_positions] is
    a pair here, so the test on its shape that opens the function holds. *)
Definition top_view_positions
    (length width : Q) (num_holes : Z) (hole_positions : list Q * list Q)
    (burden spacing : option Q) (pattern : string)
  : result (list Q * list Q) :=
  match burden, spacing with
  | Some burden, Some spacing =>
      wb <- Py.div width burden ;;
      let num_rows := Z.max 1 (Py.int wb) in
      lo <- Py.div (length - spacing / 2) spacing ;;
      le <- Py.div (length - spacing) spacing ;;
      y_positions <- Np.linspace 0 width (num_rows + 1) ;;
      ls <- Py.div length spacing ;;
      x_positions <- Np.linspace 0 length (Py.int ls + 1) ;;
      r <-
        (if String.eqb pattern "staggered" then
           for_each
             (fun '(row_idx, y_pos) s =>
                let row_x_positions :=
                  if (row_idx mod 2 =? 0)%nat then removelast x_positions
                  else map (fun x => x + spacing / 2)
                         (removelast x_positions) in
                r <- for_each
                       (fun x_pos s =>
                          if (Qle_bool 0 x_pos && Qle_bool x_pos length)
                             && (Qle_bool 0 y_pos && Qle_bool y_pos width)
                          then App.break_if_full num_holes
                                 (PatternCalculator.append_position s
                                    x_pos y_pos)
                          else Ok (Continue s))
                       row_x_positions s ;;
                App.break_if_full num_holes (flow_state r))
             (Py.enumerate (removelast y_positions)) ([], [])
         else
           for_each
             (fun y_pos s =>
                r <- for_each
                       (fun x_pos s =>
                          App.break_if_full num_holes
                            (PatternCalculator.append_position s x_pos y_pos))
                       (removelast x_positions) s ;;
                App.break_if_full num_holes (flow_state r))
             (removelast y_positions) ([], [])) ;;
      Ok (flow_state r)
  | _, _ => Ok hole_positions
  end.

(** One turn of the loop that adds the circles: hole [i] is read from the
    two position lists and its radius from [hole_radii], taken round. *)
Definition add_circle (hole_radii hole_positions_x hole_positions_y : list Q)
    (fig : exception + list circle) (i : Z) : exception + list circle :=
  match fig with
  | inl e => inl e
  | inr circles =>
      match nth_error hole_positions_x (Z.to_nat i) with
      | None => inl IndexError
      | Some x_pos =>
          match nth_error hole_positions_y (Z.to_nat i) with
          | None => inl IndexError
          | Some y_pos =>
              if (length hole_radii =? 0)%nat
              then inl (Arithmetic ZeroDivisionError)
              else
                match nth_error hole_radii
                        (Z.to_nat i mod length hole_radii) with
                | None => inl IndexError
                | Some radius => inr (circles ++ [(x_pos, y_pos, radius)])
                end
          end
      end
  end.

(** [create_2d_top_view], as far as the holes go: the circles added to the
    figure, in order.  The area rectangle, the grid lines, the labels and
    the layout of the figure do not depend on the holes and are left
    out. *)
Definition create_2d_top_view
    (length width : Q) (num_holes : Z) (hole_radii : list Q)
    (hole_positions : list Q * list Q) (burden spacing : option Q)
    (pattern : string) : exception + list circle :=
  match top_view_positions length width num_holes hole_positions burden
          spacing pattern with
  | Raise e => inl (Arithmetic e)
  | Ok (hole_positions_x, hole_positions_y) =>
      fold_left (add_circle hole_radii hole_positions_x hole_positions_y)
        (Py.range
           (Z.min num_holes (Z.of_nat (List.length hole_positions_x))))
        (inr [])
  end.

End View2d.


(** ** The layout as a sequence of points

    The nested loops of both pattern functions visit a sequence of points
    (row after row, left to right within a row); the definitions below
    name that sequence and the effect of the limit on it.  They are the
    vocabulary of the theorems, the functions above are what is verified. *)

Definition point : Type := (Q * Q)%type.

Definition row_points (y_pos : Q) (x_positions : list Q) : list point :=
  map (fun x_pos => (x_pos, y_pos)) x_positions.

Definition push (s : PatternCalculator.holes) (p : point) : PatternCalculator.holes :=
  (fst s ++ [fst p], snd s ++ [snd p]).

Definition push_all (s : PatternCalculator.holes) (pts : list point)
  : PatternCalculator.holes :=
  (fst s ++ map fst pts, snd s ++ map snd pts).

Definition limit_reached (num_holes : option Z) (n : nat) : bool :=
  match num_holes with
  | Some k => (Z.of_nat n >=? k)%Z
  | None => false
  end.

(** One loop over the points, in place of the nested ones. *)
Fixpoint take_holes (num_holes : option Z) (pts : list point)
    (s : PatternCalculator.holes) : flow PatternCalculator.holes :=
  match pts with
  | [] => Continue s
  | p :: pts' =>
      let s' := push s p in
      if limit_reached num_holes (length (fst s')) then Return s'
      else take_holes num_holes pts' s'
  end.

(** How many of [pts] are appended when [n0] holes are already there. *)
Definition taken (num_holes : option Z) (n0 : nat) (pts : list point) : nat :=
  match num_holes with
  | None => length pts
  | Some k => Nat.min (length pts) (Z.to_nat (Z.max 1 (k - Z.of_nat n0)))
  end.

(** Sample [i] of [num] evenly spaced samples from [start] to [stop]. *)
Definition lerp (start stop : Q) (num : Z) (i : nat) : Q :=
  if (num =? 1)%Z then start
  else start + inject_Z (Z.of_nat i) * (stop - start) / inject_Z (num - 1).

Definition within (lo hi v : Q) : Prop := lo <= v /\ v <= hi.

(** The points of the rows at [y_positions], row [i] (numbered from [i0])
    holding the x positions [row i]. *)
Fixpoint layout_points (row : nat -> list Q) (i0 : nat) (y_positions : list Q)
  : list point :=
  match y_positions with
  | [] => []
  | y_pos :: ys => row_points y_pos (row i0) ++ layout_points row (S i0) ys
  end.

(** The x positions of row [i] of the staggered pattern: [x_odd] on the
    rows the source calls odd (index 0, 2, ...), [x_even] on the others. *)
Definition stagger (x_odd x_even : list Q) (i : nat) : list Q :=
  if (i mod 2 =? 0)%nat then x_odd else x_even.

(** The points that [calculate_manual_positions] appends on row [r], with
    the steps it has computed. *)
Definition manual_row (length : Q) (num_holes_per_row num_rows : Z)
    (pattern : string) (x_step y_step : Q) (r : Z) : list point :=
  let y_pos := y_step * inject_Z (r + 1) in
  if String.eqb pattern "staggered" && (r mod 2 =? 1)%Z then
    let shifted := fun i => (x_step / 2 + x_step * inject_Z i, y_pos) in
    if (r =? num_rows - 1)%Z
       && Py.gt (x_step * inject_Z num_holes_per_row + x_step / 2) (length * 0.85)
    then map shifted
           (filter (fun i => Py.lt (x_step / 2 + x_step * inject_Z i) (length * 0.85))
              (Py.range num_holes_per_row))
    else map shifted (Py.range num_holes_per_row)
  else map (fun i => (x_step * inject_Z (i + 1), y_pos)) (Py.range num_holes_per_row).

Definition strictly_within (lo hi v : Q) : Prop := lo < v /\ v < hi.

(** The x position of hole [i] of row [r] in [calculate_manual_positions]. *)
Definition manual_x (pattern : string) (x_step : Q) (r i : Z) : Q :=
  if String.eqb pattern "staggered" && (r mod 2 =? 1)%Z
  then x_step / 2 + x_step * inject_Z i
  else x_step * inject_Z (i + 1).

(** The number of points in [m] rows that hold [a] and [b] points in turn. *)
Fixpoint alt_count (a b m : nat) : nat :=
  match m with
  | O => O
  | S m' => (a + alt_count b a m')%nat
  end.

(** The history after the configurations [cs] have been saved in turn,
    starting from the history [recent_configs]. *)
Definition saved_in_turn {config : Type} (cs : list config)
    (recent_configs : list config) : option (list config) :=
  fold_left
    (fun history c =>
       match history with
       | Some recent_configs =>
           option_map fst (App.save_current_config c recent_configs)
       | None => None
       end)
    cs (Some recent_configs).

(** The x positions of row [row_idx] of the grid that
    [App.auto_hole_positions] walks, [xs] being [x_grid[:-1]]. *)
Definition grid_row (pattern : string) (calculated_spacing : Q) (xs : list Q)
    (row_idx : nat) : list Q :=
  if String.eqb pattern "square" then xs
  else if (row_idx mod 2 =? 0)%nat then xs
  else map (fun x => x + calculated_spacing / 2) xs.

(** A coordinate on the near edge or inside, off the far edge. *)
Definition off_far_edge (extent v : Q) : Prop := 0 <= v /\ v < extent.

(** * Properties *)

(** ** Python primitives *)

Lemma div_ok (a b : Q) : ~ b == 0 -> Py.div a b = Ok (a / b).
Proof.
  intros Hb. unfold Py.div.
  destruct (Qeq_bool b 0) eqn:E; [|reflexivity].
  apply Qeq_bool_eq in E. contradiction.
Qed.

Lemma lt_iff (a b : Q) : Py.lt a b = true <-> a < b.
Proof.
  unfold Py.lt. rewrite negb_true_iff.
  split.
  - intros H. apply Qnot_le_lt. intros Hle.
    apply Qle_bool_iff in Hle. congruence.
  - intros H. destruct (Qle_bool b a) eqn:E; [|reflexivity].
    apply Qle_bool_iff in E. lra.
Qed.

Lemma guard_false (burden spacing : Q) :
  0 < burden -> 0 < spacing ->
  Qle_bool burden 0 || Qle_bool spacing 0 = false.
Proof.
  intros Hb Hs. apply orb_false_iff. split.
  - destruct (Qle_bool burden 0) eqn:E; [|reflexivity].
    apply Qle_bool_iff in E. lra.
  - destruct (Qle_bool spacing 0) eqn:E; [|reflexivity].
    apply Qle_bool_iff in E. lra.
Qed.

Lemma guard_true (burden spacing : Q) :
  burden <= 0 \/ spacing <= 0 ->
  Qle_bool burden 0 || Qle_bool spacing 0 = true.
Proof.
  intros [H|H]; apply orb_true_iff; [left|right]; now apply Qle_bool_iff.
Qed.

Lemma int_nonpos (x : Q) : x < 0 -> (Py.int x <= 0)%Z.
Proof.
  destruct x as [n d]. unfold Py.int, Qlt. simpl. intros H.
  assert (Hn : (n < 0)%Z) by lia.
  replace n with (- (- n))%Z by lia.
  rewrite Z.quot_opp_l by lia.
  pose proof (Z.quot_pos (- n) (Z.pos d)). lia.
Qed.

Lemma int_floor (x : Q) : 0 <= x -> Py.int x = Qfloor x.
Proof.
  destruct x as [n d]. unfold Py.int, Qle. simpl. intros H.
  apply Z.quot_div_nonneg; lia.
Qed.

Lemma max_int_floor (x : Q) : Z.max 1 (Py.int x) = Z.max 1 (Qfloor x).
Proof.
  destruct (Qlt_le_dec x 0) as [Hneg|Hpos].
  - pose proof (int_nonpos x Hneg).
    assert (Qfloor x <= 0)%Z.
    { assert (Hle : x <= inject_Z 0) by (apply Qlt_le_weak; exact Hneg).
      pose proof (Qfloor_resp_le _ _ Hle) as Hf. rewrite Qfloor_Z in Hf. exact Hf. }
    lia.
  - now rewrite int_floor.
Qed.

Lemma int_le (x : Q) (k : Z) : (1 <= k)%Z -> (k <= Py.int x)%Z -> inject_Z k <= x.
Proof.
  intros Hk Hi.
  destruct (Qlt_le_dec x 0) as [Hneg|Hpos].
  - pose proof (int_nonpos x Hneg). lia.
  - rewrite int_floor in Hi by assumption.
    apply Qle_trans with (inject_Z (Qfloor x)).
    + rewrite <- Zle_Qle. exact Hi.
    + apply Qfloor_le.
Qed.

(** ** numpy.linspace *)

Lemma nth_map_seq (f : nat -> Q) (n i : nat) (d : Q) :
  (i < n)%nat -> nth i (map f (seq 0 n)) d = f i.
Proof.
  intros Hi.
  rewrite (nth_indep _ d (f 0%nat)) by (rewrite length_map, length_seq; exact Hi).
  rewrite map_nth, seq_nth by exact Hi. reflexivity.
Qed.

Lemma set_last_length (y : list Q) (v : Q) :
  y <> [] -> length (Np.set_last y v) = length y.
Proof.
  intros Hy. unfold Np.set_last.
  rewrite length_app, removelast_firstn_len, length_firstn. simpl.
  destruct y; [contradiction|simpl; lia].
Qed.

Lemma set_last_nth (y : list Q) (v d : Q) (i : nat) :
  (i < length y)%nat ->
  nth i (Np.set_last y v) d = if (S i =? length y)%nat then v else nth i y d.
Proof.
  intros Hi. unfold Np.set_last. rewrite removelast_firstn_len.
  destruct (S i =? length y)%nat eqn:E.
  - apply Nat.eqb_eq in E.
    rewrite app_nth2; rewrite length_firstn.
    + replace (i - Nat.min (pred (length y)) (length y))%nat with 0%nat by lia.
      reflexivity.
    + lia.
  - apply Nat.eqb_neq in E.
    rewrite app_nth1 by (rewrite length_firstn; lia).
    rewrite nth_firstn.
    destruct (i <? pred (length y))%nat eqn:E'; [reflexivity|].
    apply Nat.ltb_ge in E'. lia.
Qed.

(** [linspace] returns [num] samples, sample [i] being the interpolant. *)
Lemma linspace_spec (start stop : Q) (num : Z) :
  (1 <= num)%Z ->
  exists l, Np.linspace start stop num = Ok l /\
            length l = Z.to_nat num /\
            forall i, (i < Z.to_nat num)%nat ->
                      nth i l 0 == lerp start stop num i.
Proof.
  intros Hnum. unfold Np.linspace, Np.arange.
  destruct (Z.ltb_spec num 0) as [Hneg|_]; [lia|].
  eexists. split; [reflexivity|].
  destruct (Z.ltb_spec 1 num) as [Hmany|Hone].
  - (* several samples *)
    destruct (Z.ltb_spec 0 (num - 1)) as [_|Hc]; [|lia].
    assert (Hdiv : ~ inject_Z (num - 1) == 0).
    { intros H. apply (Qeq_eq_bool) in H.
      unfold Qeq_bool in H. simpl in H. apply Z.eqb_eq in H. lia. }
    assert (Hlen : forall g : Q -> Q,
               length (map (fun v => v + start)
                         (map g (map (fun i => inject_Z (Z.of_nat i))
                                   (seq 0 (Z.to_nat num))))) = Z.to_nat num)
      by (intros g; now rewrite !length_map, length_seq).
    assert (Hne : forall g : Q -> Q,
               map (fun v => v + start)
                 (map g (map (fun i => inject_Z (Z.of_nat i))
                           (seq 0 (Z.to_nat num)))) <> []).
    { intros g H. apply (f_equal (@length Q)) in H. rewrite Hlen in H.
      simpl in H. lia. }
    split.
    + destruct (Qeq_bool _ 0); rewrite set_last_length, Hlen; auto.
    + intros i Hi. unfold lerp.
      destruct (Z.eqb_spec num 1) as [H1|_]; [lia|].
      destruct (Qeq_bool ((stop - start) / inject_Z (num - 1)) 0) eqn:Estep;
        rewrite set_last_nth by (rewrite Hlen; exact Hi);
        rewrite Hlen;
        (destruct (Nat.eqb_spec (S i) (Z.to_nat num)) as [Hlast|Hmid];
         [ replace (Z.of_nat i) with (num - 1)%Z by lia; field; exact Hdiv
         | rewrite !map_map, nth_map_seq by exact Hi; field; exact Hdiv ]).
  - (* a single sample *)
    assert (num = 1)%Z by lia. subst num. simpl.
    split; [reflexivity|].
    intros i Hi. assert (i = 0)%nat by lia. subst i.
    unfold lerp. simpl. ring.
Qed.

Lemma lerp_within (start stop : Q) (num : Z) (i : nat) :
  (1 < num)%Z -> (Z.of_nat i < num)%Z -> start <= stop ->
  within start stop (lerp start stop num i).
Proof.
  intros Hnum Hi Hle. unfold lerp, within.
  destruct (Z.eqb_spec num 1) as [H1|_]; [lia|].
  set (d := inject_Z (num - 1)).
  set (k := inject_Z (Z.of_nat i)).
  assert (Hd : 0 < d).
  { unfold d. replace 0 with (inject_Z 0) by reflexivity.
    rewrite <- Zlt_Qlt. lia. }
  assert (Hk0 : 0 <= k).
  { unfold k. replace 0 with (inject_Z 0) by reflexivity.
    rewrite <- Zle_Qle. lia. }
  assert (Hkd : k <= d).
  { unfold k, d. rewrite <- Zle_Qle. lia. }
  assert (Hfrac0 : 0 <= k * (stop - start) / d).
  { apply Qle_shift_div_l; [exact Hd|].
    rewrite Qmult_0_l. apply Qmult_le_0_compat; lra. }
  assert (Hfrac1 : k * (stop - start) / d <= stop - start).
  { apply Qle_shift_div_r; [exact Hd|].
    rewrite (Qmult_comm (stop - start) d).
    apply Qmult_le_compat_r; lra. }
  split; lra.
Qed.

(** Every sample lies in a range that holds [start] and, when there are
    several samples, the whole segment from [start] to [stop]. *)
Lemma linspace_within (start stop lo hi : Q) (num : Z) (l : list Q) :
  (1 <= num)%Z ->
  Np.linspace start stop num = Ok l ->
  within lo hi start ->
  ((1 < num)%Z -> start <= stop /\ stop <= hi) ->
  Forall (within lo hi) l.
Proof.
  intros Hnum Hl [Hlo Hhi] Hmany.
  destruct (linspace_spec start stop num Hnum) as (l' & Hl' & Hlen & Hnth).
  rewrite Hl in Hl'. injection Hl' as <-.
  apply Forall_forall. intros v Hv.
  destruct (In_nth l v 0 Hv) as (i & Hi & <-).
  rewrite Hlen in Hi. specialize (Hnth i Hi).
  unfold within. rewrite Hnth.
  destruct (Z_lt_le_dec 1 num) as [Hgt|Hle1].
  - destruct (Hmany Hgt) as [Hss Hsh].
    destruct (lerp_within start stop num i Hgt ltac:(lia) Hss) as [H1 H2].
    split; lra.
  - unfold lerp. destruct (Z.eqb_spec num 1) as [_|Hn]; [|lia].
    split; assumption.
Qed.

(** ** The nested loops visit the points in order *)

Import PatternCalculator.

Lemma inner_loop (num_holes : option Z) (y_pos : Q) (x_positions : list Q) (s : holes) :
  for_each (append_hole num_holes y_pos) x_positions s
  = Ok (take_holes num_holes (row_points y_pos x_positions) s).
Proof.
  revert s. induction x_positions as [|x xs IH]; intros s; simpl; [reflexivity|].
  unfold append_hole, push, limit_reached. simpl.
  destruct num_holes as [k|]; [|apply IH].
  destruct (Z.of_nat (length (fst s ++ [x])) >=? k)%Z; [reflexivity|apply IH].
Qed.

Lemma take_holes_app (num_holes : option Z) (l1 l2 : list point) (s : holes) :
  take_holes num_holes (l1 ++ l2) s
  = match take_holes num_holes l1 s with
    | Continue s' => take_holes num_holes l2 s'
    | Return s' => Return s'
    end.
Proof.
  revert s. induction l1 as [|p l1 IH]; intros s; simpl; [reflexivity|].
  destruct (limit_reached num_holes _); [reflexivity|apply IH].
Qed.

Lemma square_loop (num_holes : option Z) (x_positions y_positions : list Q)
    (i0 : nat) (s : holes) :
  for_each (fun y_pos s => for_each (append_hole num_holes y_pos) x_positions s)
    y_positions s
  = Ok (take_holes num_holes (layout_points (fun _ => x_positions) i0 y_positions) s).
Proof.
  revert i0 s. induction y_positions as [|y ys IH]; intros i0 s; simpl; [reflexivity|].
  rewrite inner_loop, take_holes_app.
  destruct (take_holes num_holes (row_points y x_positions) s); [apply IH|reflexivity].
Qed.

Lemma staggered_loop (num_holes : option Z) (length spacing : Q) (n_odd n_even : Z)
    (row : nat -> list Q) (y_positions : list Q) (i0 : nat) (s : holes) :
  (forall i, staggered_row length spacing n_odd n_even i = Ok (row i)) ->
  for_each
    (fun '(row_idx, y_pos) s =>
       x_positions <- staggered_row length spacing n_odd n_even row_idx ;;
       for_each (append_hole num_holes y_pos) x_positions s)
    (combine (seq i0 (List.length y_positions)) y_positions) s
  = Ok (take_holes num_holes (layout_points row i0 y_positions) s).
Proof.
  intros Hrow. revert i0 s.
  induction y_positions as [|y ys IH]; intros i0 s; simpl; [reflexivity|].
  rewrite Hrow. simpl. rewrite inner_loop, take_holes_app.
  destruct (take_holes num_holes (row_points y (row i0)) s); [apply IH|reflexivity].
Qed.

Lemma push_all_cons (s : holes) (p : point) (pts : list point) :
  push_all s (p :: pts) = push_all (push s p) pts.
Proof.
  unfold push_all, push. simpl. now rewrite <- !app_assoc.
Qed.

Lemma push_all_nil (s : holes) : push_all s [] = s.
Proof. unfold push_all. simpl. rewrite !app_nil_r. now destruct s. Qed.

(** With [n0] holes in the accumulators, the loop appends the first
    [taken num_holes n0 pts] points, whether it leaves by [return] or not. *)
Lemma take_holes_spec (num_holes : option Z) (pts : list point) (s : holes) :
  flow_state (take_holes num_holes pts s)
  = push_all s (firstn (taken num_holes (List.length (fst s)) pts) pts).
Proof.
  revert s. induction pts as [|p pts IH]; intros s.
  - simpl. rewrite firstn_nil. now rewrite push_all_nil.
  - change (take_holes num_holes (p :: pts) s)
      with (if limit_reached num_holes (List.length (fst (push s p)))
            then Return (push s p)
            else take_holes num_holes pts (push s p)).
    assert (Hlen : List.length (fst (push s p)) = S (List.length (fst s))).
    { unfold push. simpl. rewrite length_app. simpl. lia. }
    destruct (limit_reached num_holes (List.length (fst (push s p)))) eqn:E.
    + simpl. destruct num_holes as [k|]; [|discriminate].
      unfold limit_reached in E. rewrite Hlen in E. apply Z.geb_le in E.
      unfold taken. simpl List.length.
      replace (Nat.min _ _) with 1%nat by lia.
      reflexivity.
    + rewrite IH, Hlen.
      replace (taken num_holes (List.length (fst s)) (p :: pts))
        with (S (taken num_holes (S (List.length (fst s))) pts)).
      * simpl firstn. now rewrite push_all_cons.
      * unfold taken. destruct num_holes as [k|]; [|reflexivity].
        unfold limit_reached in E. rewrite Hlen in E.
        assert (Z.of_nat (S (List.length (fst s))) < k)%Z.
        { destruct (Z.geb_spec (Z.of_nat (S (List.length (fst s)))) k); [discriminate|lia]. }
        simpl List.length. lia.
Qed.

Lemma take_holes_empty (num_holes : option Z) (pts : list point) :
  flow_state (take_holes num_holes pts ([], []))
  = (map fst (firstn (taken num_holes 0 pts) pts),
     map snd (firstn (taken num_holes 0 pts) pts)).
Proof. rewrite take_holes_spec. reflexivity. Qed.

(** ** What the two pattern functions return *)

Lemma pos_neq0 (q : Q) : 0 < q -> ~ q == 0.
Proof. intros H E. rewrite E in H. now apply Qlt_irrefl in H. Qed.

Lemma max1_pos (z : Z) : (1 <= Z.max 1 z)%Z.
Proof. lia. Qed.

(** For positive burden and spacing the square pattern returns, without
    raising, a prefix of the points of its grid, rows first. *)
Lemma square_result (length width burden spacing : Q) (num_holes : option Z) :
  0 < burden -> 0 < spacing ->
  exists y_positions x_positions,
    Np.linspace (burden / 2) (width - burden / 2)
      (Z.max 1 (Py.int (width / burden))) = Ok y_positions /\
    Np.linspace (spacing / 2) (length - spacing / 2)
      (Z.max 1 (Py.int (length / spacing))) = Ok x_positions /\
    let pts := layout_points (fun _ => x_positions) 0 y_positions in
    calculate_square_pattern length width burden spacing num_holes
    = Ok (map fst (firstn (taken num_holes 0 pts) pts),
          map snd (firstn (taken num_holes 0 pts) pts),
          Z.max 1 (Py.int (width / burden)),
          Z.max 1 (Py.int (length / spacing))).
Proof.
  intros Hb Hs.
  destruct (linspace_spec (burden / 2) (width - burden / 2)
              (Z.max 1 (Py.int (width / burden))) (max1_pos _))
    as (yps & Hy & _).
  destruct (linspace_spec (spacing / 2) (length - spacing / 2)
              (Z.max 1 (Py.int (length / spacing))) (max1_pos _))
    as (xps & Hx & _).
  exists yps, xps. split; [exact Hy|]. split; [exact Hx|].
  intros pts. unfold calculate_square_pattern.
  rewrite (guard_false _ _ Hb Hs).
  rewrite (div_ok width burden (pos_neq0 _ Hb)).
  rewrite (div_ok length spacing (pos_neq0 _ Hs)).
  cbn [bind]. rewrite Hy, Hx. cbn [bind].
  rewrite (square_loop num_holes xps yps 0). cbn [bind].
  fold pts. rewrite take_holes_empty. reflexivity.
Qed.

Lemma staggered_result (length width burden spacing : Q) (num_holes : option Z) :
  0 < burden -> 0 < spacing ->
  exists y_positions x_odd x_even,
    Np.linspace (burden / 2) (width - burden / 2)
      (Z.max 1 (Py.int (width / burden))) = Ok y_positions /\
    Np.linspace (spacing / 2) (length - spacing / 2)
      (Z.max 1 (Py.int ((length - spacing / 2) / spacing) + 1)) = Ok x_odd /\
    Np.linspace spacing (length - spacing)
      (Z.max 1 (Py.int ((length - spacing) / spacing) + 1)) = Ok x_even /\
    let pts := layout_points (stagger x_odd x_even) 0 y_positions in
    calculate_staggered_pattern length width burden spacing num_holes
    = Ok (map fst (firstn (taken num_holes 0 pts) pts),
          map snd (firstn (taken num_holes 0 pts) pts),
          Z.max 1 (Py.int (width / burden)),
          Z.max 1 (Py.int ((length - spacing / 2) / spacing) + 1),
          Z.max 1 (Py.int ((length - spacing) / spacing) + 1)).
Proof.
  intros Hb Hs.
  destruct (linspace_spec (burden / 2) (width - burden / 2)
              (Z.max 1 (Py.int (width / burden))) (max1_pos _))
    as (yps & Hy & _).
  destruct (linspace_spec (spacing / 2) (length - spacing / 2)
              (Z.max 1 (Py.int ((length - spacing / 2) / spacing) + 1)) (max1_pos _))
    as (xo & Hxo & _).
  destruct (linspace_spec spacing (length - spacing)
              (Z.max 1 (Py.int ((length - spacing) / spacing) + 1)) (max1_pos _))
    as (xe & Hxe & _).
  exists yps, xo, xe. repeat (split; [assumption|]).
  intros pts. unfold calculate_staggered_pattern.
  rewrite (guard_false _ _ Hb Hs).
  rewrite (div_ok width burden (pos_neq0 _ Hb)).
  rewrite !(div_ok _ spacing (pos_neq0 _ Hs)).
  cbn [bind]. rewrite Hy. cbn [bind]. unfold Py.enumerate.
  rewrite (staggered_loop num_holes length spacing _ _ (stagger xo xe) yps 0).
  - cbn [bind]. fold pts. rewrite take_holes_empty. reflexivity.
  - intros i. unfold staggered_row, stagger.
    destruct (i mod 2 =? 0)%nat; assumption.
Qed.

(** ** The sequence of points *)

Lemma taken_none (pts : list point) : firstn (taken None 0 pts) pts = pts.
Proof. apply firstn_all. Qed.

Lemma taken_some (k : Z) (pts : list point) :
  (1 <= k)%Z -> (k < Z.of_nat (List.length pts))%Z ->
  taken (Some k) 0 pts = Z.to_nat k.
Proof. intros H1 H2. unfold taken. simpl Z.of_nat. lia. Qed.

Lemma taken_nonpos (k : Z) (p : point) (pts : list point) :
  (k <= 0)%Z -> taken (Some k) 0 (p :: pts) = 1%nat.
Proof. intros H. unfold taken. simpl List.length. simpl Z.of_nat. lia. Qed.

Lemma Forall_firstn {A : Type} (P : A -> Prop) (n : nat) (l : list A) :
  Forall P l -> Forall P (firstn n l).
Proof.
  intros H. rewrite <- (firstn_skipn n l) in H.
  now apply Forall_app in H.
Qed.

Lemma layout_fst_Forall (P : Q -> Prop) (row : nat -> list Q) (i0 : nat)
    (y_positions : list Q) :
  (forall i, Forall P (row i)) ->
  Forall P (map fst (layout_points row i0 y_positions)).
Proof.
  intros Hrow. revert i0.
  induction y_positions as [|y ys IH]; intros i0; simpl; [constructor|].
  rewrite map_app. apply Forall_app. split; [|apply IH].
  unfold row_points. rewrite map_map. simpl. rewrite map_id. apply Hrow.
Qed.

Lemma layout_snd_Forall (P : Q -> Prop) (row : nat -> list Q) (i0 : nat)
    (y_positions : list Q) :
  Forall P y_positions ->
  Forall P (map snd (layout_points row i0 y_positions)).
Proof.
  intros Hy. revert i0.
  induction Hy as [|y ys Hy Hys IH]; intros i0; simpl; [constructor|].
  rewrite map_app. apply Forall_app. split; [|apply IH].
  unfold row_points. rewrite map_map. simpl.
  apply Forall_map. apply Forall_forall. intros; exact Hy.
Qed.

Lemma row_points_length (y : Q) (xs : list Q) :
  List.length (row_points y xs) = List.length xs.
Proof. apply length_map. Qed.

Lemma row_points_nth (y : Q) (xs : list Q) (c : nat) :
  (c < List.length xs)%nat ->
  nth c (row_points y xs) (0, 0) = (nth c xs 0, y).
Proof.
  intros Hc. unfold row_points.
  rewrite (nth_indep _ (0, 0) (0, y)) by (rewrite length_map; exact Hc).
  exact (map_nth (fun x_pos => (x_pos, y)) xs 0 c).
Qed.

(** In a grid whose rows all hold [x_positions], the point at index
    [r * holes_per_row + c] is column [c] of row [r]. *)
Lemma grid_length (x_positions y_positions : list Q) (i0 : nat) :
  List.length (layout_points (fun _ => x_positions) i0 y_positions)
  = (List.length y_positions * List.length x_positions)%nat.
Proof.
  revert i0. induction y_positions as [|y ys IH]; intros i0; simpl; [reflexivity|].
  now rewrite length_app, row_points_length, IH.
Qed.

Lemma grid_nth (x_positions y_positions : list Q) (i0 r c : nat) :
  (r < List.length y_positions)%nat -> (c < List.length x_positions)%nat ->
  nth (r * List.length x_positions + c)
    (layout_points (fun _ => x_positions) i0 y_positions) (0, 0)
  = (nth c x_positions 0, nth r y_positions 0).
Proof.
  revert i0 r. induction y_positions as [|y ys IH]; intros i0 r Hr Hc; simpl in Hr.
  - lia.
  - simpl layout_points. destruct r as [|r].
    + simpl Nat.mul. simpl Nat.add.
      rewrite app_nth1 by (rewrite row_points_length; exact Hc).
      now rewrite row_points_nth.
    + rewrite app_nth2 by (rewrite row_points_length; simpl; lia).
      rewrite row_points_length.
      replace (S r * List.length x_positions + c - List.length x_positions)%nat
        with (r * List.length x_positions + c)%nat by (simpl; lia).
      rewrite IH by lia. reflexivity.
Qed.

Lemma nth_map_fst (pts : list point) (i : nat) : nth i (map fst pts) 0 = fst (nth i pts (0, 0)).
Proof. change 0 with (fst (0, 0)) at 1. apply map_nth. Qed.

Lemma nth_map_snd (pts : list point) (i : nat) : nth i (map snd pts) 0 = snd (nth i pts (0, 0)).
Proof. change 0 with (snd (0, 0)) at 1. apply map_nth. Qed.

Lemma lerp_first (start stop : Q) (num : Z) : lerp start stop num 0 == start.
Proof.
  unfold lerp. destruct (num =? 1)%Z; [reflexivity|].
  simpl inject_Z. unfold Qdiv. ring.
Qed.

Lemma lerp_last (start stop : Q) (num : Z) :
  (1 < num)%Z -> lerp start stop num (Z.to_nat (num - 1)) == stop.
Proof.
  intros H. unfold lerp. destruct (Z.eqb_spec num 1); [lia|].
  rewrite Z2Nat.id by lia. field.
  intros E. apply Qeq_eq_bool in E. unfold Qeq_bool in E. simpl in E.
  apply Z.eqb_eq in E. lia.
Qed.

Lemma int_mul_le (x s : Q) (k : Z) :
  0 < s -> (1 <= k)%Z -> (k <= Py.int (x / s))%Z -> inject_Z k * s <= x.
Proof.
  intros Hs Hk Hi. pose proof (int_le _ _ Hk Hi) as H.
  apply (Qmult_le_compat_r _ _ s) in H; [|lra].
  rewrite (Qmult_comm (x / s) s), Qmult_div_r in H by (apply pos_neq0; exact Hs).
  exact H.
Qed.

(** ** The number of points of a layout *)

Lemma linspace_length (start stop : Q) (num : Z) (l : list Q) :
  (1 <= num)%Z -> Np.linspace start stop num = Ok l ->
  List.length l = Z.to_nat num.
Proof.
  intros Hnum Hl.
  destruct (linspace_spec start stop num Hnum) as (l' & Hl' & Hlen & _).
  rewrite Hl in Hl'. injection Hl' as <-. exact Hlen.
Qed.

Lemma stagger_SS (x_odd x_even : list Q) (i : nat) :
  stagger x_odd x_even (S (S i)) = stagger x_odd x_even i.
Proof.
  unfold stagger. replace (S (S i)) with (i + 1 * 2)%nat by lia.
  now rewrite Nat.Div0.mod_add.
Qed.

Lemma stagger_length (x_odd x_even y_positions : list Q) (i0 : nat) :
  List.length (layout_points (stagger x_odd x_even) i0 y_positions)
  = alt_count (List.length (stagger x_odd x_even i0))
      (List.length (stagger x_odd x_even (S i0))) (List.length y_positions).
Proof.
  revert i0. induction y_positions as [|y ys IH]; intros i0; simpl; [reflexivity|].
  rewrite length_app, row_points_length, IH, stagger_SS. reflexivity.
Qed.

Lemma alt_count_closed (m a b : nat) :
  Z.of_nat (alt_count a b m)
  = ((Z.of_nat m + 1) / 2 * Z.of_nat a
     + (Z.of_nat m - (Z.of_nat m + 1) / 2) * Z.of_nat b)%Z.
Proof.
  revert a b. induction m as [|m IH]; intros a b.
  - reflexivity.
  - cbn [alt_count]. rewrite Nat2Z.inj_add, IH.
    assert (Hq : ((Z.of_nat (S m) + 1) / 2
                  = Z.of_nat m + 1 - (Z.of_nat m + 1) / 2)%Z)
      by (Z.to_euclidean_division_equations; lia).
    rewrite Hq. replace (Z.of_nat (S m)) with (Z.of_nat m + 1)%Z by lia. ring.
Qed.

(** * The properties of the specification *)

(** C6.  Degenerate geometry: when [burden <= 0] or [spacing <= 0] (zero
    included) both pattern functions return the empty layout (no
    coordinates, zero rows, zero holes per row) whatever the limit, and
    raise nothing: the guard is taken before any division. *)
Theorem degenerate_geometry_empty_layout
    (length width burden spacing : Q) (num_holes : option Z) :
  burden <= 0 \/ spacing <= 0 ->
  calculate_square_pattern length width burden spacing num_holes
  = Ok ([], [], 0%Z, 0%Z)
  /\ calculate_staggered_pattern length width burden spacing num_holes
     = Ok ([], [], 0%Z, 0%Z, 0%Z).
Proof.
  intros H. unfold calculate_square_pattern, calculate_staggered_pattern.
  rewrite (guard_true _ _ H). split; reflexivity.
Qed.

Lemma degenerate_geometry_empty_layout_witness :
  (0 <= 0 \/ 3 <= 0)
  /\ calculate_square_pattern 20 10 0 3 None = Ok ([], [], 0%Z, 0%Z)
  /\ calculate_staggered_pattern 20 10 0 3 None = Ok ([], [], 0%Z, 0%Z, 0%Z).
Proof.
  assert (H : 0 <= 0 \/ 3 <= 0) by (left; unfold Qle; simpl; lia).
  split; [exact H|].
  exact (degenerate_geometry_empty_layout 20 10 0 3 None H).
Defined.

(** C7.  Hole design at a 200 mm diameter: burden 0.024*200 + 0.85 = 5.65 m,
    subdrilling 0.4*burden = 2.26 m, stemming 1.0*burden = 5.65 m, and with
    a 10 m bench the hole depth is 10 + 2.26 = 12.26 m. *)
Theorem hole_design_at_200mm :
  App.calculated_burden 200 == 5.65
  /\ App.calculated_subdrilling (App.calculated_burden 200) == 2.26
  /\ App.calculated_stemming (App.calculated_burden 200) == 5.65
  /\ App.calculated_hole_depth 10
       (App.calculated_subdrilling (App.calculated_burden 200)) == 12.26.
Proof. repeat split; vm_compute; reflexivity. Qed.

(** C8.  Powder-factor symmetry: for a positive total explosive mass and a
    positive blast volume both guarded quotients are computed (nothing is
    raised) and their product is 1. *)
Theorem powder_factor_symmetry (blast_volume total_explosive : Q) :
  0 < total_explosive -> 0 < blast_volume ->
  exists pf_vol pf_mass,
    App.powder_factor_vol blast_volume total_explosive = Ok pf_vol
    /\ App.powder_factor_mass blast_volume total_explosive = Ok pf_mass
    /\ pf_vol * pf_mass == 1.
Proof.
  intros Ht Hv.
  exists (blast_volume / total_explosive), (total_explosive / blast_volume).
  unfold App.powder_factor_vol, App.powder_factor_mass, Py.gt.
  rewrite (proj2 (lt_iff 0 total_explosive) Ht).
  rewrite (proj2 (lt_iff 0 blast_volume) Hv).
  rewrite (div_ok _ _ (pos_neq0 _ Ht)), (div_ok _ _ (pos_neq0 _ Hv)).
  repeat split.
  field. split; apply pos_neq0; assumption.
Qed.

Lemma powder_factor_symmetry_witness :
  exists pf_vol pf_mass,
    App.powder_factor_vol 4000 1600 = Ok pf_vol
    /\ App.powder_factor_mass 4000 1600 = Ok pf_mass
    /\ pf_vol * pf_mass == 1.
Proof.
  apply (powder_factor_symmetry 4000 1600); unfold Qlt; simpl; lia.
Defined.

(** C9.  Rock classification is a first-match ladder of joint conditions:
    Very Soft exactly when velocity < 2.5 and density < 2.2; otherwise Soft
    exactly when velocity < 3.5 and density < 2.5; otherwise Medium exactly
    when velocity < 4.5 and density < 2.7; otherwise Hard exactly when
    velocity < 5.5 and density < 2.9; otherwise Very Hard.  In particular
    (3.0, 2.3) is Soft and (6.0, 3.0) is Very Hard. *)
Theorem rock_classification_ladder :
  (forall v d : Q,
      let band1 := v < 2.5 /\ d < 2.2 in
      let band2 := v < 3.5 /\ d < 2.5 in
      let band3 := v < 4.5 /\ d < 2.7 in
      let band4 := v < 5.5 /\ d < 2.9 in
      (App.rock_hardness v d = App.VerySoft <-> band1)
      /\ (App.rock_hardness v d = App.Soft <-> ~ band1 /\ band2)
      /\ (App.rock_hardness v d = App.Medium <-> ~ band1 /\ ~ band2 /\ band3)
      /\ (App.rock_hardness v d = App.Hard
          <-> ~ band1 /\ ~ band2 /\ ~ band3 /\ band4)
      /\ (App.rock_hardness v d = App.VeryHard
          <-> ~ band1 /\ ~ band2 /\ ~ band3 /\ ~ band4))
  /\ App.rock_hardness 3.0 2.3 = App.Soft
  /\ App.rock_hardness 6.0 3.0 = App.VeryHard.
Proof.
  split; [|split; reflexivity].
  intros v d band1 band2 band3 band4.
  assert (Hband : forall a b : Q,
             Py.lt v a && Py.lt d b = true <-> v < a /\ d < b).
  { intros a b. rewrite andb_true_iff, !lt_iff. reflexivity. }
  unfold App.rock_hardness.
  pose proof (Hband 2.5 2.2) as H1. pose proof (Hband 3.5 2.5) as H2.
  pose proof (Hband 4.5 2.7) as H3. pose proof (Hband 5.5 2.9) as H4.
  fold band1 in H1. fold band2 in H2. fold band3 in H3. fold band4 in H4.
  clearbody band1 band2 band3 band4.
  destruct (Py.lt v 2.5 && Py.lt d 2.2);
    destruct (Py.lt v 3.5 && Py.lt d 2.5);
    destruct (Py.lt v 4.5 && Py.lt d 2.7);
    destruct (Py.lt v 5.5 && Py.lt d 2.9);
    repeat split; intros; try discriminate; try tauto;
    try (exfalso; intuition discriminate);
    intuition (try discriminate; auto).
Qed.

Lemma explosive_density_pos (explosive_type : App.explosive) :
  0 < App.EXPLOSIVE_DENSITIES explosive_type * 1000.
Proof. destruct explosive_type; reflexivity. Qed.

Lemma math_pi_pos : 0 < Py.math_pi.
Proof. reflexivity. Qed.

Lemma powder_factor_vol_ok (blast_volume total_explosive : Q) :
  exists q, App.powder_factor_vol blast_volume total_explosive = Ok q.
Proof.
  unfold App.powder_factor_vol, Py.gt.
  destruct (Py.lt 0 total_explosive) eqn:E; [|eexists; reflexivity].
  apply lt_iff in E. rewrite (div_ok _ _ (pos_neq0 _ E)). eexists; reflexivity.
Qed.

Lemma powder_factor_mass_ok (blast_volume total_explosive : Q) :
  exists q, App.powder_factor_mass blast_volume total_explosive = Ok q.
Proof.
  unfold App.powder_factor_mass, Py.gt.
  destruct (Py.lt 0 blast_volume) eqn:E; [|eexists; reflexivity].
  apply lt_iff in E. rewrite (div_ok _ _ (pos_neq0 _ E)). eexists; reflexivity.
Qed.

(** C2.  The charge computation never clamps: for every bench height,
    subdrilling, stemming and hole diameter it returns (raising nothing) an
    explosive column length equal to bench height + subdrilling - stemming,
    negative as soon as the stemming exceeds bench height + subdrilling, and
    a charge per hole equal to density * pi * (diameter in m)^2 / 4 * column
    length; with a hole diameter other than 0 (the slider gives 80..350 mm)
    a negative column gives a negative charge. *)
Theorem charge_column_not_clamped
    (hole_diameter : Z) (explosive_type : App.explosive)
    (bench_height subdrilling stemming : Q) (num_holes : Z) (blast_volume : Q) :
  exists p,
    App.explosive_tab hole_diameter explosive_type bench_height subdrilling
      stemming num_holes blast_volume = Ok p
    /\ App.explosive_column_length p == bench_height + subdrilling - stemming
    /\ App.charge_per_hole p
       == App.EXPLOSIVE_DENSITIES explosive_type * 1000 * Py.math_pi
          * (inject_Z hole_diameter / 1000) ^ 2 / 4
          * App.explosive_column_length p
    /\ (bench_height + subdrilling < stemming ->
        App.explosive_column_length p < 0)
    /\ (hole_diameter <> 0%Z -> App.explosive_column_length p < 0 ->
        App.charge_per_hole p < 0).
Proof.
  unfold App.explosive_tab.
  set (dm := inject_Z hole_diameter / 1000).
  set (ecl := bench_height + subdrilling - stemming).
  set (q := App.EXPLOSIVE_DENSITIES explosive_type * 1000
            * (Py.math_pi * dm ^ 2 / 4 * ecl)).
  destruct (powder_factor_vol_ok blast_volume (q * inject_Z num_holes)) as [a Ha].
  destruct (powder_factor_mass_ok blast_volume (q * inject_Z num_holes)) as [b Hb].
  rewrite Ha, Hb. cbn [bind].
  eexists. split; [reflexivity|]. cbn [App.explosive_column_length App.charge_per_hole].
  split; [reflexivity|].
  split; [unfold q; field|].
  split; [unfold ecl; intros; lra|].
  intros Hd Hneg. unfold q.
  assert (Hdm : 0 < dm ^ 2).
  { assert (Hnz : ~ dm == 0).
    { unfold dm. intros E. apply Hd.
      apply (Qmult_inj_r _ _ (/ 1000)) in E; [|discriminate].
      unfold Qeq in E. simpl in E. lia. }
    simpl. destruct (Qlt_le_dec 0 dm) as [Hp|Hn].
    - nra.
    - assert (dm < 0) by (destruct (Qlt_le_dec dm 0); [assumption|exfalso; apply Hnz; lra]).
      nra. }
  pose proof (explosive_density_pos explosive_type) as Hrho.
  pose proof math_pi_pos as Hpi.
  set (rho := App.EXPLOSIVE_DENSITIES explosive_type * 1000) in *.
  set (d2 := dm ^ 2) in *.
  assert (Hvol : 0 < Py.math_pi * d2 / 4).
  { apply Qlt_shift_div_l; [reflexivity|]. rewrite Qmult_0_l.
    apply Qmult_lt_0_compat; assumption. }
  set (vol := Py.math_pi * d2 / 4) in *.
  assert (Hprod : 0 < rho * vol) by (apply Qmult_lt_0_compat; assumption).
  setoid_replace (rho * (vol * ecl)) with ((rho * vol) * ecl) by ring.
  nra.
Qed.

Lemma charge_column_not_clamped_witness :
  exists p,
    App.explosive_tab 200 App.ANFO 1 2.26 5.65 10 1000 = Ok p
    /\ App.explosive_column_length p < 0
    /\ App.charge_per_hole p < 0.
Proof.
  destruct (charge_column_not_clamped 200 App.ANFO 1 2.26 5.65 10 1000)
    as (p & Hp & _ & _ & Hcol & Hcharge).
  exists p. split; [exact Hp|].
  assert (Hneg : App.explosive_column_length p < 0) by (apply Hcol; reflexivity).
  split; [exact Hneg|].
  apply Hcharge; [discriminate|exact Hneg].
Defined.

Lemma linspace_head (start stop : Q) (num : Z) (l : list Q) :
  (1 <= num)%Z -> Np.linspace start stop num = Ok l ->
  exists x l', l = x :: l' /\ x == start.
Proof.
  intros Hnum Hl.
  destruct (linspace_spec start stop num Hnum) as (l' & Hl' & Hlen & Hnth).
  rewrite Hl in Hl'. injection Hl' as <-.
  destruct l as [|x l']; [simpl in Hlen; lia|].
  exists x, l'. split; [reflexivity|].
  specialize (Hnth 0%nat ltac:(lia)). simpl in Hnth.
  rewrite Hnth. apply lerp_first.
Qed.

(** C10.  A limit that is given and not positive still yields one hole: for
    positive burden and spacing and [num_holes = k <= 0] both pattern
    functions return exactly one hole, the first of the layout at
    (spacing/2, burden/2), because the limit is tested only after a hole
    has been appended. *)
Theorem nonpositive_limit_yields_one_hole
    (length width burden spacing : Q) (k : Z) :
  0 < burden -> 0 < spacing -> (k <= 0)%Z ->
  (exists x y num_rows holes_per_row,
      calculate_square_pattern length width burden spacing (Some k)
      = Ok ([x], [y], num_rows, holes_per_row)
      /\ x == spacing / 2 /\ y == burden / 2)
  /\ (exists x y num_rows holes_odd holes_even,
         calculate_staggered_pattern length width burden spacing (Some k)
         = Ok ([x], [y], num_rows, holes_odd, holes_even)
         /\ x == spacing / 2 /\ y == burden / 2).
Proof.
  intros Hb Hs Hk. split.
  - destruct (square_result length width burden spacing (Some k) Hb Hs)
      as (yps & xps & Hy & Hx & Hres).
    destruct (linspace_head _ _ _ _ (max1_pos _) Hy) as (y & yps' & -> & Hy0).
    destruct (linspace_head _ _ _ _ (max1_pos _) Hx) as (x & xps' & -> & Hx0).
    cbv zeta in Hres. set (pts := layout_points _ _ _) in Hres.
    assert (Hpts : exists rest, pts = (x, y) :: rest) by (eexists; reflexivity).
    destruct Hpts as [rest Hpts]. rewrite Hpts in Hres.
    rewrite taken_nonpos in Hres by exact Hk. simpl in Hres.
    exists x, y. do 2 eexists. split; [exact Hres|]. split; assumption.
  - destruct (staggered_result length width burden spacing (Some k) Hb Hs)
      as (yps & xo & xe & Hy & Hxo & Hxe & Hres).
    destruct (linspace_head _ _ _ _ (max1_pos _) Hy) as (y & yps' & -> & Hy0).
    destruct (linspace_head _ _ _ _ (max1_pos _) Hxo) as (x & xo' & -> & Hx0).
    cbv zeta in Hres. set (pts := layout_points _ _ _) in Hres.
    assert (Hpts : exists rest, pts = (x, y) :: rest) by (eexists; reflexivity).
    destruct Hpts as [rest Hpts]. rewrite Hpts in Hres.
    rewrite taken_nonpos in Hres by exact Hk. simpl in Hres.
    exists x, y. do 3 eexists. split; [exact Hres|]. split; assumption.
Qed.

Lemma nonpositive_limit_yields_one_hole_witness :
  exists x y num_rows holes_per_row,
    calculate_square_pattern 20 10 2 3 (Some 0%Z)
    = Ok ([x], [y], num_rows, holes_per_row)
    /\ x == 3 / 2 /\ y == 2 / 2.
Proof.
  apply (nonpositive_limit_yields_one_hole 20 10 2 3 0);
    [reflexivity|reflexivity|lia].
Defined.

(** C5.  Truncation keeps the generation order: for positive burden and
    spacing the call with [num_holes = None] returns the natural layout,
    [rows * holes_per_row] holes for the square pattern and
    [ceil(rows / 2) * holes_odd + (rows - ceil(rows / 2)) * holes_even] holes
    for the staggered pattern, with the counts the source computes; and for
    every [k >= 1] below that natural hole count the call with
    [num_holes = k] returns arrays of length exactly [k], equal to the first
    [k] elements of the arrays returned with [num_holes = None], and the
    same counts. *)
Theorem truncation_is_prefix (length width burden spacing : Q) :
  0 < burden -> 0 < spacing ->
  (exists xs ys num_rows holes_per_row,
      calculate_square_pattern length width burden spacing None
      = Ok (xs, ys, num_rows, holes_per_row)
      /\ num_rows = Z.max 1 (Py.int (width / burden))
      /\ holes_per_row = Z.max 1 (Py.int (length / spacing))
      /\ Z.of_nat (List.length xs) = (num_rows * holes_per_row)%Z
      /\ List.length ys = List.length xs
      /\ forall k, (1 <= k < Z.of_nat (List.length xs))%Z ->
           calculate_square_pattern length width burden spacing (Some k)
           = Ok (firstn (Z.to_nat k) xs, firstn (Z.to_nat k) ys,
                 num_rows, holes_per_row)
           /\ List.length (firstn (Z.to_nat k) xs) = Z.to_nat k
           /\ List.length (firstn (Z.to_nat k) ys) = Z.to_nat k)
  /\ (exists xs ys num_rows holes_odd holes_even,
         calculate_staggered_pattern length width burden spacing None
         = Ok (xs, ys, num_rows, holes_odd, holes_even)
         /\ num_rows = Z.max 1 (Py.int (width / burden))
         /\ holes_odd
            = Z.max 1 (Py.int ((length - spacing / 2) / spacing) + 1)
         /\ holes_even = Z.max 1 (Py.int ((length - spacing) / spacing) + 1)
         /\ Z.of_nat (List.length xs)
            = ((num_rows + 1) / 2 * holes_odd
               + (num_rows - (num_rows + 1) / 2) * holes_even)%Z
         /\ (num_rows <= Z.of_nat (List.length xs))%Z
         /\ List.length ys = List.length xs
         /\ forall k, (1 <= k < Z.of_nat (List.length xs))%Z ->
              calculate_staggered_pattern length width burden spacing (Some k)
              = Ok (firstn (Z.to_nat k) xs, firstn (Z.to_nat k) ys,
                    num_rows, holes_odd, holes_even)
              /\ List.length (firstn (Z.to_nat k) xs) = Z.to_nat k
              /\ List.length (firstn (Z.to_nat k) ys) = Z.to_nat k).
Proof.
  intros Hb Hs. split.
  - destruct (square_result length width burden spacing None Hb Hs)
      as (yps & xps & Hy & Hx & Hfull).
    cbv zeta in Hfull. rewrite taken_none in Hfull.
    pose proof (linspace_length _ _ _ _ (max1_pos _) Hy) as Hylen.
    pose proof (linspace_length _ _ _ _ (max1_pos _) Hx) as Hxlen.
    do 4 eexists. split; [exact Hfull|].
    split; [reflexivity|]. split; [reflexivity|].
    split.
    { rewrite length_map, grid_length, Hylen, Hxlen.
      rewrite Nat2Z.inj_mul, !Z2Nat.id by lia. reflexivity. }
    split; [now rewrite !length_map|].
    intros k Hk. rewrite length_map in Hk.
    destruct (square_result length width burden spacing (Some k) Hb Hs)
      as (yps' & xps' & Hy' & Hx' & Hcut).
    rewrite Hy in Hy'. injection Hy' as <-.
    rewrite Hx in Hx'. injection Hx' as <-.
    cbv zeta in Hcut. rewrite (taken_some k _ (proj1 Hk) (proj2 Hk)) in Hcut.
    rewrite !firstn_map. split; [exact Hcut|].
    rewrite !length_map, length_firstn. lia.
  - destruct (staggered_result length width burden spacing None Hb Hs)
      as (yps & xo & xe & Hy & Hxo & Hxe & Hfull).
    cbv zeta in Hfull. rewrite taken_none in Hfull.
    pose proof (linspace_length _ _ _ _ (max1_pos _) Hy) as Hylen.
    pose proof (linspace_length _ _ _ _ (max1_pos _) Hxo) as Holen.
    pose proof (linspace_length _ _ _ _ (max1_pos _) Hxe) as Helen.
    set (rows := Z.max 1 (Py.int (width / burden))) in *.
    set (n_odd := Z.max 1 (Py.int ((length - spacing / 2) / spacing) + 1))
      in *.
    set (n_even := Z.max 1 (Py.int ((length - spacing) / spacing) + 1)) in *.
    assert (Hcount :
      Z.of_nat (List.length (layout_points (stagger xo xe) 0 yps))
      = ((rows + 1) / 2 * n_odd + (rows - (rows + 1) / 2) * n_even)%Z).
    { rewrite stagger_length, alt_count_closed. unfold stagger.
      simpl Nat.modulo. cbn [Nat.eqb]. rewrite Hylen, Holen, Helen.
      rewrite !Z2Nat.id by (unfold rows, n_odd, n_even; lia).
      reflexivity. }
    assert (Hrows : (1 <= rows)%Z) by (unfold rows; lia).
    assert (Hodd : (1 <= n_odd)%Z) by (unfold n_odd; lia).
    assert (Heven : (1 <= n_even)%Z) by (unfold n_even; lia).
    assert (Hhalf : (1 <= (rows + 1) / 2 <= rows)%Z)
      by (Z.to_euclidean_division_equations; lia).
    do 5 eexists. split; [exact Hfull|].
    split; [reflexivity|]. split; [reflexivity|]. split; [reflexivity|].
    split; [rewrite length_map; exact Hcount|].
    split.
    { rewrite length_map.
      eapply Z.le_trans; [|apply Z.eq_le_incl; symmetry; exact Hcount].
      clearbody rows n_odd n_even. nia. }
    split; [now rewrite !length_map|].
    intros k Hk. rewrite length_map in Hk.
    destruct (staggered_result length width burden spacing (Some k) Hb Hs)
      as (yps' & xo' & xe' & Hy' & Hxo' & Hxe' & Hcut).
    fold rows in Hy'. fold n_odd in Hxo'. fold n_even in Hxe'.
    rewrite Hy in Hy'. injection Hy' as <-.
    rewrite Hxo in Hxo'. injection Hxo' as <-.
    rewrite Hxe in Hxe'. injection Hxe' as <-.
    cbv zeta in Hcut. rewrite (taken_some k _ (proj1 Hk) (proj2 Hk)) in Hcut.
    rewrite !firstn_map. split; [exact Hcut|].
    rewrite !length_map, length_firstn. lia.
Qed.

Lemma truncation_is_prefix_witness :
  (exists xs ys,
      calculate_square_pattern 3 2 1 1 None = Ok (xs, ys, 2%Z, 3%Z)
      /\ Z.of_nat (List.length xs) = 6%Z
      /\ calculate_square_pattern 3 2 1 1 (Some 4%Z)
         = Ok (firstn 4 xs, firstn 4 ys, 2%Z, 3%Z)
      /\ List.length (firstn 4 xs) = 4%nat)
  /\ (exists xs ys,
         calculate_staggered_pattern 3 2 1 1 None
         = Ok (xs, ys, 2%Z, 3%Z, 3%Z)
         /\ Z.of_nat (List.length xs) = 6%Z
         /\ calculate_staggered_pattern 3 2 1 1 (Some 4%Z)
            = Ok (firstn 4 xs, firstn 4 ys, 2%Z, 3%Z, 3%Z)
         /\ List.length (firstn 4 xs) = 4%nat).
Proof.
  destruct (truncation_is_prefix 3 2 1 1 eq_refl eq_refl)
    as [(xs & ys & r & h & Hfull & -> & -> & Hlen & _ & Hcut)
        (xs' & ys' & r' & ho & he & Hfull' & -> & -> & -> & Hlen' & _ & _
         & Hcut')].
  split.
  - exists xs, ys. split; [exact Hfull|]. split; [exact Hlen|].
    assert (Hk : (1 <= 4 < Z.of_nat (List.length xs))%Z)
      by (rewrite Hlen; vm_compute; split; [discriminate|reflexivity]).
    destruct (Hcut 4%Z Hk) as (H1 & H2 & _). split; [exact H1|exact H2].
  - exists xs', ys'. split; [exact Hfull'|]. split; [exact Hlen'|].
    assert (Hk : (1 <= 4 < Z.of_nat (List.length xs'))%Z)
      by (rewrite Hlen'; vm_compute; split; [discriminate|reflexivity]).
    destruct (Hcut' 4%Z Hk) as (H1 & H2 & _). split; [exact H1|exact H2].
Defined.

(** C1.  The square pattern: for positive burden and spacing (the lengths
    of the area may be any, in particular positive) the untruncated call
    returns [rows = max(1, floor(width/burden))] and
    [holes_per_row = max(1, floor(length/spacing))], and [rows * holes_per_row]
    holes in row-major order: the hole at index [r * holes_per_row + c] has
    as x the sample [c] of [holes_per_row] evenly spaced samples from
    spacing/2 to length - spacing/2, and as y the sample [r] of [rows]
    evenly spaced samples from burden/2 to width - burden/2. *)
Theorem square_pattern_layout (length width burden spacing : Q) :
  0 < burden -> 0 < spacing ->
  let rows := Z.max 1 (Qfloor (width / burden)) in
  let holes_per_row := Z.max 1 (Qfloor (length / spacing)) in
  exists xs ys,
    calculate_square_pattern length width burden spacing None
    = Ok (xs, ys, rows, holes_per_row)
    /\ List.length xs = Z.to_nat (rows * holes_per_row)
    /\ List.length ys = Z.to_nat (rows * holes_per_row)
    /\ forall r c : nat,
         (r < Z.to_nat rows)%nat -> (c < Z.to_nat holes_per_row)%nat ->
         nth (r * Z.to_nat holes_per_row + c) xs 0
         == lerp (spacing / 2) (length - spacing / 2) holes_per_row c
         /\ nth (r * Z.to_nat holes_per_row + c) ys 0
            == lerp (burden / 2) (width - burden / 2) rows r.
Proof.
  intros Hb Hs rows holes_per_row.
  destruct (square_result length width burden spacing None Hb Hs)
    as (yps & xps & Hy & Hx & Hfull).
  cbv zeta in Hfull. rewrite taken_none in Hfull.
  rewrite (max_int_floor (width / burden)) in Hy, Hfull.
  rewrite (max_int_floor (length / spacing)) in Hx, Hfull.
  fold rows in Hy, Hfull. fold holes_per_row in Hx, Hfull.
  destruct (linspace_spec (burden / 2) (width - burden / 2) rows (max1_pos _))
    as (yps' & Hy' & Hylen & Hynth).
  rewrite Hy in Hy'. injection Hy' as <-.
  destruct (linspace_spec (spacing / 2) (length - spacing / 2) holes_per_row
              (max1_pos _))
    as (xps' & Hx' & Hxlen & Hxnth).
  rewrite Hx in Hx'. injection Hx' as <-.
  do 2 eexists. split; [exact Hfull|].
  assert (Hcount : List.length (layout_points (fun _ => xps) 0 yps)
                   = Z.to_nat (rows * holes_per_row)).
  { rewrite grid_length, Hylen, Hxlen. unfold rows, holes_per_row. lia. }
  split; [rewrite length_map; exact Hcount|].
  split; [rewrite length_map; exact Hcount|].
  intros r c Hr Hc.
  rewrite nth_map_fst, nth_map_snd, <- Hxlen.
  rewrite grid_nth by (rewrite ?Hylen, ?Hxlen; assumption).
  simpl fst. simpl snd. split; [apply Hxnth|apply Hynth]; assumption.
Qed.

Lemma square_pattern_layout_witness :
  exists xs ys,
    calculate_square_pattern 10 5 2 3 None = Ok (xs, ys, 2%Z, 3%Z)
    /\ List.length xs = 6%nat
    /\ nth 4 xs 0 == 5 /\ nth 4 ys 0 == 4.
Proof.
  destruct (square_pattern_layout 10 5 2 3 eq_refl eq_refl)
    as (xs & ys & Hres & Hlen & _ & Hnth).
  exists xs, ys. split; [exact Hres|]. split; [exact Hlen|].
  destruct (Hnth 1%nat 1%nat ltac:(vm_compute; lia) ltac:(vm_compute; lia))
    as [Hx Hy].
  split; [rewrite Hx|rewrite Hy]; reflexivity.
Defined.

(** ** Containment *)

(** Linear arithmetic with the halves [x / 2] of the source. *)
Ltac half_lra :=
  unfold within, Qdiv in *; change (/ 2) with (1 # 2) in *; lra.

Lemma centred_within (extent step : Q) (l : list Q) :
  0 < step -> step <= 2 * extent ->
  Np.linspace (step / 2) (extent - step / 2)
    (Z.max 1 (Py.int (extent / step))) = Ok l ->
  Forall (within 0 extent) l.
Proof.
  intros Hstep Hfit Hl.
  apply (linspace_within _ _ 0 extent _ l (max1_pos _) Hl).
  - split; half_lra.
  - intros Hmany.
    assert (Hint : (2 <= Py.int (extent / step))%Z) by lia.
    pose proof (int_mul_le extent step 2 Hstep ltac:(lia) Hint) as H.
    change (inject_Z 2) with 2 in H. split; half_lra.
Qed.

Lemma odd_row_within (length spacing : Q) (l : list Q) :
  0 < spacing -> spacing <= length ->
  Np.linspace (spacing / 2) (length - spacing / 2)
    (Z.max 1 (Py.int ((length - spacing / 2) / spacing) + 1)) = Ok l ->
  Forall (within 0 length) l.
Proof.
  intros Hs Hfit Hl.
  apply (linspace_within _ _ 0 length _ l (max1_pos _) Hl).
  - split; half_lra.
  - intros Hmany.
    assert (Hint : (1 <= Py.int ((length - spacing / 2) / spacing))%Z) by lia.
    pose proof (int_mul_le (length - spacing / 2) spacing 1 Hs ltac:(lia) Hint) as H.
    change (inject_Z 1) with 1 in H. split; half_lra.
Qed.

Lemma even_row_within (length spacing : Q) (l : list Q) :
  0 < spacing -> spacing <= length ->
  Np.linspace spacing (length - spacing)
    (Z.max 1 (Py.int ((length - spacing) / spacing) + 1)) = Ok l ->
  Forall (within 0 length) l.
Proof.
  intros Hs Hfit Hl.
  apply (linspace_within _ _ 0 length _ l (max1_pos _) Hl).
  - split; half_lra.
  - intros Hmany.
    assert (Hint : (1 <= Py.int ((length - spacing) / spacing))%Z) by lia.
    pose proof (int_mul_le (length - spacing) spacing 1 Hs ltac:(lia) Hint) as H.
    change (inject_Z 1) with 1 in H. split; half_lra.
Qed.

(** C4, as the code has it.  The first hole is always generated, also when
    the area is smaller than half a burden or half a spacing, so containment
    needs the area to be large enough.  For [0 < burden <= 2*width] and
    [0 < spacing], and whatever the limit: every hole of the square pattern
    lies in [0,length] x [0,width] when [spacing <= 2*length], and every
    hole of the staggered pattern does when [spacing <= length]. *)
Theorem area_containment_when_area_fits
    (length width burden spacing : Q) (num_holes : option Z) :
  0 < burden -> 0 < spacing -> burden <= 2 * width ->
  (spacing <= 2 * length ->
   exists xs ys num_rows holes_per_row,
     calculate_square_pattern length width burden spacing num_holes
     = Ok (xs, ys, num_rows, holes_per_row)
     /\ Forall (within 0 length) xs /\ Forall (within 0 width) ys)
  /\ (spacing <= length ->
      exists xs ys num_rows holes_odd holes_even,
        calculate_staggered_pattern length width burden spacing num_holes
        = Ok (xs, ys, num_rows, holes_odd, holes_even)
        /\ Forall (within 0 length) xs /\ Forall (within 0 width) ys).
Proof.
  intros Hb Hs Hbw. split; intros Hsl.
  - destruct (square_result length width burden spacing num_holes Hb Hs)
      as (yps & xps & Hy & Hx & Hres).
    do 4 eexists. split; [exact Hres|].
    rewrite <- !firstn_map. split; apply Forall_firstn.
    + apply layout_fst_Forall. intros _.
      exact (centred_within length spacing xps Hs Hsl Hx).
    + apply layout_snd_Forall.
      exact (centred_within width burden yps Hb Hbw Hy).
  - destruct (staggered_result length width burden spacing num_holes Hb Hs)
      as (yps & xo & xe & Hy & Hxo & Hxe & Hres).
    do 5 eexists. split; [exact Hres|].
    rewrite <- !firstn_map. split; apply Forall_firstn.
    + apply layout_fst_Forall. intros i. unfold stagger.
      destruct (i mod 2 =? 0)%nat.
      * exact (odd_row_within length spacing xo Hs Hsl Hxo).
      * exact (even_row_within length spacing xe Hs Hsl Hxe).
    + apply layout_snd_Forall.
      exact (centred_within width burden yps Hb Hbw Hy).
Qed.

Lemma area_containment_when_area_fits_witness :
  (exists xs ys num_rows holes_per_row,
      calculate_square_pattern 20 10 2 3 None
      = Ok (xs, ys, num_rows, holes_per_row)
      /\ Forall (within 0 20) xs /\ Forall (within 0 10) ys)
  /\ (exists xs ys num_rows holes_odd holes_even,
         calculate_staggered_pattern 20 10 2 3 None
         = Ok (xs, ys, num_rows, holes_odd, holes_even)
         /\ Forall (within 0 20) xs /\ Forall (within 0 10) ys).
Proof.
  destruct (area_containment_when_area_fits 20 10 2 3 None)
    as [Hsq Hst]; try (unfold Qlt, Qle; simpl; lia).
  split; [apply Hsq|apply Hst]; unfold Qle; simpl; lia.
Defined.

(** C4 as stated fails: with burden 4 on an area 1 m wide the only row of
    the square pattern is at y = 2 > width, and with the spacing of a
    350 mm staggered design (10.6375 m) on an area 10 m long the second row
    holds a hole at x = 10.6375 > length. *)
Lemma area_containment_counterexample :
  (0 < 4 /\ 0 < 1
   /\ exists xs ys num_rows holes_per_row,
       calculate_square_pattern 10 1 4 1 None
       = Ok (xs, ys, num_rows, holes_per_row)
       /\ exists y, In y ys /\ ~ within 0 1 y)
  /\ (0 < 9.25 /\ 0 < 10.6375
      /\ exists xs ys num_rows holes_odd holes_even,
          calculate_staggered_pattern 10 20 9.25 10.6375 None
          = Ok (xs, ys, num_rows, holes_odd, holes_even)
          /\ exists x, In x xs /\ ~ within 0 10 x).
Proof.
  split; (split; [reflexivity|split; [reflexivity|]]).
  - do 4 eexists. split; [vm_compute; reflexivity|].
    eexists. split; [left; reflexivity|].
    intros [_ H]. vm_compute in H. apply H. reflexivity.
  - do 5 eexists. split; [vm_compute; reflexivity|].
    eexists. split; [right; left; reflexivity|].
    intros [_ H]. vm_compute in H. apply H. reflexivity.
Qed.

Lemma taken_pos (num_holes : option Z) (p : point) (pts : list point) :
  taken num_holes 0 (p :: pts) = S (Nat.pred (taken num_holes 0 (p :: pts))).
Proof.
  unfold taken. destruct num_holes as [k|]; simpl List.length; simpl Z.of_nat; lia.
Qed.

(** Whatever the limit, the square pattern returns the hole at
    (spacing/2, burden/2) first. *)
Lemma square_first_hole (length width burden spacing : Q) (num_holes : option Z) :
  0 < burden -> 0 < spacing ->
  exists x y xs ys num_rows holes_per_row,
    calculate_square_pattern length width burden spacing num_holes
    = Ok (x :: xs, y :: ys, num_rows, holes_per_row)
    /\ x == spacing / 2 /\ y == burden / 2.
Proof.
  intros Hb Hs.
  destruct (square_result length width burden spacing num_holes Hb Hs)
    as (yps & xps & Hy & Hx & Hres).
  destruct (linspace_head _ _ _ _ (max1_pos _) Hy) as (y & yps' & -> & Hy0).
  destruct (linspace_head _ _ _ _ (max1_pos _) Hx) as (x & xps' & -> & Hx0).
  cbv zeta in Hres. set (pts := layout_points _ _ _) in Hres.
  assert (Hpts : exists rest, pts = (x, y) :: rest) by (eexists; reflexivity).
  destruct Hpts as [rest Hpts]. rewrite Hpts in Hres.
  rewrite taken_pos in Hres. simpl firstn in Hres. simpl map in Hres.
  exists x, y. do 4 eexists. split; [exact Hres|]. split; assumption.
Qed.

(** So the two bounds on the area are the weakest possible for the square
    pattern: a layout with a burden above twice the width, or a spacing
    above twice the length, has its first hole outside the area. *)
Lemma square_containment_needs_fit
    (length width burden spacing : Q) (num_holes : option Z)
    (xs ys : list Q) (num_rows holes_per_row : Z) :
  0 < burden -> 0 < spacing ->
  calculate_square_pattern length width burden spacing num_holes
  = Ok (xs, ys, num_rows, holes_per_row) ->
  Forall (within 0 length) xs -> Forall (within 0 width) ys ->
  burden <= 2 * width /\ spacing <= 2 * length.
Proof.
  intros Hb Hs Hres Hxs Hys.
  destruct (square_first_hole length width burden spacing num_holes Hb Hs)
    as (x & y & xs' & ys' & r & h & Hres' & Hx & Hy).
  rewrite Hres in Hres'. injection Hres' as -> -> _ _.
  apply Forall_inv in Hxs. apply Forall_inv in Hys.
  unfold within in Hxs, Hys. rewrite Hx in Hxs. rewrite Hy in Hys.
  split; half_lra.
Qed.

(** ** The staggered rows *)







(** The same at the default area of the application (20 m by 20 m) with
    the staggered design of a 200 mm hole (burden 5.65 m, spacing
    1.15 * 5.65 = 6.4975 m): three rows of three holes, and the middle hole
    of row 1 is at x = 10, the x of the middle hole of row 0. *)
Lemma staggered_offset_at_default_area :
  exists xs ys,
    calculate_staggered_pattern 20 20 5.65 6.4975 None
    = Ok (xs, ys, 3%Z, 3%Z, 3%Z)
    /\ Forall2 Qeq xs [3.24875; 10; 16.75125; 6.4975; 10; 13.5025;
                       3.24875; 10; 16.75125]
    /\ forall i, (i < 3)%nat -> ~ nth 4 xs 0 == nth i xs 0 + 6.4975 / 2.
Proof.
  do 2 eexists. split; [vm_compute; reflexivity|].
  split; [repeat (apply Forall2_cons; [vm_compute; reflexivity|]); apply Forall2_nil|].
  intros i Hi.
  destruct i as [|[|[|i]]]; [| | |lia]; vm_compute; discriminate.
Qed.

(** * Further properties of the code *)

(** ** Lists of rows *)

Lemma range_In (n i : Z) : In i (Py.range n) <-> (0 <= i < n)%Z.
Proof.
  unfold Py.range. rewrite in_map_iff. split.
  - intros (k & <- & Hk). apply in_seq in Hk. lia.
  - intros Hi. exists (Z.to_nat i). split; [lia|]. apply in_seq. lia.
Qed.

Lemma range_length (n : Z) : List.length (Py.range n) = Z.to_nat n.
Proof. unfold Py.range. now rewrite length_map, length_seq. Qed.

Lemma range_nth (n : Z) (i : nat) :
  (i < Z.to_nat n)%nat -> nth i (Py.range n) 0%Z = Z.of_nat i.
Proof.
  intros Hi. unfold Py.range.
  change 0%Z with (Z.of_nat 0). rewrite map_nth, seq_nth by exact Hi.
  reflexivity.
Qed.

Lemma nth_map_range {A : Type} (f : Z -> A) (n : Z) (c : nat) (d : A) :
  (c < Z.to_nat n)%nat -> nth c (map f (Py.range n)) d = f (Z.of_nat c).
Proof.
  intros Hc.
  rewrite (nth_indep _ d (f 0%Z)) by (now rewrite length_map, range_length).
  now rewrite map_nth, range_nth.
Qed.

Lemma range_snoc (n : Z) :
  (0 <= n)%Z -> Py.range (n + 1) = Py.range n ++ [n].
Proof.
  intros Hn. unfold Py.range.
  replace (Z.to_nat (n + 1)) with (Z.to_nat n + 1)%nat by lia.
  rewrite seq_app, map_app. simpl. f_equal. f_equal. lia.
Qed.

Lemma concat_const_length {A : Type} (rows : list (list A)) (n : nat) :
  Forall (fun row => List.length row = n) rows ->
  List.length (concat rows) = (List.length rows * n)%nat.
Proof.
  induction 1 as [|row rows Hrow _ IH]; simpl; [reflexivity|].
  rewrite length_app, Hrow, IH. reflexivity.
Qed.

Lemma concat_const_nth {A : Type} (rows : list (list A)) (n r c : nat) (d : A) :
  Forall (fun row => List.length row = n) rows ->
  (r < List.length rows)%nat -> (c < n)%nat ->
  nth (r * n + c) (concat rows) d = nth c (nth r rows []) d.
Proof.
  intros Hrows. revert r.
  induction Hrows as [|row rows Hrow _ IH]; intros r Hr Hc; simpl in Hr; [lia|].
  simpl concat. destruct r as [|r].
  - simpl. rewrite app_nth1 by lia. reflexivity.
  - rewrite app_nth2 by (rewrite Hrow; simpl; lia).
    replace (S r * n + c - List.length row)%nat with (r * n + c)%nat
      by (rewrite Hrow; simpl; lia).
    simpl nth. apply IH; [lia|exact Hc].
Qed.

Lemma push_all_app (s : holes) (l1 l2 : list point) :
  push_all (push_all s l1) l2 = push_all s (l1 ++ l2).
Proof.
  unfold push_all. simpl. now rewrite !map_app, !app_assoc.
Qed.

Lemma fold_append (f : Z -> Q) (y : Q) (l : list Z) (s : holes) :
  fold_left (fun s i => append_position s (f i) y) l s
  = push_all s (map (fun i => (f i, y)) l).
Proof.
  revert s. induction l as [|i l IH]; intros s; simpl.
  - now rewrite push_all_nil.
  - rewrite IH. now rewrite push_all_cons.
Qed.

Lemma fold_append_if (p : Z -> bool) (f : Z -> Q) (y : Q) (l : list Z) (s : holes) :
  fold_left (fun s i => if p i then append_position s (f i) y else s) l s
  = push_all s (map (fun i => (f i, y)) (filter p l)).
Proof.
  revert s. induction l as [|i l IH]; intros s; simpl.
  - now rewrite push_all_nil.
  - rewrite IH. destruct (p i); [|reflexivity].
    simpl. now rewrite push_all_cons.
Qed.

Lemma fold_rows (F : holes -> Z -> holes) (row : Z -> list point)
    (l : list Z) (s : holes) :
  (forall s r, F s r = push_all s (row r)) ->
  fold_left F l s = push_all s (flat_map row l).
Proof.
  intros HF. revert s. induction l as [|r l IH]; intros s; simpl.
  - now rewrite push_all_nil.
  - rewrite HF, IH. apply push_all_app.
Qed.

(** ** calculate_manual_positions *)

Lemma inject_Z_pos (z : Z) : (0 < z)%Z -> 0 < inject_Z z.
Proof. intros H. change 0 with (inject_Z 0). now rewrite <- Zlt_Qlt. Qed.

(** With positive counts the function raises nothing and returns the
    points of its rows, one row after the other. *)
Lemma manual_result (length width : Q) (num_holes_per_row num_rows : Z)
    (pattern : string) :
  (0 < num_holes_per_row)%Z -> (0 < num_rows)%Z ->
  let x_step := length / inject_Z (num_holes_per_row + 1) in
  let y_step := width / inject_Z (num_rows + 1) in
  let pts := flat_map (manual_row length num_holes_per_row num_rows pattern
                         x_step y_step) (Py.range num_rows) in
  calculate_manual_positions length width num_holes_per_row num_rows pattern
  = Ok (map fst pts, map snd pts).
Proof.
  intros Hn Hr x_step y_step pts. unfold calculate_manual_positions.
  destruct (Z.leb_spec num_holes_per_row 0); [lia|].
  destruct (Z.leb_spec num_rows 0); [lia|].
  cbn [orb].
  rewrite (div_ok length _
             (pos_neq0 _ (inject_Z_pos (num_holes_per_row + 1) ltac:(lia)))).
  rewrite (div_ok width _
             (pos_neq0 _ (inject_Z_pos (num_rows + 1) ltac:(lia)))).
  cbn [bind]. fold x_step y_step. f_equal.
  rewrite (fold_rows _ (manual_row length num_holes_per_row num_rows pattern
                          x_step y_step)).
  - reflexivity.
  - intros s r. unfold manual_row.
    destruct (String.eqb pattern "staggered" && (r mod 2 =? 1)%Z).
    + destruct (r =? num_rows - 1)%Z; cbn [andb].
      * destruct (Py.gt _ _); [apply fold_append_if|apply fold_append].
      * apply fold_append.
    + apply fold_append.
Qed.

Lemma step_pos (extent : Q) (n : Z) :
  0 < extent -> (0 < n)%Z -> 0 < extent / inject_Z (n + 1).
Proof.
  intros He Hn. apply Qlt_shift_div_l.
  - apply inject_Z_pos. lia.
  - now rewrite Qmult_0_l.
Qed.

Lemma step_total (extent : Q) (n : Z) :
  (0 < n)%Z ->
  extent == extent / inject_Z (n + 1) * (inject_Z n + 1).
Proof.
  intros Hn. rewrite inject_Z_plus. change (inject_Z 1) with 1. field.
  pose proof (inject_Z_pos n Hn). intros E. lra.
Qed.

Lemma range_bounds (n i : Z) :
  In i (Py.range n) -> 0 <= inject_Z i /\ inject_Z i + 1 <= inject_Z n.
Proof.
  intros Hi. apply range_In in Hi. split.
  - change 0 with (inject_Z 0). rewrite <- Zle_Qle. lia.
  - change 1 with (inject_Z 1). rewrite <- inject_Z_plus, <- Zle_Qle. lia.
Qed.

(** Every point of a row lies strictly inside the area. *)
Lemma manual_row_inside (length width : Q) (num_holes_per_row num_rows : Z)
    (pattern : string) (r : Z) :
  0 < length -> 0 < width -> (0 < num_holes_per_row)%Z -> (0 < num_rows)%Z ->
  In r (Py.range num_rows) ->
  Forall (fun p => strictly_within 0 length (fst p)
                   /\ strictly_within 0 width (snd p))
    (manual_row length num_holes_per_row num_rows pattern
       (length / inject_Z (num_holes_per_row + 1))
       (width / inject_Z (num_rows + 1)) r).
Proof.
  intros Hl Hw Hn Hrows Hr.
  pose proof (step_pos length _ Hl Hn) as Hx.
  pose proof (step_pos width _ Hw Hrows) as Hy.
  pose proof (step_total length _ Hn) as Hxt.
  pose proof (step_total width _ Hrows) as Hyt.
  set (x_step := length / inject_Z (num_holes_per_row + 1)) in *.
  set (y_step := width / inject_Z (num_rows + 1)) in *.
  clearbody x_step y_step.
  destruct (range_bounds _ _ Hr) as [Hr0 Hr1].
  assert (Hypos : strictly_within 0 width (y_step * inject_Z (r + 1))).
  { rewrite inject_Z_plus. change (inject_Z 1) with 1.
    unfold strictly_within. split; nra. }
  assert (Hshift : forall i, In i (Py.range num_holes_per_row) ->
             strictly_within 0 length (x_step / 2 + x_step * inject_Z i)).
  { intros i Hi. destruct (range_bounds _ _ Hi) as [Hi0 Hi1].
    unfold strictly_within, Qdiv. change (/ 2) with (1 # 2).
    split; nra. }
  assert (Hplain : forall i, In i (Py.range num_holes_per_row) ->
             strictly_within 0 length (x_step * inject_Z (i + 1))).
  { intros i Hi. destruct (range_bounds _ _ Hi) as [Hi0 Hi1].
    rewrite inject_Z_plus. change (inject_Z 1) with 1.
    unfold strictly_within. split; nra. }
  unfold manual_row.
  destruct (String.eqb pattern "staggered" && (r mod 2 =? 1)%Z).
  - destruct ((r =? num_rows - 1)%Z && Py.gt _ _);
      apply Forall_map, Forall_forall; intros i Hi; simpl; split;
        try exact Hypos; apply Hshift.
    + apply filter_In in Hi. tauto.
    + exact Hi.
  - apply Forall_map, Forall_forall. intros i Hi. simpl. split;
      [apply Hplain; exact Hi|exact Hypos].
Qed.

Lemma filter_all {A : Type} (p : A -> bool) (l : list A) :
  (forall a, In a l -> p a = true) -> filter p l = l.
Proof.
  induction l as [|a l IH]; intros H; simpl; [reflexivity|].
  rewrite (H a (or_introl eq_refl)). f_equal. apply IH.
  intros b Hb. apply H. now right.
Qed.

(** On an area of positive length the test [x_pos < length * 0.85] of the
    last row is a test on the hole index alone. *)
Lemma shifted_kept (length : Q) (n i : Z) :
  0 < length -> (0 < n)%Z ->
  Py.lt (length / inject_Z (n + 1) / 2 + length / inject_Z (n + 1) * inject_Z i)
    (length * 0.85)
  = (20 * i + 10 <? 17 * (n + 1))%Z.
Proof.
  intros Hl Hn.
  pose proof (step_pos length n Hl Hn) as Hx.
  pose proof (step_total length n Hn) as Hxt.
  set (x_step := length / inject_Z (n + 1)) in *. clearbody x_step.
  apply eq_iff_eq_true. rewrite lt_iff, Z.ltb_lt, Zlt_Qlt.
  rewrite !inject_Z_plus, !inject_Z_mult, !inject_Z_plus.
  change (inject_Z 20) with 20. change (inject_Z 10) with 10.
  change (inject_Z 17) with 17. change (inject_Z 1) with 1.
  unfold Qdiv. change (/ 2) with (1 # 2).
  split; intros H; nra.
Qed.

Lemma end_pos_far (length : Q) (n : Z) :
  0 < length -> (0 < n)%Z ->
  Py.gt (length / inject_Z (n + 1) * inject_Z n + length / inject_Z (n + 1) / 2)
    (length * 0.85)
  = (3 <=? n)%Z.
Proof.
  intros Hl Hn.
  pose proof (step_pos length n Hl Hn) as Hx.
  pose proof (step_total length n Hn) as Hxt.
  set (x_step := length / inject_Z (n + 1)) in *. clearbody x_step.
  apply eq_iff_eq_true. unfold Py.gt. rewrite lt_iff, Z.leb_le, Zle_Qle.
  change (inject_Z 3) with 3.
  unfold Qdiv. change (/ 2) with (1 # 2).
  assert (Hint : inject_Z n <= 2 \/ 3 <= inject_Z n).
  { destruct (Z_le_gt_dec n 2) as [H|H]; [left|right].
    - change 2 with (inject_Z 2). now rewrite <- Zle_Qle.
    - change 3 with (inject_Z 3). rewrite <- Zle_Qle. lia. }
  split; intros H; [destruct Hint as [Hint|Hint]; [nra|exact Hint]|nra].
Qed.

(** A row is complete when nothing is filtered on it: on every row of a
    pattern other than "staggered", on every row but the last, and on every
    row of a layout on an area of positive length with at most 8 holes per
    row. *)
Lemma manual_row_complete (length : Q) (n rows : Z) (pattern : string)
    (y_step : Q) (r : Z) :
  (0 < n)%Z ->
  String.eqb pattern "staggered" = false \/ r <> (rows - 1)%Z
  \/ (0 < length /\ (n <= 8)%Z) ->
  manual_row length n rows pattern (length / inject_Z (n + 1)) y_step r
  = map (fun i => (manual_x pattern (length / inject_Z (n + 1)) r i,
                   y_step * inject_Z (r + 1)))
      (Py.range n).
Proof.
  intros Hn Hc. unfold manual_row, manual_x.
  destruct (String.eqb pattern "staggered" && (r mod 2 =? 1)%Z) eqn:E;
    [|reflexivity].
  destruct (Z.eqb_spec r (rows - 1)) as [Hlast|Hnot]; cbn [andb]; [|reflexivity].
  destruct (Py.gt _ _); [|reflexivity].
  destruct Hc as [Hc|[Hc|[Hl H8]]].
  - rewrite Hc in E. discriminate.
  - contradiction.
  - rewrite filter_all; [reflexivity|].
    intros i Hi. apply range_In in Hi.
    rewrite (shifted_kept length n i Hl Hn). apply Z.ltb_lt. lia.
Qed.

(** With complete rows the layout is a grid in row-major order. *)
Lemma manual_complete_layout (length width : Q) (n rows : Z) (pattern : string) :
  (0 < n)%Z -> (0 < rows)%Z ->
  String.eqb pattern "staggered" = false \/ (0 < length /\ (n <= 8)%Z) ->
  exists xs ys,
    calculate_manual_positions length width n rows pattern = Ok (xs, ys)
    /\ List.length xs = Z.to_nat (rows * n)
    /\ List.length ys = Z.to_nat (rows * n)
    /\ forall r c : nat,
         (r < Z.to_nat rows)%nat -> (c < Z.to_nat n)%nat ->
         nth (r * Z.to_nat n + c) xs 0
         = manual_x pattern (length / inject_Z (n + 1)) (Z.of_nat r) (Z.of_nat c)
         /\ nth (r * Z.to_nat n + c) ys 0
            = width / inject_Z (rows + 1) * inject_Z (Z.of_nat r + 1).
Proof.
  intros Hn Hrows Hc.
  pose proof (manual_result length width n rows pattern Hn Hrows) as Hres.
  cbv zeta in Hres.
  set (x_step := length / inject_Z (n + 1)) in *.
  set (y_step := width / inject_Z (rows + 1)) in *.
  set (row := manual_row length n rows pattern x_step y_step) in *.
  assert (Hrow : forall r, row r
                 = map (fun i => (manual_x pattern x_step r i,
                                  y_step * inject_Z (r + 1))) (Py.range n)).
  { intros r. apply manual_row_complete; [assumption|].
    destruct Hc as [Hc|Hc]; [left|right; right]; exact Hc. }
  assert (Hall : Forall (fun l => List.length l = Z.to_nat n)
                   (map row (Py.range rows))).
  { apply Forall_map, Forall_forall. intros r _.
    now rewrite Hrow, length_map, range_length. }
  assert (Hlen : List.length (flat_map row (Py.range rows)) = Z.to_nat (rows * n)).
  { rewrite flat_map_concat_map, (concat_const_length _ _ Hall).
    rewrite length_map, range_length. lia. }
  do 2 eexists. split; [exact Hres|].
  split; [now rewrite length_map|]. split; [now rewrite length_map|].
  intros r c Hr Hcn.
  rewrite nth_map_fst, nth_map_snd, flat_map_concat_map.
  rewrite (concat_const_nth (A:=point) _ _ r c (0, 0) Hall)
    by (rewrite ?length_map, ?range_length; assumption).
  rewrite (nth_map_range row rows r [] Hr), Hrow.
  rewrite (nth_map_range _ n c (0, 0) Hcn).
  split; reflexivity.
Qed.

(** X1.  Manual positions, any pattern other than "staggered": with
    [n > 0] holes per row and [rows > 0] rows the function returns
    [rows * n] holes in row-major order, hole [c] of row [r] at
    x = length * (c+1) / (n+1) and y = width * (r+1) / (rows+1). *)
Theorem manual_square_layout (length width : Q) (n rows : Z) (pattern : string) :
  String.eqb pattern "staggered" = false -> (0 < n)%Z -> (0 < rows)%Z ->
  exists xs ys,
    calculate_manual_positions length width n rows pattern = Ok (xs, ys)
    /\ List.length xs = Z.to_nat (rows * n)
    /\ List.length ys = Z.to_nat (rows * n)
    /\ forall r c : nat,
         (r < Z.to_nat rows)%nat -> (c < Z.to_nat n)%nat ->
         nth (r * Z.to_nat n + c) xs 0
         == length * inject_Z (Z.of_nat c + 1) / inject_Z (n + 1)
         /\ nth (r * Z.to_nat n + c) ys 0
            == width * inject_Z (Z.of_nat r + 1) / inject_Z (rows + 1).
Proof.
  intros Hp Hn Hrows.
  destruct (manual_complete_layout length width n rows pattern Hn Hrows
              (or_introl Hp)) as (xs & ys & Hres & Hlx & Hly & Hnth).
  exists xs, ys. repeat (split; [assumption|]).
  intros r c Hr Hc. destruct (Hnth r c Hr Hc) as [-> ->].
  unfold manual_x. rewrite Hp. cbn [andb].
  split; field; apply pos_neq0, inject_Z_pos; lia.
Qed.

Lemma manual_square_layout_witness :
  exists xs ys,
    calculate_manual_positions 10 6 4 2 "square" = Ok (xs, ys)
    /\ List.length xs = 8%nat
    /\ nth 5 xs 0 == 4 /\ nth 5 ys 0 == 4.
Proof.
  destruct (manual_square_layout 10 6 4 2 "square" eq_refl eq_refl eq_refl)
    as (xs & ys & Hres & Hlx & _ & Hnth).
  exists xs, ys. split; [exact Hres|]. split; [exact Hlx|].
  destruct (Hnth 1%nat 1%nat ltac:(simpl; lia) ltac:(simpl; lia)) as [Hx Hy].
  split; [rewrite Hx|rewrite Hy]; reflexivity.
Defined.

(** X2.  Manual positions, pattern "staggered", on an area of positive
    length with at most 8 holes per row: all [rows * n] holes are returned,
    a row of even index is placed as in the square pattern, and hole [c] of a
    row of odd index lies exactly half a step (length / (n+1) / 2) before
    hole [c] of the unshifted rows. *)
Theorem manual_staggered_half_step (length width : Q) (n rows : Z) :
  0 < length -> (0 < n <= 8)%Z -> (0 < rows)%Z ->
  exists xs ys,
    calculate_manual_positions length width n rows "staggered" = Ok (xs, ys)
    /\ List.length xs = Z.to_nat (rows * n)
    /\ List.length ys = Z.to_nat (rows * n)
    /\ forall r c : nat,
         (r < Z.to_nat rows)%nat -> (c < Z.to_nat n)%nat ->
         nth (r * Z.to_nat n + c) xs 0
         == length * inject_Z (Z.of_nat c + 1) / inject_Z (n + 1)
            - (if (Z.of_nat r mod 2 =? 1)%Z
               then length / inject_Z (n + 1) / 2 else 0)
         /\ nth (r * Z.to_nat n + c) ys 0
            == width * inject_Z (Z.of_nat r + 1) / inject_Z (rows + 1).
Proof.
  intros Hl [Hn H8] Hrows.
  destruct (manual_complete_layout length width n rows "staggered" Hn Hrows
              (or_intror (conj Hl H8))) as (xs & ys & Hres & Hlx & Hly & Hnth).
  exists xs, ys. repeat (split; [assumption|]).
  intros r c Hr Hc. destruct (Hnth r c Hr Hc) as [-> ->].
  unfold manual_x. cbn [String.eqb Ascii.eqb Bool.eqb andb].
  rewrite !inject_Z_plus. change (inject_Z 1) with 1.
  assert (Hd : ~ inject_Z n + 1 == 0).
  { pose proof (inject_Z_pos n Hn). intros E. lra. }
  assert (Hd' : ~ inject_Z rows + 1 == 0).
  { pose proof (inject_Z_pos rows Hrows). intros E. lra. }
  destruct (Z.of_nat r mod 2 =? 1)%Z; split; field; assumption.
Qed.

Lemma manual_staggered_half_step_witness :
  exists xs ys,
    calculate_manual_positions 10 6 4 2 "staggered" = Ok (xs, ys)
    /\ List.length xs = 8%nat
    /\ nth 1 xs 0 == 4 /\ nth 5 xs 0 == 3.
Proof.
  destruct (manual_staggered_half_step 10 6 4 2 eq_refl ltac:(lia) eq_refl)
    as (xs & ys & Hres & Hlx & _ & Hnth).
  exists xs, ys. split; [exact Hres|]. split; [exact Hlx|].
  destruct (Hnth 0%nat 1%nat ltac:(simpl; lia) ltac:(simpl; lia)) as [Hx0 _].
  destruct (Hnth 1%nat 1%nat ltac:(simpl; lia) ltac:(simpl; lia)) as [Hx1 _].
  split; [rewrite Hx0|rewrite Hx1]; reflexivity.
Defined.

(** X3.  Manual positions never leave the area: on an area of positive
    length and width, for every pattern and all counts, the function raises
    nothing and every hole it returns satisfies 0 < x < length and
    0 < y < width; the two arrays have the same length. *)
Theorem manual_positions_inside
    (length width : Q) (n rows : Z) (pattern : string) :
  0 < length -> 0 < width ->
  exists xs ys,
    calculate_manual_positions length width n rows pattern = Ok (xs, ys)
    /\ List.length xs = List.length ys
    /\ Forall (strictly_within 0 length) xs
    /\ Forall (strictly_within 0 width) ys.
Proof.
  intros Hl Hw.
  destruct (Z_lt_le_dec 0 n) as [Hn|Hn]; [destruct (Z_lt_le_dec 0 rows) as [Hr|Hr]|].
  - pose proof (manual_result length width n rows pattern Hn Hr) as Hres.
    cbv zeta in Hres. do 2 eexists. split; [exact Hres|].
    split; [now rewrite !length_map|].
    assert (Hall : Forall (fun p => strictly_within 0 length (fst p)
                                    /\ strictly_within 0 width (snd p))
                     (flat_map (manual_row length n rows pattern
                                  (length / inject_Z (n + 1))
                                  (width / inject_Z (rows + 1)))
                        (Py.range rows))).
    { apply Forall_flat_map, Forall_forall. intros r Hrin.
      now apply manual_row_inside. }
    split; apply Forall_map; eapply Forall_impl; try exact Hall;
      intros p Hp; apply Hp.
  - exists [], []. unfold calculate_manual_positions.
    destruct (Z.leb_spec rows 0); [|lia]. rewrite orb_true_r.
    repeat split; constructor.
  - exists [], []. unfold calculate_manual_positions.
    destruct (Z.leb_spec n 0); [|lia]. cbn [orb].
    repeat split; constructor.
Qed.

Lemma manual_positions_inside_witness :
  exists xs ys,
    calculate_manual_positions 20 10 9 2 "staggered" = Ok (xs, ys)
    /\ Forall (strictly_within 0 20) xs
    /\ Forall (strictly_within 0 10) ys.
Proof.
  destruct (manual_positions_inside 20 10 9 2 "staggered" eq_refl eq_refl)
    as (xs & ys & Hres & _ & Hx & Hy).
  exists xs, ys. repeat split; assumption.
Defined.

Lemma filter_range_below (p : Z -> bool) (k : Z) (m : nat) :
  (0 <= k <= Z.of_nat m)%Z ->
  (forall i, (0 <= i < Z.of_nat m)%Z -> p i = (i <? k)%Z) ->
  filter p (Py.range (Z.of_nat m)) = Py.range k.
Proof.
  revert k. induction m as [|m IH]; intros k Hk Hp.
  - assert (k = 0)%Z by lia. subst k. reflexivity.
  - replace (Z.of_nat (S m)) with (Z.of_nat m + 1)%Z by lia.
    rewrite range_snoc by lia. rewrite filter_app. simpl filter.
    rewrite (Hp (Z.of_nat m)) by lia.
    destruct (Z.ltb_spec (Z.of_nat m) k) as [Hlt|Hge].
    + assert (k = Z.of_nat m + 1)%Z by lia. subst k.
      rewrite range_snoc by lia. f_equal.
      apply IH; [lia|]. intros i Hi. rewrite Hp by lia.
      destruct (Z.ltb_spec i (Z.of_nat m + 1)), (Z.ltb_spec i (Z.of_nat m)); lia || reflexivity.
    + rewrite app_nil_r. apply IH; [lia|]. intros i Hi. apply Hp. lia.
Qed.

(** On an area of positive length, the last row of a staggered layout with
    an even number of rows and [n >= 3] holes per row keeps the first
    [(17*n + 26) / 20] shifted holes. *)
Lemma manual_last_row (length : Q) (n rows : Z) (y_step : Q) :
  0 < length -> (3 <= n)%Z -> (0 < rows)%Z -> (rows mod 2 = 0)%Z ->
  manual_row length n rows "staggered" (length / inject_Z (n + 1)) y_step
    (rows - 1)
  = map (fun i => (length / inject_Z (n + 1) / 2
                   + length / inject_Z (n + 1) * inject_Z i,
                   y_step * inject_Z (rows - 1 + 1)))
      (Py.range (Z.min n ((17 * n + 26) / 20))).
Proof.
  intros Hl Hn Hrows Heven. unfold manual_row.
  assert (Hodd : ((rows - 1) mod 2 =? 1)%Z = true).
  { apply Z.eqb_eq.
    pose proof (Z.div_mod rows 2 ltac:(lia)) as Hdm. rewrite Heven in Hdm.
    replace (rows - 1)%Z with (1 + (rows / 2 - 1) * 2)%Z by lia.
    rewrite Z.mod_add by lia. reflexivity. }
  rewrite Hodd, Z.eqb_refl. cbn [String.eqb Ascii.eqb Bool.eqb andb].
  rewrite (end_pos_far length n Hl ltac:(lia)).
  destruct (Z.leb_spec 3 n); [|lia].
  f_equal.
  pose proof (Z.div_mod (17 * n + 26) 20 ltac:(lia)) as Hdm.
  pose proof (Z.mod_pos_bound (17 * n + 26) 20 ltac:(lia)) as Hmod.
  replace (Py.range n) with (Py.range (Z.of_nat (Z.to_nat n)))
    by (now rewrite Z2Nat.id by lia).
  apply filter_range_below.
  - rewrite Z2Nat.id by lia. lia.
  - intros i Hi. rewrite Z2Nat.id in Hi by lia.
    rewrite (shifted_kept length n i Hl ltac:(lia)).
    destruct (Z.ltb_spec (20 * i + 10) (17 * (n + 1))),
             (Z.ltb_spec i (Z.min n ((17 * n + 26) / 20)));
      lia || reflexivity.
Qed.

(** X4.  Manual positions, pattern "staggered", silently drop holes: on an
    area of positive length, with an even number of rows and [n >= 10] holes
    per row, the last row keeps only its first [(17*n + 26) / 20] holes (those
    with x < 0.85 * length), so fewer than [rows * n] holes are returned.
    The counts [n = 9, 29, 49, ...] are left out: there, and only there, a
    hole of the last row falls exactly on 0.85 * length (hole [i] with
    20 * i = 17 * n + 7), and whether the test [x_pos < length * 0.85] keeps
    it is decided by the rounding of the two products; for every other [n]
    the nearest hole is at least length / (20 * (n + 1)) away from the
    threshold. *)
Theorem manual_staggered_last_row_cut (length width : Q) (n rows : Z) :
  0 < length -> (10 <= n)%Z -> (n mod 20 <> 9)%Z ->
  (0 < rows)%Z -> (rows mod 2 = 0)%Z ->
  exists xs ys,
    calculate_manual_positions length width n rows "staggered" = Ok (xs, ys)
    /\ Z.of_nat (List.length xs) = ((rows - 1) * n + (17 * n + 26) / 20)%Z
    /\ List.length ys = List.length xs
    /\ (Z.of_nat (List.length xs) < rows * n)%Z
    /\ (forall i, (0 <= i < n)%Z ->
          (20 * i + 10 <= 17 * (n + 1) - 1)%Z
          \/ (17 * (n + 1) + 1 <= 20 * i + 10)%Z).
Proof.
  intros Hl Hn Htie Hrows Heven.
  pose proof (manual_result length width n rows "staggered" ltac:(lia) Hrows)
    as Hres.
  cbv zeta in Hres.
  set (x_step := length / inject_Z (n + 1)) in *.
  set (y_step := width / inject_Z (rows + 1)) in *.
  set (row := manual_row length n rows "staggered" x_step y_step) in *.
  pose proof (Z.div_mod (17 * n + 26) 20 ltac:(lia)) as Hdm.
  pose proof (Z.mod_pos_bound (17 * n + 26) 20 ltac:(lia)) as Hmod.
  assert (Hcount : Z.of_nat (List.length (flat_map row (Py.range rows)))
                   = ((rows - 1) * n + (17 * n + 26) / 20)%Z).
  { replace rows with (rows - 1 + 1)%Z at 1 by lia.
    rewrite range_snoc by lia. rewrite flat_map_app, length_app.
    rewrite flat_map_concat_map.
    rewrite (concat_const_length _ (Z.to_nat n)).
    - rewrite length_map, range_length. simpl flat_map. rewrite app_nil_r.
      unfold row, x_step.
      rewrite (manual_last_row length n rows y_step Hl ltac:(lia) Hrows Heven).
      rewrite length_map, range_length.
      rewrite Nat2Z.inj_add, Nat2Z.inj_mul, !Z2Nat.id by lia. lia.
    - apply Forall_map, Forall_forall. intros r Hr. apply range_In in Hr.
      unfold row, x_step. rewrite manual_row_complete.
      + now rewrite length_map, range_length.
      + lia.
      + right. left. lia. }
  do 2 eexists. split; [exact Hres|].
  rewrite !length_map. split; [exact Hcount|]. split; [reflexivity|].
  split; [eapply Z.le_lt_trans; [apply Z.eq_le_incl; exact Hcount|lia]|].
  intros i Hi.
  destruct (Z_lt_le_dec (20 * i + 10) (17 * (n + 1))) as [H|H]; [left; lia|].
  right. destruct (Z.eq_dec (20 * i + 10) (17 * (n + 1))) as [E|E]; [|lia].
  exfalso. apply Htie.
  replace n with (9 + (13 * i - 11 * n - 5) * 20)%Z by lia.
  rewrite Z.mod_add by lia. reflexivity.
Qed.

Lemma manual_staggered_last_row_cut_witness :
  exists xs ys,
    calculate_manual_positions 20 10 10 2 "staggered" = Ok (xs, ys)
    /\ Z.of_nat (List.length xs) = 19%Z.
Proof.
  destruct (manual_staggered_last_row_cut 20 10 10 2 eq_refl ltac:(lia)
              ltac:(discriminate) eq_refl eq_refl)
    as (xs & ys & Hres & Hlen & _).
  exists xs, ys. split; [exact Hres|]. rewrite Hlen. reflexivity.
Defined.

(** ** calculate_burden_spacing *)

(** X5.  Suggested burden and spacing: the spacing is always 1.3 times the
    burden, the number of holes has no influence, a rock type other than
    "soft" and "hard" is treated as "medium", and for a positive diameter
    the burden shrinks as the rock gets harder (hard < medium < soft). *)
Theorem burden_spacing_by_rock (hole_diameter : Q) :
  0 < hole_diameter ->
  (forall num_holes rock_type,
      snd (calculate_burden_spacing num_holes rock_type hole_diameter)
      == 1.3 * fst (calculate_burden_spacing num_holes rock_type hole_diameter))
  /\ (forall num_holes num_holes' rock_type,
         calculate_burden_spacing num_holes rock_type hole_diameter
         = calculate_burden_spacing num_holes' rock_type hole_diameter)
  /\ (forall num_holes rock_type,
         String.eqb rock_type "soft" = false ->
         String.eqb rock_type "hard" = false ->
         calculate_burden_spacing num_holes rock_type hole_diameter
         = calculate_burden_spacing num_holes "medium" hole_diameter)
  /\ (forall num_holes,
         fst (calculate_burden_spacing num_holes "hard" hole_diameter)
         < fst (calculate_burden_spacing num_holes "medium" hole_diameter)
         /\ fst (calculate_burden_spacing num_holes "medium" hole_diameter)
            < fst (calculate_burden_spacing num_holes "soft" hole_diameter)).
Proof.
  intros Hd. unfold calculate_burden_spacing.
  split; [intros nh rt; cbn [fst snd]; ring|].
  split; [reflexivity|].
  split; [intros nh rt Hs Hh; rewrite Hs, Hh; reflexivity|].
  intros nh. cbn [String.eqb Ascii.eqb Bool.eqb fst].
  split; apply Qmult_lt_compat_r; assumption || reflexivity.
Qed.

Lemma burden_spacing_by_rock_witness :
  fst (calculate_burden_spacing 10 "hard" 76)
  < fst (calculate_burden_spacing 10 "medium" 76)
  /\ snd (calculate_burden_spacing 10 "granite" 76) == 1.3 * (0.035 * 76).
Proof.
  destruct (burden_spacing_by_rock 76 eq_refl) as (Hs & _ & Hm & Ho).
  split; [exact (proj1 (Ho 10%Z))|].
  rewrite (Hm 10%Z "granite"%string eq_refl eq_refl), (Hs 10%Z "medium"%string).
  reflexivity.
Defined.

(** ** Recommendations of app.py *)

(** X6.  ANFO, which has no water resistance, is recommended for dry holes
    only: exactly when the holes are dry and the rock is at most medium or
    cost has priority.  Damp holes always get Heavy ANFO, Slurry is
    recommended only for wet or very wet holes and Emulsion only for very wet
    ones. *)
Theorem explosive_recommendation_by_water
    (w : App.water) (h : App.hardness) (c : App.cost) :
  (App.recommended_explosive w h c = App.ANFO
   <-> w = App.Dry
       /\ (h = App.VerySoft \/ h = App.Soft \/ h = App.Medium \/ c = App.HighCost))
  /\ (w = App.Damp -> App.recommended_explosive w h c = App.HeavyANFO)
  /\ (App.recommended_explosive w h c = App.Slurry ->
      w = App.Wet \/ w = App.VeryWet)
  /\ (App.recommended_explosive w h c = App.Emulsion -> w = App.VeryWet).
Proof.
  destruct w, h, c; cbn; repeat split; intros;
    try discriminate; try reflexivity;
    intuition (try discriminate; try reflexivity; auto).
Qed.

(** X7.  The recommendation is monotone: wetter holes never get an explosive
    of lower water resistance, harder rock never gets one of lower water
    resistance either, cost priority never gets a costlier explosive than
    the other two settings, and those two settings ("Low" and "Medium")
    always get the same explosive. *)
Theorem explosive_recommendation_monotone :
  let wetness w :=
    match w with
    | App.Dry => 0 | App.Damp => 1 | App.Wet => 2 | App.VeryWet => 3
    end%nat in
  let hard_rank h :=
    match h with
    | App.VerySoft => 0 | App.Soft => 1 | App.Medium => 2
    | App.Hard => 3 | App.VeryHard => 4
    end%nat in
  (forall w w' h c,
      (wetness w <= wetness w')%nat ->
      (App.water_resistance (App.recommended_explosive w h c)
       <= App.water_resistance (App.recommended_explosive w' h c))%nat)
  /\ (forall w h h' c,
         (hard_rank h <= hard_rank h')%nat ->
         (App.water_resistance (App.recommended_explosive w h c)
          <= App.water_resistance (App.recommended_explosive w h' c))%nat)
  /\ (forall w h c,
         (App.relative_cost (App.recommended_explosive w h App.HighCost)
          <= App.relative_cost (App.recommended_explosive w h c))%nat)
  /\ (forall w h,
         App.recommended_explosive w h App.LowCost
         = App.recommended_explosive w h App.MediumCost).
Proof.
  cbv zeta. split; [|split; [|split]].
  - intros w w' h c; destruct w, w', h, c; cbn; lia.
  - intros w h h' c; destruct w, h, h', c; cbn; lia.
  - intros w h c; destruct w, h, c; cbn; lia.
  - intros w h; destruct w, h; reflexivity.
Qed.

Lemma explosive_recommendation_monotone_witness :
  (App.water_resistance (App.recommended_explosive App.Dry App.Hard App.LowCost)
   <= App.water_resistance
        (App.recommended_explosive App.Wet App.Hard App.LowCost))%nat.
Proof.
  apply (proj1 explosive_recommendation_monotone). cbn. lia.
Defined.

(** X8.  The pattern recommendation never sees the rock data.  In every
    run of the script the recommendation is computed before the inputs of
    the rock characterization bind [rock_density] and [p_wave_velocity],
    so its test ['rock_density' in locals() and 'p_wave_velocity' in
    locals()] fails: whatever density and P-wave velocity are entered
    afterwards, and whatever class the rock gets, the recommended pattern
    is "square" under the name "Square or Rectangular".  With the method
    "Use recommended pattern" the pattern is therefore square and the
    spacing the burden; the staggered pattern, with spacing 1.15 times the
    burden, is used exactly when the user picks it by hand. *)
Theorem recommendation_ignores_rock_data
    (hole_diameter : Z) (explosive_selection_method : string) (d v : Q)
    (pattern_selection_method pattern_choice : string) :
  exists hardness_found pattern spacing ns,
    App.run_pattern_selection hole_diameter explosive_selection_method d v
      pattern_selection_method pattern_choice
    = ("square"%string, "Square or Rectangular"%string, hardness_found,
       pattern, spacing, ns)
    /\ (explosive_selection_method = "Best according to conditions"%string ->
        hardness_found = Some (App.rock_hardness v d)
        /\ App.ns_rock_density ns = Some d
        /\ App.ns_p_wave_velocity ns = Some v)
    /\ (pattern_selection_method = "Use recommended pattern"%string ->
        pattern = "square"%string
        /\ spacing = App.calculated_burden hole_diameter)
    /\ (pattern = "staggered"%string <->
        pattern_selection_method <> "Use recommended pattern"%string
        /\ pattern_choice <> "Square or Rectangular"%string)
    /\ (pattern = "staggered"%string ->
        spacing = 1.15 * App.calculated_burden hole_diameter).
Proof.
  unfold App.run_pattern_selection.
  cbn [App.fresh_namespace App.ns_rock_density App.ns_p_wave_velocity
       App.recommended_pattern].
  destruct (String.eqb_spec explosive_selection_method
              "Best according to conditions") as [He|He];
    destruct (String.eqb_spec pattern_selection_method
                "Use recommended pattern") as [Hm|Hm];
    try destruct (String.eqb_spec pattern_choice "Square or Rectangular")
      as [Hc|Hc];
    do 4 eexists; (split; [reflexivity|]);
    (split; [intros E; try contradiction; repeat split; reflexivity|]);
    (split; [intros E; try contradiction; split; reflexivity|]);
    (split; [split; [intros E; try discriminate; split; assumption
                    |intros [E1 E2]; try contradiction; reflexivity]|]);
    intros E; try discriminate; reflexivity.
Qed.

(** X9.  The spacing that is finally used: whatever the rock data, with the
    recommended pattern the spacing becomes the burden (square) or 1.15 times
    the burden (staggered); the rectangular spacing 0.9*B + 0.91 that the
    recommendation computes for medium rock, or without rock data, is always
    overwritten. *)
Theorem recommended_spacing_is_overwritten
    (rock_density p_wave_velocity : option Q) (calculated_burden : Q) :
  exists pattern name recommended_spacing,
    App.recommended_pattern rock_density p_wave_velocity calculated_burden
    = (pattern, name, recommended_spacing)
    /\ (pattern = "square"%string \/ pattern = "staggered"%string)
    /\ App.calculated_spacing pattern calculated_burden recommended_spacing
       = (if String.eqb pattern "staggered" then 1.15 * calculated_burden
          else calculated_burden).
Proof.
  unfold App.recommended_pattern.
  destruct rock_density as [d|], p_wave_velocity as [v|];
    try (do 3 eexists; split; [reflexivity|]; split; [left|]; reflexivity).
  destruct (Py.gt d 2.7 || Py.gt v 4.5);
    [|destruct (Py.gt d 2.5 || Py.gt v 3.5)];
    do 3 eexists; (split; [reflexivity|]);
    (split; [(left; reflexivity) || (right; reflexivity)|reflexivity]).
Qed.

(** ** The hole count of app.py *)

Lemma ceil_half (z : Z) : Py.ceil (inject_Z z / 2) = ((z + 1) / 2)%Z.
Proof.
  unfold Py.ceil.
  pose proof (Qle_ceiling (inject_Z z / 2)) as Hle.
  pose proof (Qceiling_lt (inject_Z z / 2)) as Hlt.
  set (c := Qceiling (inject_Z z / 2)) in *. clearbody c.
  assert (H1 : inject_Z z <= inject_Z (2 * c)).
  { rewrite inject_Z_mult. change (inject_Z 2) with 2.
    unfold Qdiv in Hle. change (/ 2) with (1 # 2) in Hle. lra. }
  assert (H2 : inject_Z (2 * (c - 1)) < inject_Z z).
  { rewrite inject_Z_mult. change (inject_Z 2) with 2.
    unfold Qdiv in Hlt. change (/ 2) with (1 # 2) in Hlt. lra. }
  rewrite <- Zle_Qle in H1. rewrite <- Zlt_Qlt in H2.
  Z.to_euclidean_division_equations. lia.
Qed.

Lemma taken_whole (k : Z) (pts : list point) :
  (Z.of_nat (List.length pts) <= k)%Z ->
  firstn (taken (Some k) 0 pts) pts = pts.
Proof.
  intros Hk. apply firstn_all2. unfold taken. simpl Z.of_nat. lia.
Qed.

(** X10.  The hole count of the "Full Blast" option is the natural hole
    count of the pattern calculator: for positive burden and spacing it
    equals the number of holes that [calculate_square_pattern] (pattern
    "square") or [calculate_staggered_pattern] (any other pattern) returns
    without limit, with the same number of rows, and used as the limit it
    leaves the layout whole. *)
Theorem full_blast_count_is_natural_count
    (pattern option : string)
    (length width bench_height burden spacing blast_volume : Q) :
  0 < burden -> 0 < spacing ->
  String.eqb option "Manual Selection" = false ->
  exists num_rows num_holes_per_row num_holes,
    App.hole_count pattern option length width bench_height burden spacing
      blast_volume
    = Ok (num_rows, num_holes_per_row, num_holes)
    /\ (1 <= num_holes)%Z
    /\ if String.eqb pattern "square" then
         exists xs ys,
           calculate_square_pattern length width burden spacing None
           = Ok (xs, ys, num_rows, num_holes_per_row)
           /\ Z.of_nat (List.length xs) = num_holes
           /\ calculate_square_pattern length width burden spacing
                (Some num_holes)
              = Ok (xs, ys, num_rows, num_holes_per_row)
       else
         exists xs ys holes_odd holes_even,
           calculate_staggered_pattern length width burden spacing None
           = Ok (xs, ys, num_rows, holes_odd, holes_even)
           /\ num_holes_per_row = Z.max holes_odd holes_even
           /\ Z.of_nat (List.length xs) = num_holes
           /\ calculate_staggered_pattern length width burden spacing
                (Some num_holes)
              = Ok (xs, ys, num_rows, holes_odd, holes_even).
Proof.
  intros Hb Hs Hopt. unfold App.hole_count.
  destruct (String.eqb pattern "square").
  - rewrite (div_ok width burden (pos_neq0 _ Hb)).
    rewrite (div_ok length spacing (pos_neq0 _ Hs)).
    cbn [bind]. rewrite Hopt.
    set (rows := Z.max 1 (Py.int (width / burden))).
    set (hpr := Z.max 1 (Py.int (length / spacing))).
    do 3 eexists. split; [reflexivity|]. split; [nia|].
    destruct (square_result length width burden spacing None Hb Hs)
      as (yps & xps & Hy & Hx & Hfull).
    destruct (square_result length width burden spacing
                (Some (rows * hpr)%Z) Hb Hs)
      as (yps' & xps' & Hy' & Hx' & Hcut).
    rewrite Hy in Hy'. injection Hy' as <-.
    rewrite Hx in Hx'. injection Hx' as <-.
    cbv zeta in Hfull, Hcut. rewrite taken_none in Hfull.
    fold rows hpr in Hy, Hx, Hfull, Hcut.
    pose proof (linspace_length _ _ _ _ (max1_pos _) Hy) as Hylen.
    pose proof (linspace_length _ _ _ _ (max1_pos _) Hx) as Hxlen.
    assert (Hcount : List.length (layout_points (fun _ => xps) 0 yps)
                     = Z.to_nat (rows * hpr)).
    { rewrite grid_length, Hylen, Hxlen. unfold rows, hpr. lia. }
    assert (Hle : (Z.of_nat (List.length (layout_points (fun _ => xps) 0 yps))
                   <= rows * hpr)%Z)
      by (rewrite Hcount; unfold rows, hpr; lia).
    rewrite (taken_whole _ _ Hle) in Hcut.
    do 2 eexists. split; [exact Hfull|]. split; [|exact Hcut].
    rewrite length_map.
    transitivity (Z.of_nat (Z.to_nat (rows * hpr)));
      [f_equal; exact Hcount|unfold rows, hpr; lia].
  - rewrite (div_ok width burden (pos_neq0 _ Hb)).
    rewrite !(div_ok _ spacing (pos_neq0 _ Hs)).
    cbn [bind]. rewrite Hopt.
    set (rows := Z.max 1 (Py.int (width / burden))).
    set (n_odd := Z.max 1 (Py.int ((length - spacing / 2) / spacing) + 1)).
    set (n_even := Z.max 1 (Py.int ((length - spacing) / spacing) + 1)).
    rewrite ceil_half.
    set (count := ((rows + 1) / 2 * n_odd
                   + (rows - (rows + 1) / 2) * n_even)%Z).
    assert (Hpos : (1 <= count)%Z).
    { unfold count. assert (1 <= rows)%Z by (unfold rows; lia).
      assert (1 <= n_odd)%Z by (unfold n_odd; lia).
      assert (1 <= n_even)%Z by (unfold n_even; lia).
      assert (1 <= (rows + 1) / 2 <= rows)%Z
        by (Z.to_euclidean_division_equations; lia).
      nia. }
    do 3 eexists. split; [reflexivity|]. split; [exact Hpos|].
    destruct (staggered_result length width burden spacing None Hb Hs)
      as (yps & xo & xe & Hy & Hxo & Hxe & Hfull).
    destruct (staggered_result length width burden spacing (Some count) Hb Hs)
      as (yps' & xo' & xe' & Hy' & Hxo' & Hxe' & Hcut).
    rewrite Hy in Hy'. injection Hy' as <-.
    rewrite Hxo in Hxo'. injection Hxo' as <-.
    rewrite Hxe in Hxe'. injection Hxe' as <-.
    cbv zeta in Hfull, Hcut. rewrite taken_none in Hfull.
    fold rows n_odd n_even in Hy, Hxo, Hxe, Hfull, Hcut.
    pose proof (linspace_length _ _ _ _ (max1_pos _) Hy) as Hylen.
    pose proof (linspace_length _ _ _ _ (max1_pos _) Hxo) as Holen.
    pose proof (linspace_length _ _ _ _ (max1_pos _) Hxe) as Helen.
    assert (Hcount : Z.of_nat (List.length (layout_points (stagger xo xe) 0 yps))
                     = count).
    { rewrite stagger_length, alt_count_closed. unfold stagger. simpl Nat.modulo.
      cbn [Nat.eqb]. rewrite Hylen, Holen, Helen.
      unfold count. rewrite !Z2Nat.id by (unfold rows, n_odd, n_even; lia).
      reflexivity. }
    assert (Hle : (Z.of_nat (List.length (layout_points (stagger xo xe) 0 yps))
                   <= count)%Z) by (rewrite Hcount; lia).
    rewrite (taken_whole _ _ Hle) in Hcut.
    do 4 eexists. split; [exact Hfull|]. split; [reflexivity|].
    split; [rewrite length_map; exact Hcount|exact Hcut].
Qed.

Lemma full_blast_count_is_natural_count_witness :
  exists num_rows num_holes_per_row num_holes,
    App.hole_count "staggered" "Full Blast" 10 6 10 2 3 2000
    = Ok (num_rows, num_holes_per_row, num_holes)
    /\ (1 <= num_holes)%Z
    /\ exists xs ys holes_odd holes_even,
        calculate_staggered_pattern 10 6 2 3 None
        = Ok (xs, ys, num_rows, holes_odd, holes_even)
        /\ num_holes_per_row = Z.max holes_odd holes_even
        /\ Z.of_nat (List.length xs) = num_holes
        /\ calculate_staggered_pattern 10 6 2 3 (Some num_holes)
           = Ok (xs, ys, num_rows, holes_odd, holes_even).
Proof.
  exact (full_blast_count_is_natural_count "staggered" "Full Blast"
           10 6 10 2 3 2000 eq_refl eq_refl eq_refl).
Defined.

Lemma round_near (x : Q) :
  x - (1 # 2) <= inject_Z (Py.round x) /\ inject_Z (Py.round x) <= x + (1 # 2).
Proof.
  unfold Py.round, Py.gt.
  pose proof (Qfloor_le x) as Hlo. pose proof (Qlt_floor x) as Hhi.
  rewrite inject_Z_plus in Hhi. change (inject_Z 1) with 1 in Hhi.
  destruct (Py.lt (x - inject_Z (Qfloor x)) (1 # 2)) eqn:E1.
  - apply lt_iff in E1. split; lra.
  - assert (H1 : 1 # 2 <= x - inject_Z (Qfloor x)).
    { unfold Py.lt in E1. apply negb_false_iff in E1.
      now apply Qle_bool_iff in E1. }
    destruct (Py.lt (1 # 2) (x - inject_Z (Qfloor x))) eqn:E2.
    + rewrite inject_Z_plus. change (inject_Z 1) with 1. split; lra.
    + assert (H2 : x - inject_Z (Qfloor x) <= 1 # 2).
      { unfold Py.lt in E2. apply negb_false_iff in E2.
        now apply Qle_bool_iff in E2. }
      destruct (Z.even (Qfloor x)).
      * split; lra.
      * rewrite inject_Z_plus. change (inject_Z 1) with 1. split; lra.
Qed.

(** X11.  The hole count of the "Manual Selection" option: for positive
    burden and spacing nothing is raised and the count is at least 1; it is
    1 when the volume per hole (burden * spacing * bench height) is not
    positive; otherwise it is max(1, round(blast volume / volume per hole)),
    whatever the area, and lies within one half of that quotient as soon as
    the quotient is at least one half. *)
Theorem manual_selection_count
    (pattern : string)
    (length width bench_height burden spacing blast_volume : Q) :
  0 < burden -> 0 < spacing ->
  let volume_per_hole := burden * spacing * bench_height in
  exists num_rows num_holes_per_row num_holes,
    App.hole_count pattern "Manual Selection" length width bench_height
      burden spacing blast_volume
    = Ok (num_rows, num_holes_per_row, num_holes)
    /\ (1 <= num_holes)%Z
    /\ (volume_per_hole <= 0 -> num_holes = 1%Z)
    /\ (0 < volume_per_hole ->
        num_holes = Z.max 1 (Py.round (blast_volume / volume_per_hole))
        /\ (1 # 2 <= blast_volume / volume_per_hole ->
            inject_Z num_holes - (1 # 2) <= blast_volume / volume_per_hole
            /\ blast_volume / volume_per_hole <= inject_Z num_holes + (1 # 2))).
Proof.
  intros Hb Hs vph. unfold App.hole_count.
  rewrite (div_ok width burden (pos_neq0 _ Hb)).
  rewrite !(div_ok _ spacing (pos_neq0 _ Hs)).
  fold vph.
  assert (Hcount :
    exists n,
      (if Py.gt vph 0
       then q <- Py.div blast_volume vph ;; Ok (Py.round q)
       else Ok 1%Z) = Ok n
      /\ (vph <= 0 -> n = 1%Z)
      /\ (0 < vph -> n = Py.round (blast_volume / vph))).
  { unfold Py.gt. destruct (Py.lt 0 vph) eqn:E.
    - apply lt_iff in E. rewrite (div_ok _ _ (pos_neq0 _ E)). cbn [bind].
      eexists. split; [reflexivity|]. split; [intros; lra|reflexivity].
    - eexists. split; [reflexivity|]. split; [reflexivity|].
      intros Hpos. apply lt_iff in Hpos. congruence. }
  destruct Hcount as (n & Hn & Hle & Hgt).
  assert (Hnear : 0 < vph -> 1 # 2 <= blast_volume / vph ->
                  inject_Z (Z.max 1 n) - (1 # 2) <= blast_volume / vph
                  /\ blast_volume / vph <= inject_Z (Z.max 1 n) + (1 # 2)).
  { intros Hpos Hq. rewrite (Hgt Hpos).
    destruct (round_near (blast_volume / vph)) as [H1 H2].
    set (k := Py.round (blast_volume / vph)) in *. clearbody k.
    destruct (Z_le_gt_dec 1 k) as [Hk|Hk].
    - rewrite Z.max_r by lia. split; lra.
    - rewrite Z.max_l by lia. change (inject_Z 1) with 1.
      assert (Hk0 : inject_Z k <= 0).
      { change 0 with (inject_Z 0). rewrite <- Zle_Qle. lia. }
      split; lra. }
  destruct (String.eqb pattern "square"); cbn [bind];
    rewrite Hn; cbn [bind];
    do 3 eexists; (split; [reflexivity|]);
    (split; [lia|]);
    (split; [intros H; rewrite (Hle H); reflexivity|]);
    intros Hpos; (split; [rewrite (Hgt Hpos); reflexivity|]);
    intros Hq; exact (Hnear Hpos Hq).
Qed.

Lemma manual_selection_count_witness :
  exists num_rows num_holes_per_row num_holes,
    App.hole_count "square" "Manual Selection" 20 20 10 2 3 150
    = Ok (num_rows, num_holes_per_row, num_holes)
    /\ num_holes = Z.max 1 (Py.round (150 / (2 * 3 * 10)))
    /\ inject_Z num_holes - (1 # 2) <= 150 / (2 * 3 * 10).
Proof.
  destruct (manual_selection_count "square" 20 20 10 2 3 150 eq_refl eq_refl)
    as (r & h & n & Hres & _ & _ & Hpos).
  exists r, h, n. split; [exact Hres|].
  destruct (Hpos eq_refl) as [Hn Hq]. split; [exact Hn|].
  apply Hq. discriminate.
Defined.

Lemma explosive_recommendation_by_water_witness :
  App.recommended_explosive App.Damp App.Hard App.HighCost = App.HeavyANFO.
Proof.
  exact (proj1 (proj2 (explosive_recommendation_by_water
                         App.Damp App.Hard App.HighCost)) eq_refl).
Defined.

(** ** The charge of the application's own hole design *)

Lemma explosive_tab_fields
    (hole_diameter : Z) (explosive_type : App.explosive)
    (bench_height subdrilling stemming : Q) (num_holes : Z) (blast_volume : Q) :
  let column := bench_height + subdrilling - stemming in
  let charge :=
    App.EXPLOSIVE_DENSITIES explosive_type * 1000
    * (Py.math_pi * (inject_Z hole_diameter / 1000) ^ 2 / 4 * column) in
  exists p,
    App.explosive_tab hole_diameter explosive_type bench_height subdrilling
      stemming num_holes blast_volume = Ok p
    /\ App.explosive_column_length p = column
    /\ App.charge_per_hole p = charge
    /\ App.total_explosive p = charge * inject_Z num_holes
    /\ App.powder_factor_vol blast_volume (charge * inject_Z num_holes)
       = Ok (App.powder_factor_vol_per_explosive p)
    /\ App.powder_factor_mass blast_volume (charge * inject_Z num_holes)
       = Ok (App.powder_factor_explosive_per_vol p).
Proof.
  intros column charge. unfold App.explosive_tab. fold column. fold charge.
  destruct (powder_factor_vol_ok blast_volume (charge * inject_Z num_holes))
    as [a Ha].
  destruct (powder_factor_mass_ok blast_volume (charge * inject_Z num_holes))
    as [b Hb].
  rewrite Ha, Hb. cbn [bind]. eexists. split; [reflexivity|].
  cbn. repeat split; reflexivity.
Qed.

Lemma charge_sign (hole_diameter : Z) (explosive_type : App.explosive) (column : Q) :
  (hole_diameter <> 0)%Z ->
  let charge :=
    App.EXPLOSIVE_DENSITIES explosive_type * 1000
    * (Py.math_pi * (inject_Z hole_diameter / 1000) ^ 2 / 4 * column) in
  (column < 0 -> charge < 0) /\ (0 <= column -> 0 <= charge).
Proof.
  intros Hd charge.
  assert (Hk : 0 < App.EXPLOSIVE_DENSITIES explosive_type * 1000
                   * (Py.math_pi * (inject_Z hole_diameter / 1000) ^ 2 / 4)).
  { apply Qmult_lt_0_compat; [apply explosive_density_pos|].
    apply Qlt_shift_div_l; [reflexivity|]. rewrite Qmult_0_l.
    apply Qmult_lt_0_compat; [apply math_pi_pos|].
    set (dm := inject_Z hole_diameter / 1000).
    assert (Hnz : ~ dm == 0).
    { unfold dm. intros E. apply Hd.
      apply (Qmult_inj_r _ _ (/ 1000)) in E; [|discriminate].
      unfold Qeq in E. simpl in E. lia. }
    simpl. destruct (Qlt_le_dec 0 dm) as [Hp|Hn]; [nra|].
    assert (dm < 0)
      by (destruct (Qlt_le_dec dm 0); [assumption|exfalso; apply Hnz; lra]).
    nra. }
  set (k := App.EXPLOSIVE_DENSITIES explosive_type * 1000
            * (Py.math_pi * (inject_Z hole_diameter / 1000) ^ 2 / 4)) in *.
  assert (Hc : charge == k * column) by (unfold charge, k; field).
  clearbody k. split; intros H; rewrite Hc; nra.
Qed.

(** X12.  The charge of the application's own design (subdrilling
    0.4 * burden, stemming 1.0 * burden, burden 0.024 * D + 0.85) for a
    slider diameter D in 80..350 mm: the explosive column is
    bench height - 0.6 * burden, negative exactly when the bench height is
    below 0.0144 * D + 0.51.  So a bench lower than 1.662 m gives a negative
    column and a negative charge per hole for every diameter, a bench of at
    least 5.55 m never does; and with a negative column and at least one
    hole the powder factor in m3/kg is reported as 0. *)
Theorem design_column_sign
    (hole_diameter : Z) (explosive_type : App.explosive)
    (bench_height : Q) (num_holes : Z) (blast_volume : Q) :
  (80 <= hole_diameter <= 350)%Z ->
  let burden := App.calculated_burden hole_diameter in
  exists p,
    App.explosive_tab hole_diameter explosive_type bench_height
      (App.calculated_subdrilling burden) (App.calculated_stemming burden)
      num_holes blast_volume = Ok p
    /\ App.explosive_column_length p == bench_height - 0.6 * burden
    /\ (App.explosive_column_length p < 0
        <-> bench_height < 0.0144 * inject_Z hole_diameter + 0.51)
    /\ (bench_height < 1.662 ->
        App.explosive_column_length p < 0 /\ App.charge_per_hole p < 0)
    /\ (5.55 <= bench_height ->
        0 <= App.explosive_column_length p /\ 0 <= App.charge_per_hole p)
    /\ (App.explosive_column_length p < 0 -> (1 <= num_holes)%Z ->
        App.total_explosive p < 0
        /\ App.powder_factor_vol_per_explosive p = 0).
Proof.
  intros [Hlo Hhi] burden.
  destruct (explosive_tab_fields hole_diameter explosive_type bench_height
              (App.calculated_subdrilling burden)
              (App.calculated_stemming burden) num_holes blast_volume)
    as (p & Hp & Hcol & Hcharge & Htotal & Hvol & _).
  exists p. split; [exact Hp|].
  rewrite Hcol, Hcharge, Htotal.
  destruct (charge_sign hole_diameter explosive_type
              (bench_height + App.calculated_subdrilling burden
               - App.calculated_stemming burden) ltac:(lia))
    as [Hneg Hpos].
  cbv zeta in Hneg, Hpos.
  assert (Hd80 : 80 <= inject_Z hole_diameter).
  { change 80 with (inject_Z 80). rewrite <- Zle_Qle. exact Hlo. }
  assert (Hd350 : inject_Z hole_diameter <= 350).
  { change 350 with (inject_Z 350). rewrite <- Zle_Qle. exact Hhi. }
  assert (Heq : bench_height + App.calculated_subdrilling burden
                - App.calculated_stemming burden
                == bench_height - 0.6 * burden)
    by (unfold App.calculated_subdrilling, App.calculated_stemming; ring).
  assert (Hb : burden == 0.024 * inject_Z hole_diameter + 0.85)
    by reflexivity.
  split; [exact Heq|].
  split; [rewrite Heq, Hb; split; intros H; lra|].
  split; [intros H; assert (Hc : bench_height
                                  + App.calculated_subdrilling burden
                                  - App.calculated_stemming burden < 0)
            by (rewrite Heq, Hb; lra); split; [exact Hc|exact (Hneg Hc)]|].
  split; [intros H; assert (Hc : 0 <= bench_height
                                       + App.calculated_subdrilling burden
                                       - App.calculated_stemming burden)
            by (rewrite Heq, Hb; lra); split; [exact Hc|exact (Hpos Hc)]|].
  intros Hc Hn. specialize (Hneg Hc).
  assert (Hn1 : 1 <= inject_Z num_holes).
  { change 1 with (inject_Z 1). rewrite <- Zle_Qle. exact Hn. }
  set (charge := App.EXPLOSIVE_DENSITIES explosive_type * 1000
                 * (Py.math_pi * (inject_Z hole_diameter / 1000) ^ 2 / 4
                    * (bench_height + App.calculated_subdrilling burden
                       - App.calculated_stemming burden))) in *.
  assert (Ht : charge * inject_Z num_holes < 0) by nra.
  split; [exact Ht|].
  unfold App.powder_factor_vol, Py.gt in Hvol.
  destruct (Py.lt 0 (charge * inject_Z num_holes)) eqn:E.
  - apply lt_iff in E. lra.
  - now injection Hvol as <-.
Qed.

Lemma design_column_sign_witness :
  exists p,
    App.explosive_tab 80 App.ANFO 1
      (App.calculated_subdrilling (App.calculated_burden 80))
      (App.calculated_stemming (App.calculated_burden 80)) 4 200 = Ok p
    /\ App.explosive_column_length p < 0
    /\ App.charge_per_hole p < 0
    /\ App.powder_factor_vol_per_explosive p = 0.
Proof.
  destruct (design_column_sign 80 App.ANFO 1 4 200 ltac:(lia))
    as (p & Hp & _ & _ & Hlow & _ & Hpf).
  exists p. split; [exact Hp|].
  destruct (Hlow eq_refl) as [Hc Hq].
  split; [exact Hc|]. split; [exact Hq|].
  exact (proj2 (Hpf Hc ltac:(lia))).
Defined.

(** ** The history of recent configurations *)

Lemma save_shape {config : Type} (c : config) (recent_configs : list config) :
  (List.length recent_configs <= 5)%nat ->
  App.save_current_config c recent_configs
  = Some (c :: firstn 4 recent_configs,
          Z.of_nat (List.length (c :: firstn 4 recent_configs))).
Proof.
  intros Hlen. unfold App.save_current_config.
  destruct (Z.geb_spec (Z.of_nat (List.length recent_configs)) 5) as [Hfull|Hroom].
  - assert (Hfive : List.length recent_configs = 5%nat) by lia.
    unfold App.pop. destruct recent_configs as [|c0 l]; [discriminate|].
    rewrite removelast_firstn_len, Hfive. reflexivity.
  - rewrite firstn_all2 by lia. reflexivity.
Qed.

(** X13.  Saving keeps the last five configurations: on a history of at
    most five entries [save_current_config] raises nothing, puts the new
    configuration first, keeps the four most recent older ones in their
    order and returns as project number the size of the new history,
    min(size + 1, 5), although the new configuration is at index 0. *)
Theorem save_keeps_last_five {config : Type}
    (c : config) (recent_configs : list config) :
  (List.length recent_configs <= 5)%nat ->
  exists history number,
    App.save_current_config c recent_configs = Some (history, number)
    /\ history = c :: firstn 4 recent_configs
    /\ (List.length history <= 5)%nat
    /\ number = Z.of_nat (List.length history)
    /\ number = Z.min (Z.of_nat (List.length recent_configs) + 1) 5.
Proof.
  intros Hlen. rewrite (save_shape c recent_configs Hlen).
  do 2 eexists. split; [reflexivity|]. split; [reflexivity|].
  cbn [Datatypes.length]. rewrite length_firstn. repeat split; lia.
Qed.

Lemma save_keeps_last_five_witness :
  exists history number,
    App.save_current_config 6%nat [5; 4; 3; 2; 1]%nat = Some (history, number)
    /\ history = [6; 5; 4; 3; 2]%nat /\ number = 5%Z.
Proof.
  destruct (save_keeps_last_five 6%nat [5; 4; 3; 2; 1]%nat ltac:(simpl; lia))
    as (h & k & Hs & Hh & _ & _ & Hk).
  exists h, k. split; [exact Hs|]. split; [exact Hh|exact Hk].
Defined.

Lemma saved_in_turn_from {config : Type} (cs recent_configs : list config) :
  (List.length recent_configs <= 5)%nat ->
  saved_in_turn cs recent_configs = Some (firstn 5 (rev cs ++ recent_configs)).
Proof.
  unfold saved_in_turn. revert recent_configs.
  induction cs as [|c cs IH]; intros l Hlen; cbn [fold_left rev].
  - cbn [app]. now rewrite firstn_all2.
  - rewrite (save_shape c l Hlen). cbn [option_map fst].
    rewrite IH by (cbn [Datatypes.length]; rewrite length_firstn; lia).
    f_equal. rewrite <- app_assoc. cbn [app].
    rewrite !firstn_app. f_equal.
    destruct (5 - List.length (rev cs))%nat as [|k] eqn:E; [reflexivity|].
    rewrite !firstn_cons. f_equal. rewrite firstn_firstn. f_equal. lia.
Qed.

(** X14.  The history is bounded: whatever configurations are saved in
    turn from the empty history, no save raises and the history holds the
    last five of them, the most recent first. *)
Theorem history_holds_last_five {config : Type} (cs : list config) :
  saved_in_turn cs [] = Some (firstn 5 (rev cs))
  /\ (List.length (firstn 5 (rev cs)) <= 5)%nat.
Proof.
  split.
  - rewrite (saved_in_turn_from cs []) by (simpl; lia). now rewrite app_nil_r.
  - rewrite length_firstn. lia.
Qed.

(** X15.  Loading: [load_config] returns the entry at an index within the
    history and [None] at any other index, negative ones included; after a
    save on a history of at most five entries, index 0 loads the
    configuration just saved and index [i + 1] loads what index [i] loaded
    before, for [i] up to 3; the entry that was at index 4 is gone. *)
Theorem load_after_save {config : Type}
    (c : config) (recent_configs : list config) :
  (List.length recent_configs <= 5)%nat ->
  (forall i l, App.load_config i l = None
               <-> (i < 0 \/ Z.of_nat (List.length (l : list config)) <= i)%Z)
  /\ exists history number,
       App.save_current_config c recent_configs = Some (history, number)
       /\ App.load_config 0 history = Some c
       /\ (forall i, (0 <= i < 4)%Z ->
                     App.load_config (i + 1) history
                     = App.load_config i recent_configs)
       /\ App.load_config 5 history = None.
Proof.
  intros Hlen. split.
  - intros i l. unfold App.load_config.
    destruct (Z.leb_spec 0 i) as [H0|H0];
      destruct (Z.ltb_spec i (Z.of_nat (List.length l))) as [H1|H1]; cbn [andb].
    + split; [|lia]. intros Hnone. apply nth_error_None in Hnone. lia.
    + split; [lia|reflexivity].
    + split; [lia|reflexivity].
    + split; [lia|reflexivity].
  - rewrite (save_shape c recent_configs Hlen).
    do 2 eexists. split; [reflexivity|].
    split; [reflexivity|]. split.
    + intros i Hi. unfold App.load_config.
      cbn [Datatypes.length]. rewrite length_firstn.
      destruct (Z.leb_spec 0 (i + 1)); [|lia].
      destruct (Z.leb_spec 0 i); [|lia]. cbn [andb].
      replace (Z.to_nat (i + 1)) with (S (Z.to_nat i)) by lia.
      change (nth_error (c :: firstn 4 recent_configs) (S (Z.to_nat i)))
        with (nth_error (firstn 4 recent_configs) (Z.to_nat i)).
      destruct (Z.ltb_spec i (Z.of_nat (List.length recent_configs)))
        as [Hin|Hout].
      * destruct (Z.ltb_spec (i + 1)
                    (Z.of_nat (S (Nat.min 4 (List.length recent_configs)))));
          [|lia].
        rewrite nth_error_firstn.
        destruct (Nat.ltb_spec (Z.to_nat i) 4); [reflexivity|lia].
      * destruct (Z.ltb_spec (i + 1)
                    (Z.of_nat (S (Nat.min 4 (List.length recent_configs)))));
          [lia|reflexivity].
    + unfold App.load_config. cbn [Datatypes.length]. rewrite length_firstn.
      destruct (Z.ltb_spec 5 (Z.of_nat (S (Nat.min 4 (List.length recent_configs)))));
        [lia|reflexivity].
Qed.

Lemma load_after_save_witness :
  exists history number,
    App.save_current_config 6%nat [5; 4; 3; 2; 1]%nat = Some (history, number)
    /\ App.load_config 0 history = Some 6%nat
    /\ App.load_config 1 history = Some 5%nat
    /\ App.load_config 5 history = None.
Proof.
  destruct (load_after_save 6%nat [5; 4; 3; 2; 1]%nat ltac:(simpl; lia))
    as (_ & h & k & Hs & H0 & Hshift & H5).
  exists h, k. split; [exact Hs|]. split; [exact H0|].
  split; [exact (Hshift 0%Z ltac:(lia))|exact H5].
Defined.

(** ** The hole positions of the "Auto calculate" mode *)

Lemma inner_break (num_holes : Z) (y : Q) (xs : list Q) (s : holes) :
  for_each (fun x s => App.break_if_full num_holes (append_position s x y)) xs s
  = Ok (take_holes (Some num_holes) (row_points y xs) s).
Proof.
  revert s. induction xs as [|x xs IH]; intros s; [reflexivity|].
  cbn [for_each row_points map take_holes].
  unfold App.break_if_full, limit_reached, push, append_position. cbn [fst snd].
  destruct (Z.of_nat (List.length (fst s ++ [x])) >=? num_holes)%Z;
    [reflexivity|apply IH].
Qed.

Lemma inner_break_checked (P : Q -> bool) (num_holes : Z) (y : Q)
    (xs : list Q) (s : holes) :
  for_each
    (fun x s =>
       if P x then App.break_if_full num_holes (append_position s x y)
       else Ok (Continue s)) xs s
  = Ok (take_holes (Some num_holes) (row_points y (filter P xs)) s).
Proof.
  revert s. induction xs as [|x xs IH]; intros s; [reflexivity|].
  cbn [for_each filter]. destruct (P x); [|apply IH].
  cbn [row_points map take_holes].
  unfold App.break_if_full, limit_reached, push, append_position. cbn [fst snd].
  destruct (Z.of_nat (List.length (fst s ++ [x])) >=? num_holes)%Z;
    [reflexivity|apply IH].
Qed.

(** After a non-empty row the test that follows the inner loop repeats
    the outcome of that loop. *)
Lemma take_holes_flag (num_holes : Z) (pts : list point) (s : holes) :
  pts <> [] ->
  App.break_if_full num_holes (flow_state (take_holes (Some num_holes) pts s))
  = Ok (take_holes (Some num_holes) pts s).
Proof.
  revert s. induction pts as [|p pts IH]; intros s Hne; [contradiction|].
  cbn [take_holes]. unfold limit_reached.
  destruct (Z.of_nat (List.length (fst (push s p))) >=? num_holes)%Z eqn:E.
  - cbn [flow_state]. unfold App.break_if_full. now rewrite E.
  - destruct pts as [|q pts].
    + cbn [take_holes flow_state]. unfold App.break_if_full. now rewrite E.
    + apply IH. discriminate.
Qed.

Lemma row_points_nonempty (y : Q) (xs : list Q) :
  xs <> [] -> row_points y xs <> [].
Proof. destruct xs; [contradiction|discriminate]. Qed.

(** The two loops of the square branch, on non-empty rows. *)
Lemma square_grid_loop (num_holes : Z) (xs ys : list Q) (i0 : nat) (s : holes) :
  xs <> [] ->
  for_each
    (fun y s =>
       r <- for_each
              (fun x s => App.break_if_full num_holes (append_position s x y))
              xs s ;;
       App.break_if_full num_holes (flow_state r))
    ys s
  = Ok (take_holes (Some num_holes) (layout_points (fun _ => xs) i0 ys) s).
Proof.
  intros Hne. revert i0 s.
  induction ys as [|y ys IH]; intros i0 s; [reflexivity|].
  cbn [for_each layout_points]. rewrite inner_break. cbn [bind].
  rewrite (take_holes_flag _ _ _ (row_points_nonempty y xs Hne)).
  rewrite take_holes_app.
  destruct (take_holes (Some num_holes) (row_points y xs) s);
    [apply IH|reflexivity].
Qed.

(** The two loops of the staggered branch, when no row loses a hole to the
    bounds test. *)
Lemma staggered_grid_loop (P : Q -> Q -> bool) (pattern : string)
    (num_holes : Z) (calculated_spacing : Q) (xs ys : list Q) (i0 : nat)
    (s : holes) :
  String.eqb pattern "square" = false ->
  xs <> [] ->
  (forall i y, In y ys ->
     filter (P y) (grid_row pattern calculated_spacing xs i)
     = grid_row pattern calculated_spacing xs i) ->
  for_each
    (fun '(row_idx, y) s =>
       let row_x_positions :=
         if (row_idx mod 2 =? 0)%nat then xs
         else map (fun x => x + calculated_spacing / 2) xs in
       r <- for_each
              (fun x s =>
                 if P y x
                 then App.break_if_full num_holes (append_position s x y)
                 else Ok (Continue s))
              row_x_positions s ;;
       App.break_if_full num_holes (flow_state r))
    (combine (seq i0 (List.length ys)) ys) s
  = Ok (take_holes (Some num_holes)
          (layout_points (grid_row pattern calculated_spacing xs) i0 ys) s).
Proof.
  intros Hp Hne Hkeep. revert i0 s.
  induction ys as [|y ys IH]; intros i0 s; [reflexivity|].
  cbn [List.length seq combine for_each layout_points].
  cbv zeta. rewrite (inner_break_checked (P y)). cbn [bind].
  assert (Hrowi : (if (i0 mod 2 =? 0)%nat then xs
                   else map (fun x => x + calculated_spacing / 2) xs)
                  = grid_row pattern calculated_spacing xs i0).
  { unfold grid_row. now rewrite Hp. }
  rewrite Hrowi, (Hkeep i0 y (or_introl eq_refl)).
  specialize (fun i0 s => IH (fun i y' Hy' => Hkeep i y' (or_intror Hy')) i0 s).
  assert (Hrow : grid_row pattern calculated_spacing xs i0 <> []).
  { rewrite <- Hrowi. destruct (i0 mod 2 =? 0)%nat; [exact Hne|].
    destruct xs; [contradiction|discriminate]. }
  rewrite (take_holes_flag _ _ _ (row_points_nonempty y _ Hrow)).
  rewrite take_holes_app.
  destruct (take_holes (Some num_holes) _ s); [apply IH|reflexivity].
Qed.

(** With empty rows neither branch appends anything. *)
Lemma empty_grid_loop {A : Type} (num_holes : Z)
    (body : A -> holes -> result (flow holes)) (l : list A) (s : holes) :
  (forall a s, body a s = App.break_if_full num_holes s) ->
  exists r, for_each body l s = Ok r /\ flow_state r = s.
Proof.
  intros Hbody. induction l as [|a l IH].
  - eexists. split; reflexivity.
  - cbn [for_each]. rewrite Hbody. unfold App.break_if_full.
    destruct (Z.of_nat (List.length (fst s)) >=? num_holes)%Z.
    + eexists. split; reflexivity.
    + exact IH.
Qed.

Lemma layout_points_empty (row : nat -> list Q) (i0 : nat) (ys : list Q) :
  (forall i, row i = []) -> layout_points row i0 ys = [].
Proof.
  intros Hrow. revert i0. induction ys as [|y ys IH]; intros i0; [reflexivity|].
  cbn [layout_points]. rewrite Hrow, IH. reflexivity.
Qed.

Lemma firstn_min_length {A : Type} (a : nat) (l : list A) :
  firstn (Nat.min a (List.length l)) l = firstn a l.
Proof.
  destruct (Nat.le_ge_cases a (List.length l)) as [H|H].
  - now rewrite Nat.min_l.
  - rewrite Nat.min_r by exact H. now rewrite firstn_all, firstn_all2.
Qed.

(** Once [num_holes] points are there and [[:num_holes]] is applied, what
    is left is the first [num_holes] points. *)
Lemma slice_taken {B : Type} (f : point -> B) (num_holes : Z) (pts : list point) :
  Py.slice_to (map f (firstn (taken (Some num_holes) 0 pts) pts)) num_holes
  = map f (firstn (Z.to_nat num_holes) pts).
Proof.
  unfold Py.slice_to, taken. simpl Z.of_nat. rewrite Z.sub_0_r.
  destruct (Z.ltb_spec num_holes 0) as [Hneg|Hpos].
  - rewrite length_map, length_firstn.
    replace (Z.to_nat num_holes) with 0%nat by lia.
    replace (Z.to_nat _) with 0%nat by lia. reflexivity.
  - rewrite firstn_map, firstn_firstn. f_equal.
    rewrite <- (firstn_min_length (Z.to_nat num_holes) pts).
    f_equal. lia.
Qed.

(** The grid lines along one axis: [int(extent / step) + 1] lines from 0 to
    [extent]; all but the last carry holes. *)
Lemma grid_lines (extent step : Q) :
  0 <= extent -> 0 < step ->
  let k := Py.int (extent / step) in
  exists grid,
    Np.linspace 0 extent (k + 1) = Ok grid
    /\ (0 <= k)%Z
    /\ List.length (removelast grid) = Z.to_nat k
    /\ (forall i, (i < Z.to_nat k)%nat ->
                  nth i (removelast grid) 0
                  == inject_Z (Z.of_nat i) * extent / inject_Z k)
    /\ Forall (within 0 extent) (removelast grid)
    /\ inject_Z k * step <= extent.
Proof.
  intros He Hs k.
  assert (Hq : 0 <= extent / step).
  { apply Qle_shift_div_l; [exact Hs|]. now rewrite Qmult_0_l. }
  assert (Hk : (0 <= k)%Z).
  { unfold k. rewrite int_floor by exact Hq.
    pose proof (Qfloor_resp_le 0 _ Hq) as H. exact H. }
  destruct (linspace_spec 0 extent (k + 1) ltac:(lia)) as (grid & Hg & Hlen & Hnth).
  exists grid. split; [exact Hg|]. split; [exact Hk|].
  assert (Hrl : List.length (removelast grid) = Z.to_nat k).
  { rewrite removelast_firstn_len, length_firstn, Hlen. lia. }
  split; [exact Hrl|].
  split; [|split].
  - intros i Hi. rewrite removelast_firstn_len, nth_firstn, Hlen.
    destruct (Nat.ltb_spec i (Nat.pred (Z.to_nat (k + 1)))); [|lia].
    rewrite Hnth by lia. unfold lerp.
    destruct (Z.eqb_spec (k + 1) 1); [lia|].
    replace (k + 1 - 1)%Z with k by lia. field.
    apply pos_neq0, inject_Z_pos. lia.
  - rewrite removelast_firstn_len. apply Forall_firstn.
    apply (linspace_within 0 extent 0 extent (k + 1) grid ltac:(lia) Hg).
    + split; [apply Qle_refl|exact He].
    + intros _. split; [exact He|apply Qle_refl].
  - destruct (Z_le_gt_dec 1 k) as [H1|H0].
    + apply (int_mul_le extent step k Hs H1). unfold k. lia.
    + assert (k = 0)%Z by lia. replace k with 0%Z by lia.
      change (inject_Z 0) with 0. lra.
Qed.

(** A hole of the grid moved by half a spacing is still within the length:
    the bounds test of the staggered branch never rejects a hole. *)
Lemma shifted_in_bounds (length spacing : Q) (grid : list Q) (x : Q) :
  0 <= length -> 0 < spacing ->
  Np.linspace 0 length (Py.int (length / spacing) + 1) = Ok grid ->
  In x (removelast grid) ->
  within 0 length x /\ within 0 length (x + spacing / 2)
  /\ x + spacing / 2 < length.
Proof.
  intros Hl Hs Hg Hx.
  destruct (grid_lines length spacing Hl Hs)
    as (grid' & Hg' & Hk & Hlen & Hnth & Hin & Hks).
  cbv zeta in *. rewrite Hg in Hg'. injection Hg' as <-.
  set (k := Py.int (length / spacing)) in *.
  assert (Hxin : within 0 length x).
  { rewrite Forall_forall in Hin. now apply Hin. }
  split; [exact Hxin|].
  destruct (In_nth _ _ 0 Hx) as (i & Hi & Hxi).
  rewrite Hlen in Hi. specialize (Hnth i Hi). rewrite Hxi in Hnth.
  assert (HK : 0 < inject_Z k) by (apply inject_Z_pos; lia).
  assert (HI : inject_Z (Z.of_nat i) + 1 <= inject_Z k).
  { change 1 with (inject_Z 1). rewrite <- inject_Z_plus, <- Zle_Qle. lia. }
  assert (HI0 : 0 <= inject_Z (Z.of_nat i)).
  { change 0 with (inject_Z 0). rewrite <- Zle_Qle. lia. }
  set (K := inject_Z k) in *. set (I := inject_Z (Z.of_nat i)) in *.
  set (t := length / K).
  assert (Ht : length == t * K) by (unfold t; field; lra).
  assert (Hxt : x == I * t) by (rewrite Hnth; unfold t; field; lra).
  clearbody t K I.
  assert (Hst : spacing <= t) by nra.
  destruct Hxin as [Hx0 Hx1].
  unfold within, Qdiv. change (/ 2) with (1 # 2).
  split; [split; [lra|rewrite Hxt, Ht; nra]|]. rewrite Hxt, Ht. nra.
Qed.

Lemma grid_row_keep (pattern : string) (length spacing : Q) (grid : list Q)
    (i : nat) :
  0 <= length -> 0 < spacing ->
  Np.linspace 0 length (Py.int (length / spacing) + 1) = Ok grid ->
  filter (fun x => Qle_bool 0 x && Qle_bool x length)
    (grid_row pattern spacing (removelast grid) i)
  = grid_row pattern spacing (removelast grid) i.
Proof.
  intros Hl Hs Hg. apply filter_all. intros x Hx.
  assert (Hin : within 0 length x).
  { unfold grid_row in Hx.
    destruct (String.eqb pattern "square");
      [exact (proj1 (shifted_in_bounds _ _ _ _ Hl Hs Hg Hx))|].
    destruct (i mod 2 =? 0)%nat;
      [exact (proj1 (shifted_in_bounds _ _ _ _ Hl Hs Hg Hx))|].
    apply in_map_iff in Hx. destruct Hx as (x0 & <- & Hx0).
    exact (proj1 (proj2 (shifted_in_bounds _ _ _ _ Hl Hs Hg Hx0))). }
  destruct Hin as [H0 H1]. apply andb_true_iff.
  split; now apply Qle_bool_iff.
Qed.

(** What the "Auto calculate" mode returns: the first [num_holes] points of
    the grid, rows first. *)
Lemma auto_result (pattern : string)
    (length width burden spacing : Q) (num_holes : Z) :
  0 <= length -> 0 <= width -> 0 < burden -> 0 < spacing ->
  exists x_grid y_grid,
    Np.linspace 0 length (Py.int (length / spacing) + 1) = Ok x_grid
    /\ Np.linspace 0 width (Py.int (width / burden) + 1) = Ok y_grid
    /\ let pts := layout_points (grid_row pattern spacing (removelast x_grid)) 0
                    (removelast y_grid) in
       App.auto_hole_positions pattern length width burden spacing num_holes
       = Ok (map fst (firstn (Z.to_nat num_holes) pts),
             map snd (firstn (Z.to_nat num_holes) pts)).
Proof.
  intros Hl Hw Hb Hs.
  destruct (grid_lines length spacing Hl Hs) as (x_grid & Hx & _).
  destruct (grid_lines width burden Hw Hb) as (y_grid & Hy & _).
  cbv zeta in Hx, Hy.
  exists x_grid, y_grid. split; [exact Hx|]. split; [exact Hy|].
  intros pts. unfold App.auto_hole_positions.
  assert (Hfinal :
    forall r, flow_state r = flow_state (take_holes (Some num_holes) pts ([], [])) ->
      Ok (Py.slice_to (fst (flow_state r)) num_holes,
          Py.slice_to (snd (flow_state r)) num_holes)
      = Ok (map fst (firstn (Z.to_nat num_holes) pts),
            map snd (firstn (Z.to_nat num_holes) pts)) :> result (list Q * list Q)).
  { intros r ->. rewrite take_holes_empty. cbn [fst snd].
    now rewrite !slice_taken. }
  destruct (String.eqb pattern "square") eqn:Hp.
  - rewrite (div_ok length spacing (pos_neq0 _ Hs)). cbn [bind]. rewrite Hx.
    rewrite (div_ok width burden (pos_neq0 _ Hb)). cbn [bind]. rewrite Hy.
    cbn [bind].
    destruct (removelast x_grid) as [|x0 xs0] eqn:Hxs.
    + destruct (empty_grid_loop num_holes
                  (fun y s =>
                     r <- for_each
                            (fun x s =>
                               App.break_if_full num_holes
                                 (append_position s x y)) [] s ;;
                     App.break_if_full num_holes (flow_state r))
                  (removelast y_grid) ([], []) ltac:(reflexivity))
        as (r & Hr & Hst).
      rewrite Hr. cbn [bind]. apply Hfinal. rewrite Hst.
      unfold pts. rewrite layout_points_empty; [reflexivity|].
      intros i. unfold grid_row. now rewrite Hp.
    + rewrite (square_grid_loop num_holes (x0 :: xs0) (removelast y_grid) 0)
        by discriminate.
      cbn [bind]. apply Hfinal. unfold pts, grid_row. rewrite Hp. reflexivity.
  - rewrite (div_ok length spacing (pos_neq0 _ Hs)). cbn [bind]. rewrite Hx.
    rewrite (div_ok width burden (pos_neq0 _ Hb)). cbn [bind]. rewrite Hy.
    cbn [bind]. unfold Py.enumerate.
    destruct (removelast x_grid) as [|x0 xs0] eqn:Hxs.
    + destruct (empty_grid_loop num_holes
                  (fun '(row_idx, y) s =>
                     let row_x_positions :=
                       if (row_idx mod 2 =? 0)%nat then []
                       else map (fun x => x + spacing / 2) [] in
                     r <- for_each
                            (fun x s =>
                               if Qle_bool 0 x && Qle_bool x length
                               then App.break_if_full num_holes
                                      (append_position s x y)
                               else Ok (Continue s))
                            row_x_positions s ;;
                     App.break_if_full num_holes (flow_state r))
                  (combine (seq 0 (List.length (removelast y_grid)))
                     (removelast y_grid)) ([], []))
        as (r & Hr & Hst).
      { intros [i y] s. cbv zeta. destruct (i mod 2 =? 0)%nat; reflexivity. }
      cbv zeta in Hr. rewrite Hr. cbn [bind]. apply Hfinal. rewrite Hst.
      unfold pts. rewrite layout_points_empty; [reflexivity|].
      intros i. unfold grid_row. rewrite Hp.
      destruct (i mod 2 =? 0)%nat; reflexivity.
    + pose proof (staggered_grid_loop
                    (fun _ x => Qle_bool 0 x && Qle_bool x length) pattern
                    num_holes spacing (x0 :: xs0) (removelast y_grid) 0
                    ([], []) Hp) as Hloop.
      cbv beta zeta in Hloop. rewrite Hloop.
      * cbn [bind]. apply Hfinal. reflexivity.
      * discriminate.
      * intros i y _. rewrite <- Hxs. apply grid_row_keep; assumption.
Qed.

Lemma layout_length (row : nat -> list Q) (n i0 : nat) (ys : list Q) :
  (forall i, List.length (row i) = n) ->
  List.length (layout_points row i0 ys) = (List.length ys * n)%nat.
Proof.
  intros Hrow. revert i0. induction ys as [|y ys IH]; intros i0; [reflexivity|].
  cbn [layout_points List.length].
  rewrite length_app, row_points_length, Hrow, IH. reflexivity.
Qed.

Lemma layout_nth (row : nat -> list Q) (n i0 r c : nat) (ys : list Q) :
  (forall i, List.length (row i) = n) ->
  (r < List.length ys)%nat -> (c < n)%nat ->
  nth (r * n + c) (layout_points row i0 ys) (0, 0)
  = (nth c (row (i0 + r)%nat) 0, nth r ys 0).
Proof.
  intros Hrow. revert i0 r.
  induction ys as [|y ys IH]; intros i0 r Hr Hc; cbn [List.length] in Hr; [lia|].
  cbn [layout_points]. destruct r as [|r].
  - cbn [Nat.mul Nat.add]. rewrite Nat.add_0_r.
    rewrite app_nth1 by (rewrite row_points_length, Hrow; exact Hc).
    rewrite row_points_nth by (rewrite Hrow; exact Hc). reflexivity.
  - rewrite app_nth2 by (rewrite row_points_length, Hrow; simpl; lia).
    rewrite row_points_length, Hrow.
    replace (S r * n + c - n)%nat with (r * n + c)%nat by (simpl; lia).
    rewrite IH by lia.
    replace (S i0 + r)%nat with (i0 + S r)%nat by lia. reflexivity.
Qed.

Lemma grid_row_length (pattern : string) (spacing : Q) (xs : list Q) (i : nat) :
  List.length (grid_row pattern spacing xs i) = List.length xs.
Proof.
  unfold grid_row. destruct (String.eqb pattern "square"); [reflexivity|].
  destruct (i mod 2 =? 0)%nat; [reflexivity|apply length_map].
Qed.

Lemma grid_row_nth (pattern : string) (spacing : Q) (xs : list Q) (i c : nat) :
  (c < List.length xs)%nat ->
  nth c (grid_row pattern spacing xs i) 0
  == nth c xs 0
     + (if String.eqb pattern "square" || (i mod 2 =? 0)%nat then 0
        else spacing / 2).
Proof.
  intros Hc. unfold grid_row.
  destruct (String.eqb pattern "square"); cbn [orb]; [ring|].
  destruct (i mod 2 =? 0)%nat; [ring|].
  rewrite (nth_indep _ 0 (0 + spacing / 2)) by (rewrite length_map; exact Hc).
  rewrite (map_nth (fun x => x + spacing / 2) xs 0 c). reflexivity.
Qed.

Lemma grid_row_off_far_edge (pattern : string) (length spacing : Q)
    (grid : list Q) (i : nat) :
  0 <= length -> 0 < spacing ->
  Np.linspace 0 length (Py.int (length / spacing) + 1) = Ok grid ->
  Forall (off_far_edge length) (grid_row pattern spacing (removelast grid) i).
Proof.
  intros Hl Hs Hg.
  assert (Hplain : forall x, In x (removelast grid) -> off_far_edge length x).
  { intros x Hx.
    destruct (shifted_in_bounds _ _ _ _ Hl Hs Hg Hx) as ([H0 _] & _ & Hlt).
    split; [exact H0|]. revert Hlt. half_lra. }
  apply Forall_forall. intros x Hx. unfold grid_row in Hx.
  destruct (String.eqb pattern "square"); [now apply Hplain|].
  destruct (i mod 2 =? 0)%nat; [now apply Hplain|].
  apply in_map_iff in Hx. destruct Hx as (x0 & <- & Hx0).
  destruct (shifted_in_bounds _ _ _ _ Hl Hs Hg Hx0) as (_ & [H0 _] & Hlt).
  split; assumption.
Qed.

(** The points of the grid and what the "Auto calculate" mode keeps of
    them, in one statement. *)
Lemma auto_points (pattern : string) (length width burden spacing : Q) :
  0 <= length -> 0 <= width -> 0 < burden -> 0 < spacing ->
  let k := Py.int (length / spacing) in
  let m := Py.int (width / burden) in
  exists pts : list point,
    (forall num_holes,
       App.auto_hole_positions pattern length width burden spacing num_holes
       = Ok (map fst (firstn (Z.to_nat num_holes) pts),
             map snd (firstn (Z.to_nat num_holes) pts)))
    /\ (0 <= k)%Z /\ (0 <= m)%Z
    /\ List.length pts = (Z.to_nat m * Z.to_nat k)%nat
    /\ Forall (off_far_edge length) (map fst pts)
    /\ Forall (off_far_edge width) (map snd pts)
    /\ (forall r c, (r < Z.to_nat m)%nat -> (c < Z.to_nat k)%nat ->
          fst (nth (r * Z.to_nat k + c) pts (0, 0))
          == inject_Z (Z.of_nat c) * length / inject_Z k
             + (if String.eqb pattern "square" || (r mod 2 =? 0)%nat then 0
                else spacing / 2)
          /\ snd (nth (r * Z.to_nat k + c) pts (0, 0))
             == inject_Z (Z.of_nat r) * width / inject_Z m)
    /\ inject_Z k * spacing <= length
    /\ inject_Z m * burden <= width.
Proof.
  intros Hl Hw Hb Hs k m.
  destruct (grid_lines length spacing Hl Hs)
    as (x_grid & Hx & Hk & Hxlen & Hxnth & _ & Hks).
  destruct (grid_lines width burden Hw Hb)
    as (y_grid & Hy & Hm & Hylen & Hynth & _ & Hmb).
  cbv zeta in *. fold k in Hx, Hk, Hxlen, Hxnth, Hks.
  fold m in Hy, Hm, Hylen, Hynth, Hmb.
  exists (layout_points (grid_row pattern spacing (removelast x_grid)) 0
            (removelast y_grid)).
  split.
  { intros num_holes.
    destruct (auto_result pattern length width burden spacing num_holes
                Hl Hw Hb Hs) as (x_grid' & y_grid' & Hx' & Hy' & Hres).
    fold k in Hx'. fold m in Hy'.
    rewrite Hx in Hx'. injection Hx' as <-.
    rewrite Hy in Hy'. injection Hy' as <-. exact Hres. }
  split; [exact Hk|]. split; [exact Hm|].
  assert (Hrows : forall i,
            List.length (grid_row pattern spacing (removelast x_grid) i)
            = Z.to_nat k).
  { intros i. now rewrite grid_row_length. }
  split; [now rewrite (layout_length _ _ _ _ Hrows), Hylen|].
  split.
  { apply layout_fst_Forall. intros i.
    now apply grid_row_off_far_edge. }
  split.
  { apply layout_snd_Forall.
    exact (grid_row_off_far_edge "square" width burden y_grid 0 Hw Hb Hy). }
  split; [|split; assumption].
  intros r c Hr Hc.
  rewrite (layout_nth _ _ 0 r c _ Hrows) by (rewrite ?Hylen; assumption).
  cbn [fst snd Nat.add]. split.
  - rewrite grid_row_nth by (rewrite Hxlen; exact Hc).
    now rewrite Hxnth by exact Hc.
  - now apply Hynth.
Qed.

Lemma floor_unique (x : Q) (z : Z) :
  inject_Z z <= x -> x < inject_Z (z + 1) -> Qfloor x = z.
Proof.
  intros Hlo Hhi.
  pose proof (Qfloor_le x) as Hf. pose proof (Qlt_floor x) as Hc.
  assert (H1 : inject_Z z < inject_Z (Qfloor x + 1)) by lra.
  assert (H2 : inject_Z (Qfloor x) < inject_Z (z + 1)) by lra.
  rewrite <- Zlt_Qlt in H1, H2. lia.
Qed.

Lemma int_of_quotient (x s : Q) :
  0 <= x -> 0 < s ->
  let k := Py.int (x / s) in
  (0 <= k)%Z /\ inject_Z k * s <= x /\ x < (inject_Z k + 1) * s.
Proof.
  intros Hx Hs k.
  assert (Hq : 0 <= x / s).
  { apply Qle_shift_div_l; [exact Hs|]. now rewrite Qmult_0_l. }
  assert (Hk : k = Qfloor (x / s)) by (unfold k; now apply int_floor).
  pose proof (Qfloor_le (x / s)) as Hf. pose proof (Qlt_floor (x / s)) as Hc.
  rewrite <- Hk in Hf, Hc. rewrite inject_Z_plus in Hc.
  change (inject_Z 1) with 1 in Hc.
  assert (Hxs : x == x / s * s) by (field; apply pos_neq0; exact Hs).
  split.
  { rewrite Hk. exact (Qfloor_resp_le 0 _ Hq). }
  set (q := x / s) in *. set (K := inject_Z k) in *. clearbody q K.
  split; rewrite Hxs; nra.
Qed.

Lemma int_between (y s : Q) (z : Z) :
  0 < s -> 0 <= y ->
  inject_Z z * s <= y -> y < (inject_Z z + 1) * s ->
  Py.int (y / s) = z.
Proof.
  intros Hs Hy Hlo Hhi.
  rewrite int_floor
    by (apply Qle_shift_div_l; [exact Hs|now rewrite Qmult_0_l]).
  apply floor_unique.
  - apply Qle_shift_div_l; [exact Hs|exact Hlo].
  - apply Qlt_shift_div_r; [exact Hs|].
    rewrite inject_Z_plus. change (inject_Z 1) with 1. exact Hhi.
Qed.

Lemma int_at_least_1 (x s : Q) :
  0 < s -> s <= x -> (1 <= Py.int (x / s))%Z.
Proof.
  intros Hs Hsx.
  destruct (int_of_quotient x s ltac:(lra) Hs) as (Hk & _ & Hhi).
  cbv zeta in *. set (k := Py.int (x / s)) in *.
  destruct (Z_le_gt_dec 1 k) as [H|H]; [exact H|].
  assert (HK : inject_Z k <= 0).
  { change 0 with (inject_Z 0). rewrite <- Zle_Qle. lia. }
  set (K := inject_Z k) in *. clearbody K. nra.
Qed.

Lemma int_is_0 (x s : Q) :
  0 <= x -> 0 < s -> x < s -> Py.int (x / s) = 0%Z.
Proof.
  intros Hx Hs Hxs. apply int_between; try assumption.
  - change (inject_Z 0) with 0. lra.
  - change (inject_Z 0) with 0. lra.
Qed.


(** X16.  In the "Auto calculate" mode every hole drawn lies in the blast
    area and off its two far edges: for length, width >= 0 and burden,
    spacing > 0, every pattern and every hole count, the generation
    returns as many x as y positions with 0 <= x < length and
    0 <= y < width.  The bounds test of the staggered branch never rejects
    a hole, and no max(1, ...) forces a hole into an area too small for
    it. *)
Theorem auto_positions_off_far_edge
    (pattern : string) (length width burden spacing : Q) (num_holes : Z) :
  0 <= length -> 0 <= width -> 0 < burden -> 0 < spacing ->
  exists xs ys,
    App.auto_hole_positions pattern length width burden spacing num_holes
    = Ok (xs, ys)
    /\ List.length xs = List.length ys
    /\ Forall (off_far_edge length) xs
    /\ Forall (off_far_edge width) ys.
Proof.
  intros Hl Hw Hb Hs.
  destruct (auto_points pattern length width burden spacing Hl Hw Hb Hs)
    as (pts & Hres & _ & _ & _ & Hfx & Hfy & _).
  do 2 eexists. split; [apply Hres|].
  split; [now rewrite !length_map|].
  rewrite <- !firstn_map. split; now apply Forall_firstn.
Qed.

Lemma auto_positions_off_far_edge_witness :
  exists xs ys,
    App.auto_hole_positions "staggered" 20 20 5.65 6.4975 12 = Ok (xs, ys)
    /\ List.length xs = List.length ys
    /\ Forall (off_far_edge 20) xs
    /\ Forall (off_far_edge 20) ys.
Proof.
  exact (auto_positions_off_far_edge "staggered" 20 20 5.65 6.4975 12
           ltac:(discriminate) ltac:(discriminate) eq_refl eq_refl).
Defined.

(** X17.  The number of holes drawn in the "Auto calculate" mode is the
    smaller of the hole count asked for (taken as 0 when negative) and
    int(length / spacing) * int(width / burden), the number of grid
    points: a hole count above the grid is not honoured, and a hole count
    of 0 or less draws nothing. *)
Theorem auto_positions_count
    (pattern : string) (length width burden spacing : Q) (num_holes : Z) :
  0 <= length -> 0 <= width -> 0 < burden -> 0 < spacing ->
  exists xs ys,
    App.auto_hole_positions pattern length width burden spacing num_holes
    = Ok (xs, ys)
    /\ Z.of_nat (List.length xs)
       = Z.min (Z.max 0 num_holes)
           (Py.int (length / spacing) * Py.int (width / burden))
    /\ List.length ys = List.length xs.
Proof.
  intros Hl Hw Hb Hs.
  destruct (auto_points pattern length width burden spacing Hl Hw Hb Hs)
    as (pts & Hres & Hk & Hm & Hlen & _).
  cbv zeta in Hk, Hm, Hlen.
  do 2 eexists. split; [apply Hres|].
  split; [|now rewrite !length_map].
  rewrite length_map, length_firstn, Hlen.
  rewrite Nat2Z.inj_min, Nat2Z.inj_mul, (Z2Nat.id _ Hk), (Z2Nat.id _ Hm).
  rewrite (Z.mul_comm (Py.int (width / burden))). lia.
Qed.

Lemma auto_positions_count_witness :
  exists xs ys,
    App.auto_hole_positions "square" 20 20 5.65 5.65 40 = Ok (xs, ys)
    /\ Z.of_nat (List.length xs) = 9%Z
    /\ List.length ys = List.length xs.
Proof.
  exact (auto_positions_count "square" 20 20 5.65 5.65 40
           ltac:(discriminate) ltac:(discriminate) eq_refl eq_refl).
Defined.

(** X18.  Lowering the hole count only cuts the drawn layout at its end:
    for n <= n' the positions drawn for n holes are the first n (none when
    n is negative) of the positions drawn for n' holes, whatever the
    pattern. *)
Theorem auto_positions_prefix
    (pattern : string) (length width burden spacing : Q) (n n' : Z) :
  0 <= length -> 0 <= width -> 0 < burden -> 0 < spacing ->
  (n <= n')%Z ->
  exists xs ys xs' ys',
    App.auto_hole_positions pattern length width burden spacing n
    = Ok (xs, ys)
    /\ App.auto_hole_positions pattern length width burden spacing n'
       = Ok (xs', ys')
    /\ xs = firstn (Z.to_nat n) xs'
    /\ ys = firstn (Z.to_nat n) ys'.
Proof.
  intros Hl Hw Hb Hs Hn.
  destruct (auto_points pattern length width burden spacing Hl Hw Hb Hs)
    as (pts & Hres & _).
  do 4 eexists. split; [apply Hres|]. split; [apply Hres|].
  rewrite <- !firstn_map, !firstn_firstn.
  replace (Nat.min (Z.to_nat n) (Z.to_nat n')) with (Z.to_nat n) by lia.
  split; reflexivity.
Qed.

Lemma auto_positions_prefix_witness :
  exists xs ys xs' ys',
    App.auto_hole_positions "staggered" 20 20 5.65 6.4975 4 = Ok (xs, ys)
    /\ App.auto_hole_positions "staggered" 20 20 5.65 6.4975 9
       = Ok (xs', ys')
    /\ xs = firstn 4 xs'
    /\ ys = firstn 4 ys'.
Proof.
  exact (auto_positions_prefix "staggered" 20 20 5.65 6.4975 4 9
           ltac:(discriminate) ltac:(discriminate) eq_refl eq_refl
           ltac:(discriminate)).
Defined.

(** X19.  Where the "Auto calculate" mode draws its holes.  With
    k = int(length / spacing) holes per row and m = int(width / burden)
    rows, the hole at index r * k + c (row r < m, column c < k, below the
    hole count) is at y = r * width / m and at x = c * length / k, plus
    spacing / 2 on the rows of odd index when the pattern is not "square".
    The steps length / k and width / m are at least the spacing and the
    burden entered, and the shift is half the spacing entered, not half
    the step. *)
Theorem auto_positions_grid
    (pattern : string) (length width burden spacing : Q) (num_holes : Z)
    (r c : nat) :
  0 <= length -> 0 <= width -> 0 < burden -> 0 < spacing ->
  let k := Py.int (length / spacing) in
  let m := Py.int (width / burden) in
  (r < Z.to_nat m)%nat -> (c < Z.to_nat k)%nat ->
  (Z.of_nat (r * Z.to_nat k + c) < num_holes)%Z ->
  exists xs ys,
    App.auto_hole_positions pattern length width burden spacing num_holes
    = Ok (xs, ys)
    /\ nth (r * Z.to_nat k + c) xs 0
       == inject_Z (Z.of_nat c) * (length / inject_Z k)
          + (if String.eqb pattern "square" || (r mod 2 =? 0)%nat then 0
             else spacing / 2)
    /\ nth (r * Z.to_nat k + c) ys 0
       == inject_Z (Z.of_nat r) * (width / inject_Z m)
    /\ spacing <= length / inject_Z k
    /\ burden <= width / inject_Z m.
Proof.
  intros Hl Hw Hb Hs k m Hr Hc Hi.
  destruct (auto_points pattern length width burden spacing Hl Hw Hb Hs)
    as (pts & Hres & Hk & Hm & Hlen & _ & _ & Hnth & Hks & Hmb).
  cbv zeta in *. fold k in Hk, Hlen, Hnth, Hks. fold m in Hm, Hlen, Hnth, Hmb.
  destruct (Hnth r c Hr Hc) as [Hx Hy].
  assert (HK : 0 < inject_Z k) by (apply inject_Z_pos; lia).
  assert (HM : 0 < inject_Z m) by (apply inject_Z_pos; lia).
  do 2 eexists. split; [apply Hres|].
  rewrite nth_map_fst, nth_map_snd, nth_firstn.
  destruct (Nat.ltb_spec (r * Z.to_nat k + c) (Z.to_nat num_holes)); [|lia].
  split; [rewrite Hx; field; lra|].
  split; [rewrite Hy; field; lra|].
  split; (apply Qle_shift_div_l; [assumption|]).
  - rewrite Qmult_comm. exact Hks.
  - rewrite Qmult_comm. exact Hmb.
Qed.

Lemma auto_positions_grid_witness :
  exists xs ys,
    App.auto_hole_positions "staggered" 20 20 5 6 12 = Ok (xs, ys)
    /\ nth 5 xs 0 == 2 * (20 / 3) + 6 / 2
    /\ nth 5 ys 0 == 1 * (20 / 4)
    /\ 6 <= 20 / 3
    /\ 5 <= 20 / 4.
Proof.
  exact (auto_positions_grid "staggered" 20 20 5 6 12 1 2
           ltac:(discriminate) ltac:(discriminate) eq_refl eq_refl
           ltac:(vm_compute; lia) ltac:(vm_compute; lia)
           ltac:(vm_compute; reflexivity)).
Defined.

(** X20.  Hole count and drawing together, square pattern, "Full Blast".
    When the area holds at least one spacing and one burden
    (spacing <= length, burden <= width) the application draws exactly
    the hole count it reports.  When it does not (length < spacing or
    width < burden) the reported hole count is still at least 1, by its
    max(1, ...), but no hole is drawn. *)
Theorem square_full_blast_drawn
    (option : string)
    (length width bench_height burden spacing blast_volume : Q) :
  0 <= length -> 0 <= width -> 0 < burden -> 0 < spacing ->
  String.eqb option "Manual Selection" = false ->
  exists num_rows num_holes_per_row num_holes xs ys,
    App.hole_count "square" option length width bench_height burden spacing
      blast_volume
    = Ok (num_rows, num_holes_per_row, num_holes)
    /\ App.auto_hole_positions "square" length width burden spacing num_holes
       = Ok (xs, ys)
    /\ (1 <= num_holes)%Z
    /\ (spacing <= length -> burden <= width ->
        Z.of_nat (List.length xs) = num_holes)
    /\ (length < spacing \/ width < burden -> xs = [] /\ ys = []).
Proof.
  intros Hl Hw Hb Hs Hopt.
  destruct (auto_points "square" length width burden spacing Hl Hw Hb Hs)
    as (pts & Hres & Hk & Hm & Hlen & _).
  cbv zeta in Hk, Hm, Hlen.
  unfold App.hole_count. rewrite String.eqb_refl.
  rewrite (div_ok width burden (pos_neq0 _ Hb)).
  rewrite (div_ok length spacing (pos_neq0 _ Hs)).
  cbn [bind]. rewrite Hopt.
  set (k := Py.int (length / spacing)) in *.
  set (m := Py.int (width / burden)) in *.
  do 5 eexists. split; [reflexivity|]. split; [apply Hres|].
  split; [nia|]. split.
  - intros Hsl Hbw.
    pose proof (int_at_least_1 length spacing Hs Hsl) as Hk1.
    pose proof (int_at_least_1 width burden Hb Hbw) as Hm1.
    fold k in Hk1. fold m in Hm1.
    rewrite length_map, length_firstn, Hlen.
    rewrite !Z.max_r by assumption.
    rewrite Nat2Z.inj_min, Nat2Z.inj_mul, !Z2Nat.id by nia. lia.
  - intros Hsmall.
    assert (Hnil : pts = []).
    { apply length_zero_iff_nil. rewrite Hlen.
      destruct Hsmall as [H|H].
      - pose proof (int_is_0 length spacing Hl Hs H) as E. fold k in E.
        rewrite E. lia.
      - pose proof (int_is_0 width burden Hw Hb H) as E. fold m in E.
        rewrite E. lia. }
    rewrite Hnil, firstn_nil. split; reflexivity.
Qed.

Lemma square_full_blast_drawn_witness :
  exists num_rows num_holes_per_row num_holes xs ys,
    App.hole_count "square" "Full Blast" 4 20 10 5 5 2000
    = Ok (num_rows, num_holes_per_row, num_holes)
    /\ App.auto_hole_positions "square" 4 20 5 5 num_holes = Ok (xs, ys)
    /\ (1 <= num_holes)%Z
    /\ xs = [] /\ ys = [].
Proof.
  destruct (square_full_blast_drawn "Full Blast" 4 20 10 5 5 2000
              ltac:(discriminate) ltac:(discriminate) eq_refl eq_refl eq_refl)
    as (rows & hpr & n & xs & ys & Hc & Ha & Hn & _ & Hempty).
  exists rows, hpr, n, xs, ys.
  split; [exact Hc|]. split; [exact Ha|]. split; [exact Hn|].
  apply Hempty. left. reflexivity.
Defined.



(** ** The top view of visualizations/view_2d.py *)

Lemma firstn_snoc {A : Type} (l : list A) (n : nat) (x : A) :
  nth_error l n = Some x -> firstn (S n) l = firstn n l ++ [x].
Proof.
  revert n. induction l as [|a l IH]; intros [|n] H; try discriminate.
  - injection H as ->. reflexivity.
  - cbn [nth_error] in H. rewrite firstn_cons, (IH n H). reflexivity.
Qed.

Lemma nth_error_combine {A B : Type} (l : list A) (l' : list B) (n : nat)
    (x : A) (y : B) :
  nth_error l n = Some x -> nth_error l' n = Some y ->
  nth_error (combine l l') n = Some (x, y).
Proof.
  revert l' n. induction l as [|a l IH]; intros [|b l'] [|n] Hx Hy;
    try discriminate.
  - injection Hx as ->. injection Hy as ->. reflexivity.
  - cbn [nth_error combine] in *. now apply IH.
Qed.

Lemma combine_fst_snd (pts : list point) :
  combine (map fst pts) (map snd pts) = pts.
Proof.
  induction pts as [|[x y] pts IH]; [reflexivity|].
  cbn [map combine fst snd]. now rewrite IH.
Qed.

(** The loop that adds the circles, on position lists long enough and a
    non-empty list of radii. *)
Lemma circles_loop (hole_radii xs ys : list Q) (n : nat) :
  hole_radii <> [] ->
  (n <= List.length xs)%nat -> (n <= List.length ys)%nat ->
  exists circles,
    fold_left (View2d.add_circle hole_radii xs ys) (map Z.of_nat (seq 0 n))
      (inr [])
    = inr circles
    /\ map fst circles = firstn n (combine xs ys).
Proof.
  intros Hr. induction n as [|n IH]; intros Hx Hy.
  - exists []. split; reflexivity.
  - destruct (IH ltac:(lia) ltac:(lia)) as (circles & Hfold & Hc).
    assert (Hstep :
      fold_left (View2d.add_circle hole_radii xs ys)
        (map Z.of_nat (seq 0 (S n))) (inr [])
      = View2d.add_circle hole_radii xs ys (inr circles) (Z.of_nat n))
      by (rewrite seq_S, map_app, fold_left_app, Hfold; reflexivity).
    rewrite Hstep. unfold View2d.add_circle. rewrite Nat2Z.id.
    destruct (nth_error xs n) as [x|] eqn:Ex;
      [|apply nth_error_None in Ex; lia].
    destruct (nth_error ys n) as [y|] eqn:Ey;
      [|apply nth_error_None in Ey; lia].
    assert (Hlen : List.length hole_radii <> 0%nat)
      by (destruct hole_radii; [contradiction|discriminate]).
    destruct (Nat.eqb_spec (List.length hole_radii) 0); [contradiction|].
    destruct (nth_error hole_radii (n mod List.length hole_radii))
      as [radius|] eqn:Er.
    + eexists. split; [reflexivity|].
      rewrite map_app.
      rewrite (firstn_snoc _ _ _ (nth_error_combine _ _ _ _ _ Ex Ey)).
      f_equal. exact Hc.
    + apply nth_error_None in Er.
      pose proof (Nat.mod_upper_bound n _ Hlen). lia.
Qed.

(** The positions the top view computes afresh: the grid of the "Auto
    calculate" mode, with [max(1, int(width / burden))] rows in place of
    [int(width / burden)]. *)
Lemma top_view_result (pattern : string)
    (length width burden spacing : Q) (num_holes : Z)
    (passed : list Q * list Q) :
  0 <= length -> 0 <= width -> 0 < burden -> 0 < spacing ->
  pattern = "square"%string \/ pattern = "staggered"%string ->
  exists x_positions y_positions,
    Np.linspace 0 length (Py.int (length / spacing) + 1) = Ok x_positions
    /\ Np.linspace 0 width (Z.max 1 (Py.int (width / burden)) + 1)
       = Ok y_positions
    /\ View2d.top_view_positions length width num_holes passed
         (Some burden) (Some spacing) pattern
       = Ok (flow_state
               (take_holes (Some num_holes)
                  (layout_points
                     (grid_row pattern spacing (removelast x_positions)) 0
                     (removelast y_positions))
                  ([], []))).
Proof.
  intros Hl Hw Hb Hs Hpat.
  destruct (grid_lines length spacing Hl Hs) as (x_positions & Hx & _).
  cbv zeta in Hx.
  assert (Hrows : (1 <= Z.max 1 (Py.int (width / burden)) + 1)%Z) by lia.
  destruct (linspace_spec 0 width _ Hrows) as (y_positions & Hy & _).
  assert (Hyin : Forall (within 0 width) (removelast y_positions)).
  { rewrite removelast_firstn_len. apply Forall_firstn.
    apply (linspace_within 0 width 0 width _ y_positions Hrows Hy).
    - split; [apply Qle_refl|exact Hw].
    - intros _. split; [exact Hw|apply Qle_refl]. }
  exists x_positions, y_positions. split; [exact Hx|]. split; [exact Hy|].
  unfold View2d.top_view_positions.
  rewrite (div_ok width burden (pos_neq0 _ Hb)).
  rewrite !(div_ok _ spacing (pos_neq0 _ Hs)).
  cbn [bind]. rewrite Hy. cbn [bind]. rewrite Hx. cbn [bind].
  destruct Hpat as [-> | ->].
  - change (String.eqb "square" "staggered") with false. cbv iota.
    destruct (removelast x_positions) as [|x0 xs0] eqn:Hxs.
    + destruct (empty_grid_loop num_holes
                  (fun y s =>
                     r <- for_each
                            (fun x s =>
                               App.break_if_full num_holes
                                 (append_position s x y)) [] s ;;
                     App.break_if_full num_holes (flow_state r))
                  (removelast y_positions) ([], []) ltac:(reflexivity))
        as (r & Hr & Hst).
      rewrite Hr. cbn [bind]. rewrite Hst.
      rewrite layout_points_empty; [reflexivity|]. reflexivity.
    + rewrite (square_grid_loop num_holes (x0 :: xs0)
                 (removelast y_positions) 0) by discriminate.
      cbn [bind]. reflexivity.
  - change (String.eqb "staggered" "staggered") with true. cbv iota.
    unfold Py.enumerate.
    destruct (removelast x_positions) as [|x0 xs0] eqn:Hxs.
    + destruct (empty_grid_loop num_holes
                  (fun '(row_idx, y) s =>
                     let row_x_positions :=
                       if (row_idx mod 2 =? 0)%nat then []
                       else map (fun x => x + spacing / 2) [] in
                     r <- for_each
                            (fun x s =>
                               if (Qle_bool 0 x && Qle_bool x length)
                                  && (Qle_bool 0 y && Qle_bool y width)
                               then App.break_if_full num_holes
                                      (append_position s x y)
                               else Ok (Continue s))
                            row_x_positions s ;;
                     App.break_if_full num_holes (flow_state r))
                  (combine (seq 0 (List.length (removelast y_positions)))
                     (removelast y_positions)) ([], []))
        as (r & Hr & Hst).
      { intros [i y] s. cbv zeta. destruct (i mod 2 =? 0)%nat; reflexivity. }
      cbv zeta in Hr. rewrite Hr. cbn [bind]. rewrite Hst.
      rewrite layout_points_empty; [reflexivity|].
      intros i. unfold grid_row.
      change (String.eqb "staggered" "square") with false. cbv iota.
      destruct (i mod 2 =? 0)%nat; reflexivity.
    + pose proof (staggered_grid_loop
                    (fun y x => (Qle_bool 0 x && Qle_bool x length)
                                && (Qle_bool 0 y && Qle_bool y width))
                    "staggered" num_holes spacing (x0 :: xs0)
                    (removelast y_positions) 0 ([], []) eq_refl) as Hloop.
      cbv beta zeta in Hloop. rewrite Hloop.
      * cbn [bind]. reflexivity.
      * discriminate.
      * intros i y Hyi. rewrite <- Hxs.
        rewrite <- (grid_row_keep "staggered" length spacing x_positions i
                      Hl Hs Hx) at 2.
        apply filter_ext_in. intros x _.
        rewrite Forall_forall in Hyin. destruct (Hyin y Hyi) as [H0 H1].
        apply Qle_bool_iff in H0, H1. rewrite H0, H1. apply andb_true_r.
Qed.

(** The circles of the top view are at the first [num_holes] points of
    its grid. *)
Lemma top_view_centres (pattern : string)
    (length width burden spacing : Q) (num_holes : Z)
    (hole_radii : list Q) (passed : list Q * list Q) :
  0 <= length -> 0 <= width -> 0 < burden -> 0 < spacing ->
  pattern = "square"%string \/ pattern = "staggered"%string ->
  hole_radii <> [] ->
  exists x_positions y_positions circles,
    Np.linspace 0 length (Py.int (length / spacing) + 1) = Ok x_positions
    /\ Np.linspace 0 width (Z.max 1 (Py.int (width / burden)) + 1)
       = Ok y_positions
    /\ View2d.create_2d_top_view length width num_holes hole_radii passed
         (Some burden) (Some spacing) pattern
       = inr circles
    /\ map fst circles
       = firstn (Z.to_nat num_holes)
           (layout_points
              (grid_row pattern spacing (removelast x_positions)) 0
              (removelast y_positions)).
Proof.
  intros Hl Hw Hb Hs Hpat Hr.
  destruct (top_view_result pattern length width burden spacing num_holes
              passed Hl Hw Hb Hs Hpat)
    as (x_positions & y_positions & Hx & Hy & Hres).
  set (pts := layout_points
                (grid_row pattern spacing (removelast x_positions)) 0
                (removelast y_positions)) in *.
  unfold View2d.create_2d_top_view. rewrite Hres, take_holes_empty.
  set (t := taken (Some num_holes) 0 pts).
  unfold Py.range.
  set (c := Z.to_nat (Z.min num_holes
                        (Z.of_nat (List.length (map fst (firstn t pts)))))).
  unfold point in *.
  assert (Hct : (c <= List.length (firstn t pts))%nat).
  { unfold c. rewrite length_map. lia. }
  destruct (circles_loop hole_radii (map fst (firstn t pts))
              (map snd (firstn t pts)) c Hr)
    as (circles & Hfold & Hc); [now rewrite length_map..|].
  exists x_positions, y_positions, circles.
  split; [exact Hx|]. split; [exact Hy|]. split; [exact Hfold|].
  rewrite Hc, combine_fst_snd, firstn_firstn.
  assert (Ht : t = Nat.min (List.length pts) (Z.to_nat (Z.max 1 num_holes))).
  { unfold t, taken. simpl Z.of_nat. now rewrite Z.sub_0_r. }
  assert (Hlt : List.length (firstn t pts) = t).
  { rewrite length_firstn, Ht. lia. }
  change (firstn (Nat.min c t) pts = firstn (Z.to_nat num_holes) pts).
  rewrite <- (firstn_min_length (Z.to_nat num_holes) pts). f_equal.
  unfold c. rewrite length_map, Hlt, Ht. lia.
Qed.

(** X22.  The top view and the application agree on an area of at least
    one burden: [create_2d_top_view], given burden and spacing, ignores the
    hole positions passed to it and computes positions afresh; for
    burden <= width, pattern "square" or "staggered" and every hole count
    the circles it draws are centred, in order, on exactly the positions
    that the "Auto calculate" mode hands to the other views. *)
Theorem top_view_draws_app_positions
    (pattern : string) (length width burden spacing : Q) (num_holes : Z)
    (hole_radii : list Q) (passed : list Q * list Q) :
  0 <= length -> 0 < burden -> burden <= width -> 0 < spacing ->
  pattern = "square"%string \/ pattern = "staggered"%string ->
  hole_radii <> [] ->
  exists xs ys circles,
    App.auto_hole_positions pattern length width burden spacing num_holes
    = Ok (xs, ys)
    /\ View2d.create_2d_top_view length width num_holes hole_radii passed
         (Some burden) (Some spacing) pattern
       = inr circles
    /\ map fst circles = combine xs ys.
Proof.
  intros Hl Hb Hbw Hs Hpat Hr. assert (Hw : 0 <= width) by lra.
  destruct (top_view_centres pattern length width burden spacing num_holes
              hole_radii passed Hl Hw Hb Hs Hpat Hr)
    as (xp & yp & circles & Hx & Hy & Hview & Hc).
  destruct (auto_result pattern length width burden spacing num_holes
              Hl Hw Hb Hs) as (xg & yg & Hx' & Hy' & Hres).
  rewrite (Z.max_r 1 _ (int_at_least_1 width burden Hb Hbw)) in Hy.
  rewrite Hx in Hx'. injection Hx' as <-.
  rewrite Hy in Hy'. injection Hy' as <-.
  cbv zeta in Hres.
  do 3 eexists. split; [exact Hres|]. split; [exact Hview|].
  rewrite combine_fst_snd. exact Hc.
Qed.

Lemma top_view_draws_app_positions_witness :
  exists xs ys circles,
    App.auto_hole_positions "staggered" 20 20 5.65 6.4975 9 = Ok (xs, ys)
    /\ View2d.create_2d_top_view 20 20 9 [0.1] ([], []) (Some 5.65)
         (Some 6.4975) "staggered"
       = inr circles
    /\ map fst circles = combine xs ys.
Proof.
  exact (top_view_draws_app_positions "staggered" 20 20 5.65 6.4975 9
           [0.1] ([], []) ltac:(discriminate) eq_refl ltac:(discriminate)
           eq_refl (or_intror eq_refl) ltac:(discriminate)).
Defined.

(** X23.  The top view and the application disagree on an area narrower
    than one burden.  For 0 <= width < burden, spacing <= length and a
    hole count of at least 1, the "Auto calculate" mode computes no hole
    position at all, while the top view, whose number of rows is
    max(1, int(width / burden)), draws min(hole count,
    int(length / spacing)) circles, at least one, all on the line y = 0. *)
Theorem top_view_draws_row_in_narrow_area
    (pattern : string) (length width burden spacing : Q) (num_holes : Z)
    (hole_radii : list Q) :
  0 <= width -> width < burden -> 0 < spacing -> spacing <= length ->
  (1 <= num_holes)%Z ->
  pattern = "square"%string \/ pattern = "staggered"%string ->
  hole_radii <> [] ->
  exists circles,
    App.auto_hole_positions pattern length width burden spacing num_holes
    = Ok ([], [])
    /\ View2d.create_2d_top_view length width num_holes hole_radii ([], [])
         (Some burden) (Some spacing) pattern
       = inr circles
    /\ Z.of_nat (List.length circles)
       = Z.min num_holes (Py.int (length / spacing))
    /\ circles <> []
    /\ Forall (fun c => snd (fst c) == 0) circles.
Proof.
  intros Hw Hwb Hs Hsl Hn Hpat Hr.
  assert (Hl : 0 <= length) by lra. assert (Hb : 0 < burden) by lra.
  pose proof (int_is_0 width burden Hw Hb Hwb) as Hm.
  pose proof (int_at_least_1 length spacing Hs Hsl) as Hk.
  destruct (auto_points pattern length width burden spacing Hl Hw Hb Hs)
    as (pts & Hres & _ & _ & Hlen & _).
  cbv zeta in Hlen. rewrite Hm in Hlen. cbn [Z.to_nat Nat.mul] in Hlen.
  apply length_zero_iff_nil in Hlen. subst pts.
  specialize (Hres num_holes). rewrite firstn_nil in Hres. cbn [map] in Hres.
  destruct (top_view_centres pattern length width burden spacing num_holes
              hole_radii ([], []) Hl Hw Hb Hs Hpat Hr)
    as (xp & yp & circles & Hx & Hy & Hview & Hc).
  rewrite Hm in Hy. change (Z.max 1 0 + 1)%Z with 2%Z in Hy.
  destruct (linspace_spec 0 width 2 ltac:(lia)) as (yp' & Hy' & Hylen & Hynth).
  rewrite Hy in Hy'. injection Hy' as <-.
  destruct yp as [|y0 [|y1 [|y2 yp]]]; try discriminate.
  cbn [removelast layout_points] in Hc. rewrite app_nil_r in Hc.
  assert (Hy0 : y0 == 0).
  { specialize (Hynth 0%nat ltac:(simpl; lia)). cbn [nth] in Hynth.
    rewrite Hynth. apply lerp_first. }
  destruct (grid_lines length spacing Hl Hs)
    as (xp' & Hx' & _ & Hxlen & _).
  cbv zeta in Hx', Hxlen. rewrite Hx in Hx'. injection Hx' as <-.
  assert (Hcount : Z.of_nat (List.length circles)
                   = Z.min num_holes (Py.int (length / spacing))).
  { pose proof (f_equal (@List.length _) Hc) as Hlc.
    rewrite length_map, length_firstn in Hlc.
    rewrite row_points_length, grid_row_length, Hxlen in Hlc.
    unfold View2d.circle in *. lia. }
  exists circles. split; [exact Hres|]. split; [exact Hview|].
  split; [exact Hcount|]. split.
  - intros ->. cbn [List.length Z.of_nat] in Hcount. lia.
  - assert (Hall : Forall (fun p : point => snd p == 0) (map fst circles)).
    { rewrite Hc. apply Forall_firstn. unfold row_points.
      apply Forall_map, Forall_forall. intros x _. exact Hy0. }
    rewrite Forall_map in Hall. exact Hall.
Qed.

Lemma top_view_draws_row_in_narrow_area_witness :
  exists circles,
    App.auto_hole_positions "square" 20 4 5 5 1 = Ok ([], [])
    /\ View2d.create_2d_top_view 20 4 1 [0.1] ([], []) (Some 5) (Some 5)
         "square"
       = inr circles
    /\ circles <> [].
Proof.
  destruct (top_view_draws_row_in_narrow_area "square" 20 4 5 5 1 [0.1]
              ltac:(discriminate) eq_refl eq_refl ltac:(discriminate)
              ltac:(lia) (or_introl eq_refl) ltac:(discriminate))
    as (circles & Happ & Hview & _ & Hne & _).
  exists circles. repeat split; assumption.
Defined.

(** ** The design and the drawing within the ranges of the input widgets *)

(** X24.  The default of the hole-diameter slider and the charge it leads
    to.  The default is always a valid slider value (80..350 mm): it is 80
    for a bench height up to 9.6 m, 350 from 42 m on, and in between the
    rounding of bench height / 0.12.  With that default and the
    application's own subdrilling and stemming, the explosive column is
    positive exactly when the bench height is above 1.662 m and negative
    exactly when it is below. *)
Theorem default_diameter_column_sign
    (explosive_type : App.explosive) (bench_height : Q) (num_holes : Z)
    (blast_volume : Q) :
  let hole_diameter := App.calculated_diameter_rounded bench_height in
  let burden := App.calculated_burden hole_diameter in
  (80 <= hole_diameter <= 350)%Z
  /\ (bench_height <= 9.6 -> hole_diameter = 80%Z)
  /\ (42 <= bench_height -> hole_diameter = 350%Z)
  /\ (9.6 <= bench_height -> bench_height <= 42 ->
      hole_diameter = Py.round (bench_height / 120 * 1000))
  /\ exists p,
      App.explosive_tab hole_diameter explosive_type bench_height
        (App.calculated_subdrilling burden) (App.calculated_stemming burden)
        num_holes blast_volume = Ok p
      /\ (0 < App.explosive_column_length p <-> 1.662 < bench_height)
      /\ (App.explosive_column_length p < 0 <-> bench_height < 1.662).
Proof.
  intros hole_diameter burden.
  set (x := bench_height / 120 * 1000).
  assert (Hx : x == bench_height * (25 # 3)) by (unfold x; field).
  destruct (round_near x) as [Rlo Rhi].
  assert (HD : hole_diameter = Z.max 80 (Z.min 350 (Py.round x)))
    by reflexivity.
  set (R := Py.round x) in *.
  assert (Hlow : bench_height <= 9.6 -> hole_diameter = 80%Z).
  { intros H. assert (HR : inject_Z R < inject_Z 81)
      by (change (inject_Z 81) with 81; lra).
    rewrite <- Zlt_Qlt in HR. lia. }
  assert (Hhigh : 42 <= bench_height -> hole_diameter = 350%Z).
  { intros H. assert (HR : inject_Z 349 < inject_Z R)
      by (change (inject_Z 349) with 349; lra).
    rewrite <- Zlt_Qlt in HR. lia. }
  assert (Hmid : 9.6 <= bench_height -> bench_height <= 42 ->
                 hole_diameter = R).
  { intros H1 H2.
    assert (HR1 : inject_Z 79 < inject_Z R)
      by (change (inject_Z 79) with 79; lra).
    assert (HR2 : inject_Z R < inject_Z 351)
      by (change (inject_Z 351) with 351; lra).
    rewrite <- Zlt_Qlt in HR1, HR2. lia. }
  split; [lia|]. split; [exact Hlow|]. split; [exact Hhigh|].
  split; [exact Hmid|].
  destruct (explosive_tab_fields hole_diameter explosive_type bench_height
              (App.calculated_subdrilling burden)
              (App.calculated_stemming burden) num_holes blast_volume)
    as (p & Hp & Hcol & _).
  exists p. split; [exact Hp|]. rewrite Hcol.
  assert (Heq : bench_height + App.calculated_subdrilling burden
                - App.calculated_stemming burden
                == bench_height - 0.6 * burden)
    by (unfold App.calculated_subdrilling, App.calculated_stemming; ring).
  assert (Hb : burden == 0.024 * inject_Z hole_diameter + 0.85)
    by reflexivity.
  assert (Hd80 : 80 <= inject_Z hole_diameter).
  { change 80 with (inject_Z 80). rewrite <- Zle_Qle. lia. }
  assert (Hcases : inject_Z hole_diameter <= 80
                   \/ inject_Z hole_diameter <= inject_Z R).
  { destruct (Z_le_gt_dec hole_diameter 80) as [H|H].
    - left. change 80 with (inject_Z 80). now rewrite <- Zle_Qle.
    - right. rewrite <- Zle_Qle. lia. }
  rewrite Heq, Hb.
  set (d := inject_Z hole_diameter) in *. set (r := inject_Z R) in *.
  clearbody d r.
  split; split; intros H; destruct Hcases; lra.
Qed.

(** X25.  When the "Auto calculate" mode draws nothing: for length,
    width >= 0 and burden, spacing > 0 the list of hole positions is empty
    exactly when the hole count is 0 or less, or the area is shorter than
    one spacing, or narrower than one burden. *)
Theorem auto_positions_empty_iff
    (pattern : string) (length width burden spacing : Q) (num_holes : Z) :
  0 <= length -> 0 <= width -> 0 < burden -> 0 < spacing ->
  exists xs ys,
    App.auto_hole_positions pattern length width burden spacing num_holes
    = Ok (xs, ys)
    /\ (xs = [] <->
        (num_holes <= 0)%Z \/ length < spacing \/ width < burden).
Proof.
  intros Hl Hw Hb Hs.
  destruct (auto_points pattern length width burden spacing Hl Hw Hb Hs)
    as (pts & Hres & Hk & Hm & Hlen & _).
  cbv zeta in Hk, Hm, Hlen.
  do 2 eexists. split; [apply Hres|].
  rewrite <- length_zero_iff_nil, length_map, length_firstn, Hlen.
  split.
  - intros H0.
    destruct (Z_le_gt_dec num_holes 0) as [Hn|Hn]; [now left|right].
    destruct (Qlt_le_dec length spacing) as [H|Hsl]; [now left|right].
    destruct (Qlt_le_dec width burden) as [H|Hbw]; [exact H|].
    pose proof (int_at_least_1 length spacing Hs Hsl).
    pose proof (int_at_least_1 width burden Hb Hbw). nia.
  - intros [Hn|[H|H]].
    + lia.
    + rewrite (int_is_0 length spacing Hl Hs H). lia.
    + rewrite (int_is_0 width burden Hw Hb H). lia.
Qed.

Lemma auto_positions_empty_iff_witness :
  exists xs ys,
    App.auto_hole_positions "staggered" 10 10 9.25 10.6375 1 = Ok (xs, ys)
    /\ xs = [].
Proof.
  destruct (auto_positions_empty_iff "staggered" 10 10 9.25 10.6375 1
              ltac:(discriminate) ltac:(discriminate) eq_refl eq_refl)
    as (xs & ys & Hres & Hiff).
  exists xs, ys. split; [exact Hres|].
  apply Hiff. right. left. reflexivity.
Defined.

(** X26.  The drawing within the ranges of the input widgets (length and
    width at least 10 m, hole diameter 80..350 mm, burden
    0.024 * D + 0.85, spacing as the application sets it for the pattern)
    and a hole count of at least 1.  With the square pattern at least one
    hole is always drawn.  With the staggered pattern nothing is drawn
    exactly when the length is below 1.15 * burden; on an area 10 m long
    that is the case exactly for the diameters from 327 mm on. *)
Theorem drawing_in_widget_ranges
    (pattern : string) (hole_diameter : Z)
    (length width recommended_spacing : Q) (num_holes : Z) :
  (80 <= hole_diameter <= 350)%Z -> 10 <= length -> 10 <= width ->
  (1 <= num_holes)%Z ->
  pattern = "square"%string \/ pattern = "staggered"%string ->
  let burden := App.calculated_burden hole_diameter in
  let spacing := App.calculated_spacing pattern burden recommended_spacing in
  exists xs ys,
    App.auto_hole_positions pattern length width burden spacing num_holes
    = Ok (xs, ys)
    /\ (pattern = "square"%string -> xs <> [])
    /\ (pattern = "staggered"%string ->
        (xs = [] <-> length < 1.15 * burden)
        /\ (length == 10 -> (xs = [] <-> (327 <= hole_diameter)%Z))).
Proof.
  intros [Hlo Hhi] Hl10 Hw10 Hn Hpat burden spacing.
  assert (Hd80 : 80 <= inject_Z hole_diameter).
  { change 80 with (inject_Z 80). rewrite <- Zle_Qle. exact Hlo. }
  assert (Hd350 : inject_Z hole_diameter <= 350).
  { change 350 with (inject_Z 350). rewrite <- Zle_Qle. exact Hhi. }
  assert (Hbd : burden == 0.024 * inject_Z hole_diameter + 0.85)
    by reflexivity.
  assert (Hb : 0 < burden) by lra.
  assert (Hbw : burden <= width) by lra.
  assert (Hsp : spacing == burden /\ pattern = "square"%string
                \/ spacing == 1.15 * burden /\ pattern = "staggered"%string).
  { destruct Hpat as [-> | ->]; [left|right]; split; reflexivity. }
  assert (Hs : 0 < spacing) by (destruct Hsp as [[-> _]|[-> _]]; lra).
  assert (Hl : 0 <= length) by lra. assert (Hw : 0 <= width) by lra.
  destruct (auto_points pattern length width burden spacing Hl Hw Hb Hs)
    as (pts & Hres & Hk & Hm & Hlen & _).
  cbv zeta in Hk, Hm, Hlen.
  pose proof (int_at_least_1 width burden Hb Hbw) as Hm1.
  assert (Hempty :
    map fst (firstn (Z.to_nat num_holes) pts) = [] <-> length < spacing).
  { rewrite <- length_zero_iff_nil, length_map, length_firstn, Hlen. split.
    - intros H0. destruct (Qlt_le_dec length spacing) as [H|Hsl]; [exact H|].
      pose proof (int_at_least_1 length spacing Hs Hsl). nia.
    - intros H. rewrite (int_is_0 length spacing Hl Hs H). lia. }
  do 2 eexists. split; [apply Hres|]. split.
  - intros Hsq Hnil. apply Hempty in Hnil.
    destruct Hsp as [[E _]|[_ E]]; [|rewrite Hsq in E; discriminate].
    rewrite E in Hnil. lra.
  - intros Hst.
    destruct Hsp as [[_ E]|[E _]]; [rewrite Hst in E; discriminate|].
    split.
    + rewrite Hempty, E. reflexivity.
    + intros Hten. rewrite Hempty, E, Hten, Hbd. split.
      * intros H.
        assert (H326 : inject_Z 326 < inject_Z hole_diameter)
          by (change (inject_Z 326) with 326; lra).
        rewrite <- Zlt_Qlt in H326. lia.
      * intros H.
        assert (H327 : inject_Z 327 <= inject_Z hole_diameter)
          by (rewrite <- Zle_Qle; exact H).
        change (inject_Z 327) with 327 in H327. lra.
Qed.

Lemma drawing_in_widget_ranges_witness :
  exists xs ys,
    App.auto_hole_positions "staggered" 10 10 (App.calculated_burden 350)
      (App.calculated_spacing "staggered" (App.calculated_burden 350) 0) 4
    = Ok (xs, ys)
    /\ xs = [].
Proof.
  destruct (drawing_in_widget_ranges "staggered" 350 10 10 0 4
              ltac:(lia) ltac:(discriminate) ltac:(discriminate) ltac:(lia)
              (or_intror eq_refl))
    as (xs & ys & Hres & _ & Hst).
  exists xs, ys. split; [exact Hres|].
  apply (proj2 (Hst eq_refl)); [reflexivity|lia].
Defined.
